(** * OOP Analyzer: a shallow embedding of the analysis engine

    The development follows the layout of the Python package:

    - [PyStr], [PyVal], [PyDict]: the fragments of Python strings, values and
      insertion-ordered dictionaries that the package relies on;
    - [Ast]: the part of Python's abstract syntax the rules inspect;
    - [RuleViolation], [RuleResult], [BaseRule]: [rules/base.py];
    - [AnalysisReport]: [formatters/base.py];
    - [SafetyReport], [Safety]: [safety.py];
    - [Json], [RuleConfig], [AnalyzerConfig]: [config.py] and the JSON form
      of a configuration;
    - [OOPAnalyzer]: [analyzer.py];
    - [XMLFormatter]: the element names of [formatters/xml_formatter.py];
    - [Options], [BooleanFlag], [TypeCode], [Polymorphism],
      [FunctionsToObjects], [Encapsulation]: the corresponding modules of
      [rules/];
    - [Samples]: syntax trees and configurations the properties are run on.

    The properties follow the definitions.

    Python integers are [Z]; [len] is [Z.of_nat (length _)].  Identifiers and
    source text are ASCII strings. *)

From stdpp Require Import base strings list gmap pretty.
From Stdlib Require Import ZArith Ascii Lia.

#[local] Set Warnings "-register-all".

#[local] Open Scope string_scope.
#[local] Open Scope list_scope.
#[local] Open Scope Z_scope.

(** ** Python strings *)

Module PyStr.

Definition chars (s : string) : list ascii := String.list_ascii_of_string s.

Definition of_chars (l : list ascii) : string := String.string_of_list_ascii l.

(** [c.isupper()] and [c.islower()] on one ASCII character. *)
Definition char_isupper (c : ascii) : bool :=
  let n := Ascii.nat_of_ascii c in (65 <=? n)%nat && (n <=? 90)%nat.

Definition char_islower (c : ascii) : bool :=
  let n := Ascii.nat_of_ascii c in (97 <=? n)%nat && (n <=? 122)%nat.

Definition char_lower (c : ascii) : ascii :=
  if char_isupper c then Ascii.ascii_of_nat (Ascii.nat_of_ascii c + 32) else c.

Definition char_upper (c : ascii) : ascii :=
  if char_islower c then Ascii.ascii_of_nat (Ascii.nat_of_ascii c - 32) else c.

(** [s.isupper()]: at least one cased character and no lowercase one. *)
Definition isupper (s : string) : bool :=
  existsb char_isupper (chars s) && negb (existsb char_islower (chars s)).

(** [s.lower()]. *)
Definition lower (s : string) : string := of_chars (map char_lower (chars s)).

(** [s.startswith(p)]. *)
Fixpoint startswith (s p : string) : bool :=
  match p with
  | EmptyString => true
  | String c p' =>
      match s with
      | EmptyString => false
      | String d s' => if Ascii.eqb c d then startswith s' p' else false
      end
  end.

(** [s.endswith(p)]. *)
Definition endswith (s p : string) : bool :=
  startswith (of_chars (rev (chars s))) (of_chars (rev (chars p))).

(** [sep.join(parts)]. *)
Fixpoint join (sep : string) (parts : list string) : string :=
  match parts with
  | [] => ""
  | [p] => p
  | p :: rest => p +:+ sep +:+ join sep rest
  end.

(** [s.split(c)] for a one-character separator. *)
Fixpoint split_aux (c : ascii) (cur : list ascii) (s : list ascii) : list string :=
  match s with
  | [] => [of_chars (rev cur)]
  | d :: s' =>
      if Ascii.eqb c d then of_chars (rev cur) :: split_aux c [] s'
      else split_aux c (d :: cur) s'
  end.

Definition split (c : ascii) (s : string) : list string := split_aux c [] (chars s).

(** [s in names] for a tuple or set of strings. *)
Definition mem (s : string) (names : list string) : bool :=
  bool_decide (s ∈ names).

(** First character, [s[0]]; [None] stands for the IndexError on [""]. *)
Definition head (s : string) : option ascii :=
  match s with EmptyString => None | String c _ => Some c end.

(** [str(n)] for an integer. *)
Definition of_int (n : Z) : string := pretty n.

(** ASCII white space removed by [str.strip()]. *)
Definition char_isspace (c : ascii) : bool :=
  let n := Ascii.nat_of_ascii c in
  ((9 <=? n)%nat && (n <=? 13)%nat) || ((28 <=? n)%nat && (n <=? 32)%nat).

Fixpoint lstrip_chars (l : list ascii) : list ascii :=
  match l with
  | c :: l' => if char_isspace c then lstrip_chars l' else l
  | [] => []
  end.

Definition strip (s : string) : string :=
  of_chars (rev (lstrip_chars (rev (lstrip_chars (chars s))))).

(** Line boundaries recognised by [str.splitlines()] among ASCII
    characters: LF, VT, FF, CR (with CR LF taken as one), FS, GS, RS. *)
Definition char_islinebreak (c : ascii) : bool :=
  let n := Ascii.nat_of_ascii c in
  ((10 <=? n)%nat && (n <=? 13)%nat) || ((28 <=? n)%nat && (n <=? 30)%nat).

Fixpoint splitlines_aux (cur : list ascii) (s : list ascii) : list string :=
  match s with
  | [] => match cur with [] => [] | _ => [of_chars (rev cur)] end
  | c :: s' =>
      if char_islinebreak c then
        of_chars (rev cur) ::
          match s' with
          | d :: s'' =>
              if (Ascii.nat_of_ascii c =? 13)%nat && (Ascii.nat_of_ascii d =? 10)%nat
              then splitlines_aux [] s''
              else splitlines_aux [] s'
          | [] => []
          end
      else splitlines_aux (c :: cur) s'
  end.

Definition splitlines (s : string) : list string := splitlines_aux [] (chars s).

(** [repr(s)] of a string: single quotes, unless the string has a single
    quote and no double quote; backslash, the chosen quote and control
    characters are escaped. *)
Definition hex_digit (n : nat) : ascii :=
  if (n <? 10)%nat then Ascii.ascii_of_nat (48 + n) else Ascii.ascii_of_nat (87 + n).

Definition backslash : ascii := Ascii.ascii_of_nat 92.
Definition single_quote : ascii := Ascii.ascii_of_nat 39.
Definition double_quote : ascii := Ascii.ascii_of_nat 34.

Definition repr_char (quote : ascii) (c : ascii) : list ascii :=
  let n := Ascii.nat_of_ascii c in
  if Ascii.eqb c quote then [backslash; c]
  else if (n =? 92)%nat then [backslash; backslash]
  else if (n =? 10)%nat then [backslash; "n"%char]
  else if (n =? 13)%nat then [backslash; "r"%char]
  else if (n =? 9)%nat then [backslash; "t"%char]
  else if (n <? 32)%nat || (n =? 127)%nat then
    [backslash; "x"%char; hex_digit (n / 16); hex_digit (n mod 16)]
  else [c].

Definition repr (s : string) : string :=
  let cs := chars s in
  let quote :=
    if existsb (Ascii.eqb single_quote) cs && negb (existsb (Ascii.eqb double_quote) cs)
    then double_quote else single_quote in
  of_chars ([quote] ++ flat_map (repr_char quote) cs ++ [quote]).

(** [s.title()]: the first letter of each run of letters in upper case,
    the others in lower case. *)
Fixpoint title_chars (prev_cased : bool) (l : list ascii) : list ascii :=
  match l with
  | [] => []
  | c :: l' =>
      if char_isupper c || char_islower c then
        (if prev_cased then char_lower c else char_upper c) :: title_chars true l'
      else c :: title_chars false l'
  end.

Definition title (s : string) : string := of_chars (title_chars false (chars s)).

(** [s.replace(c, "")] for a one-character [c]. *)
Definition remove_char (c : ascii) (s : string) : string :=
  of_chars (List.filter (fun d => negb (Ascii.eqb c d)) (chars s)).

(** [s.replace(c, d)] for one-character [c] and [d]. *)
Definition replace_char (c d : ascii) (s : string) : string :=
  of_chars (map (fun x => if Ascii.eqb c x then d else x) (chars s)).

(** [c.isalpha()] on one ASCII character. *)
Definition char_isalpha (c : ascii) : bool := char_isupper c || char_islower c.

(** The line feed, ["\n"]. *)
Definition newline : string := String (Ascii.ascii_of_nat 10) EmptyString.

End PyStr.

(** ** Python values

    The values that occur in option mappings, summaries and violation
    metadata: [None], booleans, integers, strings, lists, tuples and
    dictionaries with string keys. *)

Module PyVal.

#[local] Unset Elimination Schemes.

Inductive pyval : Type :=
| PNone
| PBool (b : bool)
| PInt (n : Z)
| PStr (s : string)
| PList (items : list pyval)
| PTuple (items : list pyval)
| PDict (entries : list (string * pyval)).

#[local] Set Elimination Schemes.

(** Induction over values that reaches the elements of containers. *)
Fixpoint pyval_ind (P : pyval -> Prop)
    (HNone : P PNone)
    (HBool : forall b, P (PBool b))
    (HInt : forall n, P (PInt n))
    (HStr : forall s, P (PStr s))
    (HList : forall items, Forall P items -> P (PList items))
    (HTuple : forall items, Forall P items -> P (PTuple items))
    (HDict : forall entries, Forall (fun kv => P (snd kv)) entries -> P (PDict entries))
    (v : pyval) {struct v} : P v :=
  let rec := pyval_ind P HNone HBool HInt HStr HList HTuple HDict in
  match v with
  | PNone => HNone
  | PBool b => HBool b
  | PInt n => HInt n
  | PStr s => HStr s
  | PList items =>
      HList items
        ((fix go (l : list pyval) : Forall P l :=
            match l with
            | [] => @List.Forall_nil _ P
            | x :: l' => @List.Forall_cons _ P x l' (rec x) (go l')
            end) items)
  | PTuple items =>
      HTuple items
        ((fix go (l : list pyval) : Forall P l :=
            match l with
            | [] => @List.Forall_nil _ P
            | x :: l' => @List.Forall_cons _ P x l' (rec x) (go l')
            end) items)
  | PDict entries =>
      HDict entries
        ((fix go (l : list (string * pyval)) : Forall (fun kv => P (snd kv)) l :=
            match l with
            | [] => @List.Forall_nil _ (fun kv => P (snd kv))
            | kv :: l' => @List.Forall_cons _ (fun kv => P (snd kv)) kv l' (rec (snd kv)) (go l')
            end) entries)
  end.

End PyVal.
Export PyVal.

(** ** Python dictionaries

    A [dict] with string keys, kept in insertion order: assigning to a key
    that is present replaces its value in place, assigning to a new key
    appends the entry. *)

Module PyDict.

Definition dict (V : Type) : Type := list (string * V).

Section Ops.
Context {V : Type}.

Definition empty : dict V := [].

(** [d.get(k)] *)
Fixpoint get (k : string) (d : dict V) : option V :=
  match d with
  | [] => None
  | (k', v) :: d' => if bool_decide (k = k') then Some v else get k d'
  end.

(** [d.get(k, default)] *)
Definition get_default (k : string) (default : V) (d : dict V) : V :=
  match get k d with Some v => v | None => default end.

(** [k in d] *)
Definition contains (k : string) (d : dict V) : bool :=
  match get k d with Some _ => true | None => false end.

(** [d[k] = v] *)
Fixpoint set (k : string) (v : V) (d : dict V) : dict V :=
  match d with
  | [] => [(k, v)]
  | (k', v') :: d' =>
      if bool_decide (k = k') then (k, v) :: d' else (k', v') :: set k v d'
  end.

Definition keys (d : dict V) : list string := map fst d.
Definition values (d : dict V) : list V := map snd d.
Definition items (d : dict V) : list (string * V) := d.

(** [d.update(other)] *)
Definition update (other : dict V) (d : dict V) : dict V :=
  fold_left (fun acc kv => set (fst kv) (snd kv) acc) other d.

(** The dictionary built from a sequence of pairs, [dict(pairs)]. *)
Definition of_pairs (pairs : list (string * V)) : dict V := update pairs empty.

End Ops.

End PyDict.

Abbreviation dict := PyDict.dict.

(** ** Abstract syntax

    The node classes of Python's [ast] module that the rules inspect, with
    their fields in the order of [_fields] (the order in which
    [NodeVisitor.generic_visit] walks them).  Positions are kept on the nodes
    whose [lineno] and [col_offset] the rules read. *)

Module Ast.

Record pos : Type := Pos { lineno : Z; col_offset : Z }.

Inductive constant : Type :=
| CNone
| CBool (b : bool)
| CInt (n : Z)
| CStr (s : string)
| CEllipsis.

Inductive boolop : Type := And | Or.
Inductive unaryop : Type := Invert | Not | UAdd | USub.
Inductive operator : Type := Add | Sub | Mult | Div | Mod | Pow | FloorDiv.
Inductive cmpop : Type := Eq | NotEq | Lt | LtE | Gt | GtE | Is | IsNot | In | NotIn.

#[local] Unset Elimination Schemes.

Inductive expr : Type :=
| BoolOp (op : boolop) (values : list expr)
| BinOp (left : expr) (op : operator) (right : expr)
| UnaryOp (op : unaryop) (operand : expr)
| IfExp (test body orelse : expr)
| Dict (keys : list (option expr)) (values : list expr)
| Compare (left : expr) (ops : list cmpop) (comparators : list expr)
| Call (func : expr) (args : list expr) (keywords : list (option string * expr))
| Constant (value : constant)
| Attribute (p : pos) (value : expr) (attr : string)
| Subscript (value slice : expr)
| Name (id : string)
| List (elts : list expr)
| Tuple (elts : list expr).

#[local] Set Elimination Schemes.

(** [ast.arg] and [ast.arguments]. *)
Record arg : Type := Arg { arg_name : string; annotation : option expr }.

Record arguments : Type := Arguments {
  posonlyargs : list arg;
  args : list arg;
  vararg : option arg;
  kwonlyargs : list arg;
  kw_defaults : list (option expr);
  kwarg : option arg;
  defaults : list expr
}.

(** [ast.alias] of an import. *)
Record alias : Type := Alias { alias_name : string; asname : option string }.

(** Patterns of [match] statements: a value pattern or a capture or
    wildcard. *)
Inductive pattern : Type :=
| MatchValue (value : expr)
| MatchAs (name : option string).

#[local] Unset Elimination Schemes.

Inductive stmt : Type :=
| FunctionDef (p : pos) (name : string) (a : arguments) (body : list stmt)
    (decorator_list : list expr) (returns : option expr)
| AsyncFunctionDef (p : pos) (name : string) (a : arguments) (body : list stmt)
    (decorator_list : list expr) (returns : option expr)
| ClassDef (name : string) (bases : list expr)
    (keywords : list (option string * expr)) (body : list stmt)
    (decorator_list : list expr)
| Return (value : option expr)
| Assign (targets : list expr) (value : expr)
| For (target iter : expr) (body orelse : list stmt)
| While (test : expr) (body orelse : list stmt)
| If (p : pos) (test : expr) (body orelse : list stmt)
| Match (p : pos) (subject : expr)
    (cases : list (pattern * option expr * list stmt))
| Import (names : list alias)
| ImportFrom (module : option string) (names : list alias) (level : Z)
| Expr (value : expr)
| Pass.

#[local] Set Elimination Schemes.

(** Induction over expressions that reaches the elements of the lists. *)
Fixpoint expr_ind (P : expr -> Prop)
    (HBoolOp : forall op values, Forall P values -> P (BoolOp op values))
    (HBinOp : forall lhs op rhs, P lhs -> P rhs -> P (BinOp lhs op rhs))
    (HUnaryOp : forall op operand, P operand -> P (UnaryOp op operand))
    (HIfExp : forall test body orelse,
        P test -> P body -> P orelse -> P (IfExp test body orelse))
    (HDict : forall keys values,
        Forall (fun k => match k with Some k => P k | None => True end) keys ->
        Forall P values -> P (Dict keys values))
    (HCompare : forall lhs ops comparators,
        P lhs -> Forall P comparators -> P (Compare lhs ops comparators))
    (HCall : forall func args keywords,
        P func -> Forall P args -> Forall (fun kw => P (snd kw)) keywords ->
        P (Call func args keywords))
    (HConstant : forall value, P (Constant value))
    (HAttribute : forall p value attr, P value -> P (Attribute p value attr))
    (HSubscript : forall value slice, P value -> P slice -> P (Subscript value slice))
    (HName : forall id, P (Name id))
    (HList : forall elts, Forall P elts -> P (List elts))
    (HTuple : forall elts, Forall P elts -> P (Tuple elts))
    (e : expr) {struct e} : P e :=
  let rec :=
    expr_ind P HBoolOp HBinOp HUnaryOp HIfExp HDict HCompare HCall HConstant
      HAttribute HSubscript HName HList HTuple in
  let all :=
    fix go (l : list expr) : Forall P l :=
      match l with
      | [] => @List.Forall_nil _ P
      | x :: l' => @List.Forall_cons _ P x l' (rec x) (go l')
      end in
  match e with
  | BoolOp op values => HBoolOp op values (all values)
  | BinOp lhs op rhs => HBinOp lhs op rhs (rec lhs) (rec rhs)
  | UnaryOp op operand => HUnaryOp op operand (rec operand)
  | IfExp test body orelse => HIfExp test body orelse (rec test) (rec body) (rec orelse)
  | Dict keys values =>
      HDict keys values
        ((fix go (l : list (option expr))
            : Forall (fun k => match k with Some k => P k | None => True end) l :=
            match l with
            | [] => @List.Forall_nil _ _
            | k :: l' =>
                @List.Forall_cons _
                  (fun k => match k with Some k => P k | None => True end) k l'
                  (match k with Some k => rec k | None => I end) (go l')
            end) keys)
        (all values)
  | Compare lhs ops comparators =>
      HCompare lhs ops comparators (rec lhs) (all comparators)
  | Call func args keywords =>
      HCall func args keywords (rec func) (all args)
        ((fix go (l : list (option string * expr)) : Forall (fun kw => P (snd kw)) l :=
            match l with
            | [] => @List.Forall_nil _ _
            | kw :: l' =>
                @List.Forall_cons _ (fun kw => P (snd kw)) kw l' (rec (snd kw)) (go l')
            end) keywords)
  | Constant value => HConstant value
  | Attribute p value attr => HAttribute p value attr (rec value)
  | Subscript value slice => HSubscript value slice (rec value) (rec slice)
  | Name id => HName id
  | List elts => HList elts (all elts)
  | Tuple elts => HTuple elts (all elts)
  end.

(** Induction over statements that reaches the statements of the bodies. *)
Fixpoint stmt_ind (P : stmt -> Prop)
    (HFunctionDef : forall p name a body decorator_list returns,
        Forall P body -> P (FunctionDef p name a body decorator_list returns))
    (HAsyncFunctionDef : forall p name a body decorator_list returns,
        Forall P body -> P (AsyncFunctionDef p name a body decorator_list returns))
    (HClassDef : forall name bases keywords body decorator_list,
        Forall P body -> P (ClassDef name bases keywords body decorator_list))
    (HReturn : forall value, P (Return value))
    (HAssign : forall targets value, P (Assign targets value))
    (HFor : forall target iter body orelse,
        Forall P body -> Forall P orelse -> P (For target iter body orelse))
    (HWhile : forall test body orelse,
        Forall P body -> Forall P orelse -> P (While test body orelse))
    (HIf : forall p test body orelse,
        Forall P body -> Forall P orelse -> P (If p test body orelse))
    (HMatch : forall p subject cases,
        Forall (fun c => Forall P (snd c)) cases -> P (Match p subject cases))
    (HImport : forall names, P (Import names))
    (HImportFrom : forall module names level, P (ImportFrom module names level))
    (HExpr : forall value, P (Expr value))
    (HPass : P Pass)
    (s : stmt) {struct s} : P s :=
  let rec :=
    stmt_ind P HFunctionDef HAsyncFunctionDef HClassDef HReturn HAssign HFor HWhile
      HIf HMatch HImport HImportFrom HExpr HPass in
  let all :=
    fix go (l : list stmt) : Forall P l :=
      match l with
      | [] => @List.Forall_nil _ P
      | x :: l' => @List.Forall_cons _ P x l' (rec x) (go l')
      end in
  match s with
  | FunctionDef p name a body decorator_list returns =>
      HFunctionDef p name a body decorator_list returns (all body)
  | AsyncFunctionDef p name a body decorator_list returns =>
      HAsyncFunctionDef p name a body decorator_list returns (all body)
  | ClassDef name bases keywords body decorator_list =>
      HClassDef name bases keywords body decorator_list (all body)
  | Return value => HReturn value
  | Assign targets value => HAssign targets value
  | For target iter body orelse => HFor target iter body orelse (all body) (all orelse)
  | While test body orelse => HWhile test body orelse (all body) (all orelse)
  | If p test body orelse => HIf p test body orelse (all body) (all orelse)
  | Match p subject cases =>
      HMatch p subject cases
        ((fix go (l : list (pattern * option expr * list stmt))
            : Forall (fun c => Forall P (snd c)) l :=
            match l with
            | [] => @List.Forall_nil _ _
            | c :: l' =>
                @List.Forall_cons _ (fun c => Forall P (snd c)) c l' (all (snd c)) (go l')
            end) cases)
  | Import names => HImport names
  | ImportFrom module names level => HImportFrom module names level
  | Expr value => HExpr value
  | Pass => HPass
  end.

(** [ast.Module]: the body of a source file. *)
Record Module : Type := MkModule { mod_body : list stmt }.

(** *** Traversal

    [ast.walk] and a [NodeVisitor] whose handlers all continue with
    [generic_visit] reach every node below their starting point; the
    functions below list the statement and expression nodes reached, in
    the depth-first order of [generic_visit]. *)

Inductive node : Type :=
| NStmt (s : stmt)
| NExpr (e : expr).

Definition opt_expr (o : option expr) : list expr :=
  match o with Some e => [e] | None => [] end.

Fixpoint subexprs (e : expr) : list expr :=
  e ::
  match e with
  | BoolOp _ values => flat_map subexprs values
  | BinOp lhs _ rhs => subexprs lhs ++ subexprs rhs
  | UnaryOp _ operand => subexprs operand
  | IfExp test body orelse => subexprs test ++ subexprs body ++ subexprs orelse
  | Dict keys values =>
      flat_map (fun k => match k with Some k => subexprs k | None => [] end) keys
      ++ flat_map subexprs values
  | Compare lhs _ comparators => subexprs lhs ++ flat_map subexprs comparators
  | Call func args keywords =>
      subexprs func ++ flat_map subexprs args
      ++ flat_map (fun kw => subexprs (snd kw)) keywords
  | Constant _ => []
  | Attribute _ value _ => subexprs value
  | Subscript value slice => subexprs value ++ subexprs slice
  | Name _ => []
  | List elts => flat_map subexprs elts
  | Tuple elts => flat_map subexprs elts
  end.

Definition expr_nodes (es : list expr) : list node :=
  map NExpr (flat_map subexprs es).

Definition arg_exprs (a : arg) : list expr := opt_expr (annotation a).

(** The expressions below an [arguments] node. *)
Definition arguments_exprs (a : arguments) : list expr :=
  flat_map arg_exprs (posonlyargs a)
  ++ flat_map arg_exprs (args a)
  ++ flat_map arg_exprs (option_list (vararg a))
  ++ flat_map arg_exprs (kwonlyargs a)
  ++ flat_map opt_expr (kw_defaults a)
  ++ flat_map arg_exprs (option_list (kwarg a))
  ++ defaults a.

Definition pattern_exprs (p : pattern) : list expr :=
  match p with MatchValue value => [value] | MatchAs _ => [] end.

Fixpoint walk (s : stmt) : list node :=
  NStmt s ::
  match s with
  | FunctionDef _ _ a body decorator_list returns
  | AsyncFunctionDef _ _ a body decorator_list returns =>
      expr_nodes (arguments_exprs a) ++ flat_map walk body
      ++ expr_nodes decorator_list ++ expr_nodes (opt_expr returns)
  | ClassDef _ bases keywords body decorator_list =>
      expr_nodes bases ++ expr_nodes (map snd keywords) ++ flat_map walk body
      ++ expr_nodes decorator_list
  | Return value => expr_nodes (opt_expr value)
  | Assign targets value => expr_nodes targets ++ expr_nodes [value]
  | For target iter body orelse =>
      expr_nodes [target; iter] ++ flat_map walk body ++ flat_map walk orelse
  | While test body orelse =>
      expr_nodes [test] ++ flat_map walk body ++ flat_map walk orelse
  | If _ test body orelse =>
      expr_nodes [test] ++ flat_map walk body ++ flat_map walk orelse
  | Match _ subject cases =>
      expr_nodes [subject]
      ++ flat_map
           (fun c =>
              expr_nodes (pattern_exprs (fst (fst c)) ++ opt_expr (snd (fst c)))
              ++ flat_map walk (snd c))
           cases
  | Import _ => []
  | ImportFrom _ _ _ => []
  | Expr value => expr_nodes [value]
  | Pass => []
  end.

(** The tests of the [if]/[elif] chain that starts at an [If] node: the
    chain continues while [orelse] is a single [If]. *)
Fixpoint chain_tests (s : stmt) : list expr :=
  match s with
  | If _ test _ orelse =>
      test ::
      match orelse with
      | [next] => match next with If _ _ _ _ => chain_tests next | _ => [] end
      | _ => []
      end
  | _ => []
  end.

(** [".".join] of the attribute names of a chain, preceded by the base
    name when the chain starts at a [Name]: the visitors'
    [_get_full_attribute] and [_get_attribute_name]. *)
Fixpoint attribute_parts (e : expr) : list string :=
  match e with
  | Attribute _ value attr => attribute_parts value ++ [attr]
  | Name id => [id]
  | _ => []
  end.

Definition dotted_name (e : expr) : string := PyStr.join "." (attribute_parts e).

(** [None] or a string, as a Python value and as [str(...)]. *)
Definition opt_str_val (o : option string) : pyval :=
  match o with Some s => PStr s | None => PNone end.

Definition opt_str_text (o : option string) : string :=
  match o with Some s => s | None => "None" end.

(** Statements without statements inside: [return], assignments,
    expression statements, imports and [pass]. *)
Definition is_simple_stmt (s : stmt) : bool :=
  match s with
  | Return _ | Assign _ _ | Import _ | ImportFrom _ _ _ | Expr _ | Pass => true
  | _ => false
  end.

(** The expression [base.a1. ... .an]: attribute accesses on a name, the
    last one outermost, each with the position of its node. *)
Definition attribute_access (base : string) (attrs : list (pos * string)) : expr :=
  fold_left (fun e pa => Attribute (fst pa) e (snd pa)) attrs (Name base).

(** The [if]/[elif] chain that starts with the branch [(p, test, body)]
    and goes on with the branches of [rest]: each further branch is the
    single statement in [orelse] of the one before it, and [final] is the
    [orelse] of the last branch ([[]] when the chain has no [else]). *)
Fixpoint if_chain (p : pos) (test : expr) (body : list stmt)
    (rest : list (pos * expr * list stmt)) (final : list stmt) : stmt :=
  match rest with
  | [] => If p test body final
  | (p', test', body') :: rest' =>
      If p test body [if_chain p' test' body' rest' final]
  end.

End Ast.

(** ** Exceptions

    A call either returns or raises.  [SyntaxError] stands for the class and
    its subclasses; [Exception cls msg] for an instance of any other subclass
    of Python's [Exception], with its class name and [str(e)].  Signals that
    derive from [BaseException] only (KeyboardInterrupt, SystemExit) are not
    modelled. *)

Inductive exception : Type :=
| SyntaxError (msg : string)
| Exception (cls msg : string).

(** [str(e)] *)
Definition str_of_exception (e : exception) : string :=
  match e with SyntaxError msg => msg | Exception _ msg => msg end.

(** [isinstance(e, SyntaxError)] *)
Definition is_SyntaxError (e : exception) : bool :=
  match e with SyntaxError _ => true | Exception _ _ => false end.

Inductive outcome (A : Type) : Type :=
| Return (a : A)
| Raise (e : exception).

Arguments Return {A} a.
Arguments Raise {A} e.

(** ** rules/base.py *)

Module RuleViolation.

Record t : Type := mk {
  rule_name : string;
  message : string;
  file_path : string;
  line : Z;
  column : Z;
  severity : string;
  suggestion : option string;
  code_snippet : option string;
  metadata : dict pyval
}.

End RuleViolation.

Module RuleResult.

Record t : Type := mk {
  rule_name : string;
  violations : list RuleViolation.t;
  summary : dict pyval;
  metadata : dict pyval
}.

(** [len(self.violations)] *)
Definition violation_count (r : t) : Z := Z.of_nat (length (violations r)).

(** [len(self.violations) > 0] *)
Definition has_violations (r : t) : bool := 0 <? Z.of_nat (length (violations r)).

End RuleResult.

(** [BaseRule]: a rule has a name and an [analyze] method, which returns a
    result or raises. *)
Module BaseRule.

Record t : Type := mk {
  name : string;
  analyze : Ast.Module -> string -> string -> outcome RuleResult.t
}.

(** [get_source_line]: line [line_number] of the source, counted from 1,
    or the empty string. *)
Definition get_source_line (source : string) (line_number : Z) : string :=
  let lines := PyStr.splitlines source in
  if (1 <=? line_number) && (line_number <=? Z.of_nat (length lines))
  then default "" (lines !! Z.to_nat (line_number - 1))
  else "".

(** [lines[start:stop]]: an index below zero counts from the end of the
    list, and both indices are brought into the range of the list. *)
Definition slice {A : Type} (l : list A) (start stop : Z) : list A :=
  let len := Z.of_nat (length l) in
  let clamp (i : Z) := if i <? 0 then Z.max 0 (len + i) else Z.min len i in
  take (Z.to_nat (clamp stop - clamp start)) (drop (Z.to_nat (clamp start)) l).

(** [get_source_context]; [context_lines] defaults to 2. *)
Definition get_source_context (source : string) (line_number context_lines : Z)
    : string :=
  let lines := PyStr.splitlines source in
  let start := Z.max 0 (line_number - context_lines - 1) in
  let stop := Z.min (Z.of_nat (length lines)) (line_number + context_lines) in
  PyStr.join PyStr.newline (slice lines start stop).

(** The loop of [analyze_multiple]: an exception of [analyze] ends it. *)
Fixpoint analyze_files (self : t) (files : list (Ast.Module * string * string))
    (all_violations : list RuleViolation.t)
    (combined_summary combined_metadata : dict pyval) : outcome RuleResult.t :=
  match files with
  | [] =>
      Return (RuleResult.mk (name self) all_violations combined_summary
                combined_metadata)
  | (tree, source, file_path) :: rest =>
      match analyze self tree source file_path with
      | Return result =>
          analyze_files self rest
            (all_violations ++ RuleResult.violations result)
            (PyDict.update (RuleResult.summary result) combined_summary)
            (PyDict.update (RuleResult.metadata result) combined_metadata)
      | Raise e => Raise e
      end
  end.

(** [analyze_multiple], as [BaseRule] implements it. *)
Definition analyze_multiple (self : t) (files : list (Ast.Module * string * string))
    : outcome RuleResult.t :=
  analyze_files self files [] [] [].

End BaseRule.

(** The visitors' [_get_source_line]: the same line, stripped. *)
Definition _get_source_line (source : string) (line_number : Z) : string :=
  let lines := PyStr.splitlines source in
  if (1 <=? line_number) && (line_number <=? Z.of_nat (length lines))
  then PyStr.strip (default "" (lines !! Z.to_nat (line_number - 1)))
  else "".

(** ** formatters/base.py *)

Module AnalysisReport.

Record t : Type := mk {
  files_analyzed : list string;
  results : dict RuleResult.t;
  timestamp : Z;
  config : pyval;
  errors : list (dict pyval)
}.

(** [sum(r.violation_count for r in self.results.values())] *)
Definition total_violations (r : t) : Z :=
  fold_left Z.add (map RuleResult.violation_count (PyDict.values (results r))) 0.

(** [violations_by_severity]: counts per severity, starting from the three
    fixed keys. *)
Definition violations_by_severity (r : t) : dict Z :=
  fold_left
    (fun counts res =>
       fold_left
         (fun counts v =>
            let severity := RuleViolation.severity v in
            PyDict.set severity (PyDict.get_default severity 0 counts + 1) counts)
         (RuleResult.violations res) counts)
    (PyDict.values (results r))
    [("error", 0); ("warning", 0); ("info", 0)].

(** [rules_with_violations] *)
Definition rules_with_violations (r : t) : list string :=
  map fst (filter (fun kv => RuleResult.has_violations (snd kv) = true)
             (PyDict.items (results r))).

End AnalysisReport.

(** ** safety.py *)

Module SafetyReport.

Record t : Type := mk {
  is_safe : bool;
  file_path : string;
  issues : list string
}.

(** [__bool__] *)
Definition bool (r : t) : Datatypes.bool := is_safe r.

End SafetyReport.

Module Safety.

(** What a path denotes on disk, as far as [pathlib] reports it:
    [exists()], [is_file()], [is_dir()] and, for a regular file, the result
    of [stat()]: its size in bytes, or the text of the [OSError] raised. *)
Inductive fs_entry : Type :=
| Missing
| Directory
| RegularFile (stat : Z + string)
| Special.

Definition filesystem : Type := string -> fs_entry.

Definition path_exists (fs : filesystem) (path : string) : bool :=
  match fs path with Missing => false | _ => true end.

Definition path_is_file (fs : filesystem) (path : string) : bool :=
  match fs path with RegularFile _ => true | _ => false end.

Definition path_is_dir (fs : filesystem) (path : string) : bool :=
  match fs path with Directory => true | _ => false end.

(** [path.name]: the final component. *)
Definition path_name (path : string) : string :=
  List.last (PyStr.split "/"%char path) "".

(** [path.suffix]: the part of the name from its last dot, when that dot
    is neither the first nor the last character of the name. *)
Definition path_suffix (path : string) : string :=
  let name := path_name path in
  let parts := PyStr.split "."%char name in
  let ext := List.last parts "" in
  if bool_decide (length parts < 2)%nat then ""
  else if bool_decide (ext = "") then ""
  else if bool_decide (String.length name <= String.length ext + 1)%nat then ""
  else "." +:+ ext.

(** The bare names the class lists as dangerous; no method reads them. *)
Definition DANGEROUS_PATTERNS : list string :=
  ["exec"; "eval"; "compile"; "__import__"; "open"; "subprocess";
   "os.system"; "os.popen"].

Definition MAX_FILE_SIZE_BYTES : Z := 10 * 1024 * 1024.

Record SafetyValidator : Type := mkSafetyValidator { max_file_size : Z }.

(** [x or default] on an optional integer: [None] and [0] are falsy. *)
Definition int_or (x : option Z) (default : Z) : Z :=
  match x with
  | None => default
  | Some n => if n =? 0 then default else n
  end.

(** [SafetyValidator.__init__] *)
Definition __init__ (max_file_size : option Z) : SafetyValidator :=
  {| max_file_size := int_or max_file_size MAX_FILE_SIZE_BYTES |}.

(** [validate_file_path] *)
Definition validate_file_path (self : SafetyValidator) (fs : filesystem)
    (path : string) : SafetyReport.t :=
  match fs path with
  | Missing => SafetyReport.mk false path ["File does not exist: " +:+ path]
  | Directory | Special =>
      SafetyReport.mk false path ["Path is not a file: " +:+ path]
  | RegularFile stat =>
      if negb (bool_decide (path_suffix path = ".py")) then
        SafetyReport.mk false path ["File is not a Python file: " +:+ path]
      else
        match stat with
        | inl file_size =>
            if max_file_size self <? file_size then
              SafetyReport.mk false path
                ["File too large: " +:+ PyStr.of_int file_size
                 +:+ " bytes (max: " +:+ PyStr.of_int (max_file_size self)
                 +:+ " bytes)"]
            else SafetyReport.mk true path []
        | inr e => SafetyReport.mk false path ["Cannot access file: " +:+ e]
        end
  end.

(** [validate_directory] *)
Definition validate_directory (fs : filesystem) (path : string) : SafetyReport.t :=
  if negb (path_exists fs path) then
    SafetyReport.mk false path ["Directory does not exist: " +:+ path]
  else if negb (path_is_dir fs path) then
    SafetyReport.mk false path ["Path is not a directory: " +:+ path]
  else SafetyReport.mk true path [].

Section Collect.

(** [list(path.rglob("*.py"))] of [pathlib]: the Python files below a
    directory. *)
Variable rglob_py : string -> list string.

(** [collect_python_files] *)
Definition collect_python_files (fs : filesystem) (path : string) : list string :=
  if path_is_file fs path then
    if bool_decide (path_suffix path = ".py") then [path] else []
  else if path_is_dir fs path then rglob_py path
  else [].

End Collect.

Section Parser.

(** [ast.parse(source, filename)] of the standard library: the one call
    the two methods make with the text. *)
Variable ast_parse : string -> string -> outcome Ast.Module.

(** [validate_source_code]; [ast.parse(source)] uses the default file
    name ["<unknown>"], and [except SyntaxError] handles that class
    only. *)
Definition validate_source_code (source file_path : string)
    : outcome SafetyReport.t :=
  match ast_parse source "<unknown>" with
  | Return _ => Return (SafetyReport.mk true file_path [])
  | Raise e =>
      if is_SyntaxError e then
        Return (SafetyReport.mk false file_path
                  ["Syntax error in source: " +:+ str_of_exception e])
      else Raise e
  end.

(** [parse_safely]: the tree [ast.parse] returns, [None] for a
    [SyntaxError]. *)
Definition parse_safely (source file_path : string)
    : outcome (option Ast.Module) :=
  match ast_parse source file_path with
  | Return tree => Return (Some tree)
  | Raise e => if is_SyntaxError e then Return None else Raise e
  end.

End Parser.

End Safety.

(** ** JSON documents

    The persisted form of a configuration.  [dump] is what [json.dump]
    writes for a value and [load] what [json.load] builds from a document:
    lists and tuples are both written as arrays, arrays are read back as
    lists, and an object is read back entry by entry into a dictionary. *)

Module Json.

Inductive json : Type :=
| JNull
| JBool (b : bool)
| JInt (n : Z)
| JString (s : string)
| JArray (items : list json)
| JObject (members : list (string * json)).

Fixpoint dump (v : pyval) : json :=
  match v with
  | PNone => JNull
  | PBool b => JBool b
  | PInt n => JInt n
  | PStr s => JString s
  | PList items => JArray (map dump items)
  | PTuple items => JArray (map dump items)
  | PDict entries => JObject (map (fun kv => (fst kv, dump (snd kv))) entries)
  end.

Fixpoint load (j : json) : pyval :=
  match j with
  | JNull => PNone
  | JBool b => PBool b
  | JInt n => PInt n
  | JString s => PStr s
  | JArray items => PList (map load items)
  | JObject members =>
      PDict (PyDict.of_pairs (map (fun kv => (fst kv, load (snd kv))) members))
  end.

(** A value denotes a Python value when the keys of each dictionary in it
    are distinct. *)
Fixpoint wf (v : pyval) : bool :=
  match v with
  | PList items | PTuple items => forallb wf items
  | PDict entries =>
      bool_decide (NoDup (map fst entries)) && forallb (fun kv => wf (snd kv)) entries
  | _ => true
  end.

(** No tuple occurs in the value. *)
Fixpoint tuple_free (v : pyval) : bool :=
  match v with
  | PList items => forallb tuple_free items
  | PTuple _ => false
  | PDict entries => forallb (fun kv => tuple_free (snd kv)) entries
  | _ => true
  end.

End Json.

(** ** config.py *)

Module RuleConfig.

Record t : Type := mk {
  enabled : bool;
  severity : string;
  options : dict pyval
}.

(** [RuleConfig()] *)
Definition default : t := mk true "warning" [].

End RuleConfig.

Module AnalyzerConfig.

Record t : Type := mk {
  rules : dict RuleConfig.t;
  output_format : string;
  include_patterns : list string;
  exclude_patterns : list string;
  max_file_size : Z
}.

Definition set_rules (rs : dict RuleConfig.t) (self : t) : t :=
  mk rs (output_format self) (include_patterns self) (exclude_patterns self)
     (max_file_size self).

Definition AVAILABLE_RULES : dict string :=
  [("encapsulation", "Check for direct property access (tell don't ask)");
   ("coupling", "Measure coupling and show dependency graph");
   ("null_object", "Detect None usage replaceable by Null Object pattern");
   ("polymorphism", "Find if blocks replaceable by polymorphism");
   ("functions_to_objects", "Detect functions that could be objects");
   ("type_code", "Detect type code conditionals replaceable by polymorphism");
   ("reference_exposure", "Detect methods exposing internal mutable state");
   ("dictionary_usage", "Detect dictionary usage that should be objects");
   ("boolean_flag", "Detect boolean flag parameters causing behavior branching")].

Definition default_include_patterns : list string := ["*.py"].
Definition default_exclude_patterns : list string :=
  ["**/test_*.py"; "**/*_test.py"; "**/tests/**"].
Definition default_max_file_size : Z := 10 * 1024 * 1024.

(** [__post_init__]: every available rule without an entry gets the
    default one. *)
Definition __post_init__ (self : t) : t :=
  fold_left
    (fun self rule_name =>
       if PyDict.contains rule_name (rules self) then self
       else set_rules (PyDict.set rule_name RuleConfig.default (rules self)) self)
    (PyDict.keys AVAILABLE_RULES) self.

(** The dataclass constructor: the fields, then [__post_init__]. *)
Definition new (rules : dict RuleConfig.t) (output_format : string)
    (include_patterns exclude_patterns : list string) (max_file_size : Z) : t :=
  __post_init__
    (mk rules output_format include_patterns exclude_patterns max_file_size).

(** [AnalyzerConfig.default()] *)
Definition default : t :=
  new [] "json" default_include_patterns default_exclude_patterns
    default_max_file_size.

Definition enable_rule (rule_name : string) (options : dict pyval) (self : t)
    : outcome t :=
  if negb (PyDict.contains rule_name AVAILABLE_RULES) then
    Raise (Exception "ValueError" ("Unknown rule: " +:+ rule_name))
  else
    Return (set_rules
              (PyDict.set rule_name (RuleConfig.mk true "warning" options)
                 (rules self)) self).

Definition disable_rule (rule_name : string) (self : t) : t :=
  match PyDict.get rule_name (rules self) with
  | Some c =>
      set_rules
        (PyDict.set rule_name
           (RuleConfig.mk false (RuleConfig.severity c) (RuleConfig.options c))
           (rules self)) self
  | None => self
  end.

Definition enable_only (rule_names : list string) (self : t) : t :=
  fold_left
    (fun self rule_name =>
       set_rules
         (PyDict.set rule_name
            (RuleConfig.mk (PyStr.mem rule_name rule_names) "warning" [])
            (rules self)) self)
    (PyDict.keys AVAILABLE_RULES) self.

Definition get_enabled_rules (self : t) : list string :=
  map fst (filter (fun kv => RuleConfig.enabled (snd kv) = true)
             (PyDict.items (rules self))).

Definition is_rule_enabled (rule_name : string) (self : t) : bool :=
  match PyDict.get rule_name (rules self) with
  | Some c => RuleConfig.enabled c
  | None => false
  end.

(** The entry [to_dict] writes for a rule. *)
Definition rule_entry (kv : string * RuleConfig.t) : string * pyval :=
  (fst kv,
   PDict [("enabled", PBool (RuleConfig.enabled (snd kv)));
          ("severity", PStr (RuleConfig.severity (snd kv)));
          ("options", PDict (RuleConfig.options (snd kv)))]).

(** [to_dict] *)
Definition to_dict (self : t) : pyval :=
  PDict
    [("rules", PDict (map rule_entry (PyDict.items (rules self))));
     ("output_format", PStr (output_format self));
     ("include_patterns", PList (map PStr (include_patterns self)));
     ("exclude_patterns", PList (map PStr (exclude_patterns self)));
     ("max_file_size", PInt (max_file_size self))].

(** The configuration files on disk: the JSON document stored under each
    path that exists. *)
Abbreviation files := (gmap string Json.json).

(** [save]: [json.dump(self.to_dict(), f, indent=2)] *)
Definition save (config_path : string) (self : t) (fs : files) : files :=
  <[config_path := Json.dump (to_dict self)]> fs.

(** Readers of a loaded value at the type a field is annotated with.  A
    value of another type is stored as it is by the source; such
    configurations have no counterpart in the record [t], and the readers
    answer [None] for them. *)
Definition as_bool (v : pyval) : option bool :=
  match v with PBool b => Some b | _ => None end.

Definition as_str (v : pyval) : option string :=
  match v with PStr s => Some s | _ => None end.

Definition as_int (v : pyval) : option Z :=
  match v with PInt n => Some n | _ => None end.

Definition as_dict (v : pyval) : option (dict pyval) :=
  match v with PDict d => Some d | _ => None end.

Definition as_str_list (v : pyval) : option (list string) :=
  match v with PList l => mapM as_str l | _ => None end.

(** One iteration of the loop over [data.get("rules", {}).items()]. *)
Definition load_rule (rules : dict RuleConfig.t) (entry : string * pyval)
    : option (dict RuleConfig.t) :=
  let '(rule_name, rule_data) := entry in
  match rule_data with
  | PBool b => Some (PyDict.set rule_name (RuleConfig.mk b "warning" []) rules)
  | PDict d =>
      enabled ← as_bool (PyDict.get_default "enabled" (PBool true) d);
      severity ← as_str (PyDict.get_default "severity" (PStr "warning") d);
      options ← as_dict (PyDict.get_default "options" (PDict []) d);
      Some (PyDict.set rule_name (RuleConfig.mk enabled severity options) rules)
  | _ => Some rules
  end.

Fixpoint load_rules (rules : dict RuleConfig.t) (entries : list (string * pyval))
    : option (dict RuleConfig.t) :=
  match entries with
  | [] => Some rules
  | entry :: rest => rules' ← load_rule rules entry; load_rules rules' rest
  end.

(** The body of [from_file] after [json.load]. *)
Definition from_data (data : pyval) : option (outcome t) :=
  match data with
  | PDict d =>
      match PyDict.get_default "rules" (PDict []) d with
      | PDict entries =>
          rules ← load_rules [] entries;
          output_format ← as_str (PyDict.get_default "output_format" (PStr "json") d);
          include_patterns ←
            as_str_list (PyDict.get_default "include_patterns"
                           (PList (map PStr default_include_patterns)) d);
          exclude_patterns ←
            as_str_list (PyDict.get_default "exclude_patterns"
                           (PList (map PStr default_exclude_patterns)) d);
          max_file_size ←
            as_int (PyDict.get_default "max_file_size"
                      (PInt default_max_file_size) d);
          Some (Return (new rules output_format include_patterns
                          exclude_patterns max_file_size))
      | _ => Some (Raise (Exception "AttributeError" "object has no attribute 'items'"))
      end
  | _ => Some (Raise (Exception "AttributeError" "object has no attribute 'get'"))
  end.

(** [from_file] *)
Definition from_file (config_path : string) (fs : files) : option (outcome t) :=
  match fs !! config_path with
  | None =>
      Some (Raise (Exception "FileNotFoundError"
                     ("Config file not found: " +:+ config_path)))
  | Some doc => from_data (Json.load doc)
  end.

(** What [__post_init__] establishes and the methods keep: the keys of
    [rules] are distinct, as in any dictionary, and every available rule has
    an entry. *)
Definition invariant (self : t) : Prop :=
  NoDup (PyDict.keys (rules self))
  /\ Forall (fun rule_name => PyDict.contains rule_name (rules self) = true)
       (PyDict.keys AVAILABLE_RULES).

(** The option values of every rule are Python values without tuples:
    [None], booleans, integers, strings, lists and dictionaries of such. *)
Definition options_are_json (self : t) : Prop :=
  Forall (fun kv =>
            Json.wf (PDict (RuleConfig.options (snd kv))) = true
            /\ Json.tuple_free (PDict (RuleConfig.options (snd kv))) = true)
    (rules self).

(** [AnalyzerConfig.minimal()] *)
Definition minimal : t := enable_only ["encapsulation"; "coupling"] default.

End AnalyzerConfig.

(** ** analyzer.py *)

Module OOPAnalyzer.

Section Analyzer.

(** [ast.parse] and the rule registry of [rules/__init__.py], which maps
    a rule name to the constructor of its class. *)
Variable ast_parse : string -> string -> outcome Ast.Module.
Variable RULE_REGISTRY : dict (dict pyval -> BaseRule.t).

Record t : Type := mk {
  config : AnalyzerConfig.t;
  safety : Safety.SafetyValidator;
  _rules : dict BaseRule.t
}.

(** The options handed to a rule's constructor:
    [rule_config.options if rule_config else {}]. *)
Definition rule_options (config : AnalyzerConfig.t) (rule_name : string)
    : dict pyval :=
  match PyDict.get rule_name (AnalyzerConfig.rules config) with
  | Some rule_config => RuleConfig.options rule_config
  | None => []
  end.

(** [_initialize_rules] *)
Definition _initialize_rules (config : AnalyzerConfig.t) : dict BaseRule.t :=
  fold_left
    (fun rules rule_name =>
       match PyDict.get rule_name RULE_REGISTRY with
       | Some rule_class =>
           PyDict.set rule_name (rule_class (rule_options config rule_name)) rules
       | None => rules
       end)
    (AnalyzerConfig.get_enabled_rules config) [].

(** [__init__] *)
Definition __init__ (config : option AnalyzerConfig.t) : t :=
  let config := default AnalyzerConfig.default config in
  mk config
     (Safety.__init__ (Some (AnalyzerConfig.max_file_size config)))
     (_initialize_rules config).

(** The error record of a rule that raised. *)
Definition rule_error (file_path rule_name : string) (e : exception)
    : dict pyval :=
  [("file", PStr file_path);
   ("rule", PStr rule_name);
   ("error", PStr (str_of_exception e))].

(** One iteration of the loop over [self._rules.items()]: the [try]
    stores the result under the rule's name, the [except Exception]
    appends an error record. *)
Definition run_rule (tree : Ast.Module) (source file_path : string)
    (acc : dict RuleResult.t * list (dict pyval))
    (entry : string * BaseRule.t) : dict RuleResult.t * list (dict pyval) :=
  let '(results, errors) := acc in
  let '(rule_name, rule) := entry in
  match BaseRule.analyze rule tree source file_path with
  | Return result => (PyDict.set rule_name result results, errors)
  | Raise e => (results, errors ++ [rule_error file_path rule_name e])
  end.

Definition run_rules (self : t) (tree : Ast.Module) (source file_path : string)
    : dict RuleResult.t * list (dict pyval) :=
  fold_left (run_rule tree source file_path) (PyDict.items (_rules self)) ([], []).

(** [analyze_source]; [now] is the clock reading taken for the report's
    timestamp. *)
Definition analyze_source (self : t) (now : Z) (source file_path : string)
    : outcome AnalysisReport.t :=
  let config_dict := AnalyzerConfig.to_dict (config self) in
  match Safety.validate_source_code ast_parse source file_path with
  | Raise e => Raise e
  | Return safety_report =>
      if negb (SafetyReport.is_safe safety_report) then
        Return (AnalysisReport.mk [] [] now config_dict
                  [[("file", PStr file_path);
                    ("error", PStr "Failed to parse source");
                    ("details", PList (map PStr (SafetyReport.issues safety_report)))]])
      else
        match Safety.parse_safely ast_parse source file_path with
        | Raise e => Raise e
        | Return None =>
            Return (AnalysisReport.mk [] [] now config_dict
                      [[("file", PStr file_path);
                        ("error", PStr "Failed to parse source")]])
        | Return (Some tree) =>
            let '(results, errors) := run_rules self tree source file_path in
            Return (AnalysisReport.mk [file_path] results now config_dict errors)
        end
  end.

End Analyzer.

Section Files.

(** The world around the analyzer: the parser, the file system as
    [pathlib] shows it, and the functions of the standard library that the
    methods call on paths. *)
Variable ast_parse : string -> string -> outcome Ast.Module.
Variable fs : Safety.filesystem.

(** [path.read_text(encoding="utf-8")] *)
Variable read_text : string -> outcome string.

(** [list(path.rglob("*.py"))] *)
Variable rglob_py : string -> list string.

(** [fnmatch.fnmatch(name, pattern)] *)
Variable fnmatch : string -> string -> bool.

(** [str(file_path.relative_to(base_path))]; [None] stands for its
    [ValueError]. *)
Variable relative_to : string -> string -> option string.

(** [path / child] *)
Variable joinpath : string -> string -> string.

(** [rule.analyze_multiple(files)], the method of the rule's class:
    [BaseRule.analyze_multiple] unless the class overrides it. *)
Variable analyze_multiple :
  BaseRule.t -> list (Ast.Module * string * string) -> outcome RuleResult.t.

(** The report of a failure that ends the analysis before any rule runs:
    no file analysed, no result, one error record. *)
Definition error_report (self : t) (now : Z) (error : dict pyval)
    : AnalysisReport.t :=
  AnalysisReport.mk [] [] now (AnalyzerConfig.to_dict (config self)) [error].

Definition validation_error (file_path : string) (issues : list string)
    : dict pyval :=
  [("file", PStr file_path);
   ("error", PStr "File validation failed");
   ("details", PList (map PStr issues))].

Definition read_error (file_path : string) (e : exception) : dict pyval :=
  [("file", PStr file_path);
   ("error", PStr ("Failed to read file: " +:+ str_of_exception e))].

(** [analyze_file] *)
Definition analyze_file (self : t) (now : Z) (path : string)
    : outcome AnalysisReport.t :=
  let safety_report := Safety.validate_file_path (safety self) fs path in
  if negb (SafetyReport.is_safe safety_report) then
    Return (error_report self now
              (validation_error path (SafetyReport.issues safety_report)))
  else
    match read_text path with
    | Raise e => Return (error_report self now (read_error path e))
    | Return source => analyze_source ast_parse self now source path
    end.

(** The loops of [_filter_files] over the patterns: each stops at the
    first pattern that matches. *)
Fixpoint matches_any (name : string) (patterns : list string) : bool :=
  match patterns with
  | [] => false
  | pattern :: rest =>
      if fnmatch name pattern then true else matches_any name rest
  end.

(** [_filter_files]: the exclude patterns are matched against the path
    relative to [base_path], the include patterns against the file name. *)
Definition _filter_files (self : t) (files : list string) (base_path : string)
    : list string :=
  fold_left
    (fun filtered file_path =>
       let rel_str := default file_path (relative_to file_path base_path) in
       if matches_any rel_str (AnalyzerConfig.exclude_patterns (config self))
       then filtered
       else if matches_any (Safety.path_name file_path)
                 (AnalyzerConfig.include_patterns (config self))
       then filtered ++ [file_path]
       else filtered)
    files [].

(** One iteration of the loop of [analyze_directory] over the files: the
    file is validated, read and parsed; [except Exception] catches what
    reading and parsing raise. *)
Definition parse_file (self : t)
    (acc : list (Ast.Module * string * string) * list string * list (dict pyval))
    (file_path : string)
    : list (Ast.Module * string * string) * list string * list (dict pyval) :=
  let '(parsed_files, all_files, errors) := acc in
  let file_safety := Safety.validate_file_path (safety self) fs file_path in
  if negb (SafetyReport.is_safe file_safety) then
    (parsed_files, all_files,
     errors ++ [validation_error file_path (SafetyReport.issues file_safety)])
  else
    match read_text file_path with
    | Raise e => (parsed_files, all_files, errors ++ [read_error file_path e])
    | Return source =>
        match Safety.parse_safely ast_parse source file_path with
        | Raise e => (parsed_files, all_files, errors ++ [read_error file_path e])
        | Return (Some tree) =>
            (parsed_files ++ [(tree, source, file_path)],
             all_files ++ [file_path], errors)
        | Return None =>
            (parsed_files, all_files,
             errors ++ [[("file", PStr file_path);
                         ("error", PStr "Failed to parse file")]])
        end
    end.

(** One iteration of the loop of [analyze_directory] over the rules. *)
Definition run_rule_multiple (parsed_files : list (Ast.Module * string * string))
    (acc : dict RuleResult.t * list (dict pyval))
    (entry : string * BaseRule.t) : dict RuleResult.t * list (dict pyval) :=
  let '(results, errors) := acc in
  let '(rule_name, rule) := entry in
  match analyze_multiple rule parsed_files with
  | Return result => (PyDict.set rule_name result results, errors)
  | Raise e =>
      (results,
       errors ++ [[("rule", PStr rule_name);
                   ("error", PStr (str_of_exception e))]])
  end.

(** [analyze_directory] *)
Definition analyze_directory (self : t) (now : Z) (path : string)
    : AnalysisReport.t :=
  let safety_report := Safety.validate_directory fs path in
  if negb (SafetyReport.is_safe safety_report) then
    error_report self now
      [("path", PStr path);
       ("error", PStr "Directory validation failed");
       ("details", PList (map PStr (SafetyReport.issues safety_report)))]
  else
    let python_files := Safety.collect_python_files rglob_py fs path in
    let python_files := _filter_files self python_files path in
    let '(parsed_files, all_files, errors) :=
      fold_left (parse_file self) python_files ([], [], []) in
    let '(results, errors) :=
      fold_left (run_rule_multiple parsed_files) (PyDict.items (_rules self))
        ([], errors) in
    AnalysisReport.mk all_files results now
      (AnalyzerConfig.to_dict (config self)) errors.

(** [analyze_module] *)
Definition analyze_module (self : t) (now : Z) (path : string)
    : AnalysisReport.t :=
  if negb (Safety.path_exists fs (joinpath path "__init__.py")) then
    error_report self now
      [("path", PStr path);
       ("error", PStr "Not a valid Python module (missing __init__.py)")]
  else analyze_directory self now path.

(** [analyze] *)
Definition analyze (self : t) (now : Z) (path : string)
    : outcome AnalysisReport.t :=
  if Safety.path_is_file fs path then analyze_file self now path
  else if Safety.path_is_dir fs path then
    if Safety.path_exists fs (joinpath path "__init__.py")
    then Return (analyze_module self now path)
    else Return (analyze_directory self now path)
  else
    Return (error_report self now
              [("path", PStr path); ("error", PStr "Path does not exist")]).

End Files.

End OOPAnalyzer.

(** ** formatters/xml_formatter.py *)

Module XMLFormatter.

(** [_sanitize_xml_name] *)
Definition _sanitize_xml_name (name : string) : string :=
  let safe := PyStr.replace_char "_" "-" (PyStr.replace_char " " "-" name) in
  let safe :=
    match PyStr.head safe with
    | Some c => if PyStr.char_isalpha c then safe else "x-" +:+ safe
    | None => safe
    end in
  if bool_decide (safe = "") then "element" else safe.

End XMLFormatter.

(** ** Rule options

    [self.options.get(key, default)] read as a flag (by truth value) or as
    an integer threshold.  A threshold of another type is stored as it is
    by the source; the rules' settings records have no counterpart for it
    and [get_int] answers [None]. *)

Module Options.

Definition truthy (v : pyval) : bool :=
  match v with
  | PNone => false
  | PBool b => b
  | PInt n => negb (n =? 0)
  | PStr s => negb (bool_decide (s = ""))
  | PList items | PTuple items => negb (bool_decide (items = []))
  | PDict entries => match entries with [] => false | _ => true end
  end.

Definition get_bool (key : string) (default : bool) (options : dict pyval) : bool :=
  truthy (PyDict.get_default key (PBool default) options).

Definition get_int (key : string) (default : Z) (options : dict pyval) : option Z :=
  match PyDict.get_default key (PInt default) options with
  | PInt n => Some n
  | PBool b => Some (Z.b2z b)
  | _ => None
  end.

End Options.

(** ** rules/boolean_flag.py *)

Module ConditionalUsageCounter.

(** [_uses_variable] *)
Fixpoint _uses_variable (var_name : string) (node : Ast.expr) : bool :=
  match node with
  | Ast.Name id => bool_decide (id = var_name)
  | Ast.UnaryOp _ operand => _uses_variable var_name operand
  | Ast.BoolOp _ values => existsb (_uses_variable var_name) values
  | Ast.Compare lhs _ comparators =>
      _uses_variable var_name lhs || existsb (_uses_variable var_name) comparators
  | _ => false
  end.

(** What [visit_If], [visit_IfExp], [visit_While] and [visit_BoolOp] add
    to [count] at one node; each of them continues with [generic_visit]. *)
Definition increment (var_name : string) (n : Ast.node) : Z :=
  match n with
  | Ast.NStmt (Ast.If _ test _ _) => Z.b2z (_uses_variable var_name test)
  | Ast.NStmt (Ast.While test _ _) => Z.b2z (_uses_variable var_name test)
  | Ast.NExpr (Ast.IfExp test _ _) => Z.b2z (_uses_variable var_name test)
  | Ast.NExpr (Ast.BoolOp _ values) =>
      Z.b2z (existsb (_uses_variable var_name) values)
  | _ => 0
  end.

(** [counter.visit(node); counter.count] *)
Definition count (var_name : string) (node : Ast.stmt) : Z :=
  fold_left Z.add (map (increment var_name) (Ast.walk node)) 0.

End ConditionalUsageCounter.

Module BooleanFlag.

Definition name : string := "boolean_flag".

Record settings : Type := mkSettings {
  check_constructors : bool;
  check_methods : bool;
  check_functions : bool;
  min_flag_usages : Z
}.

(** [BooleanFlagRule.__init__] *)
Definition __init__ (options : dict pyval) : option settings :=
  min_flag_usages ← Options.get_int "min_flag_usages" 1 options;
  Some (mkSettings
          (Options.get_bool "check_constructors" true options)
          (Options.get_bool "check_methods" true options)
          (Options.get_bool "check_functions" true options)
          min_flag_usages).

(** The mutable fields of [BooleanFlagVisitor]. *)
Record visitor : Type := mkVisitor {
  violations : list RuleViolation.t;
  flag_patterns : list (dict pyval);
  constructor_flag_count : Z;
  method_flag_count : Z;
  function_flag_count : Z;
  _current_class : option string
}.

Definition init_visitor : visitor := mkVisitor [] [] 0 0 0 None.

Definition set_current_class (c : option string) (v : visitor) : visitor :=
  mkVisitor (violations v) (flag_patterns v) (constructor_flag_count v)
    (method_flag_count v) (function_flag_count v) c.

(** [_is_bool_type] *)
Definition _is_bool_type (node : Ast.expr) : bool :=
  match node with Ast.Name id => bool_decide (id = "bool") | _ => false end.

Definition boolean_prefixes : list string :=
  ["is_"; "has_"; "can_"; "should_"; "will_"; "did_"; "enable_"; "disable_";
   "use_"; "allow_"; "include_"; "exclude_"; "force_"; "skip_"; "ignore_";
   "check_"].

Definition boolean_names : list string :=
  ["enabled"; "disabled"; "active"; "inactive"; "visible"; "hidden";
   "readonly"; "required"; "optional"; "recursive"; "verbose"; "quiet";
   "debug"; "dry_run"; "force"].

(** [_is_boolean_name] *)
Definition _is_boolean_name (name : string) : bool :=
  let name_lower := PyStr.lower name in
  if existsb (PyStr.startswith name_lower) boolean_prefixes then true
  else PyStr.mem name_lower boolean_names.

(** [_get_default_for_arg] for the parameter at position [i] of
    [args.args + args.kwonlyargs].  The source finds the parameter with
    [list.index], which compares nodes by identity, so it finds that
    position: [defaults] is right-aligned with [args]; a regular parameter
    without default falls through to the keyword-only lookup, which does
    not find it. *)
Definition _get_default_for_arg (a : Ast.arguments) (i : nat) : option Ast.expr :=
  let num_args := Z.of_nat (length (Ast.args a)) in
  let num_defaults := Z.of_nat (length (Ast.defaults a)) in
  if Z.of_nat i <? num_args then
    let default_index := Z.of_nat i - (num_args - num_defaults) in
    if 0 <=? default_index then Ast.defaults a !! Z.to_nat default_index
    else None
  else
    match Ast.kw_defaults a !! (i - length (Ast.args a))%nat with
    | Some (Some d) => Some d
    | _ => None
    end.

(** One iteration of the loop of [_find_boolean_params]: whether the
    parameter at position [i] is a boolean flag. *)
Definition is_boolean_param (a : Ast.arguments) (i : nat) (arg : Ast.arg) : bool :=
  if PyStr.mem (Ast.arg_name arg) ["self"; "cls"] then false
  else if match Ast.annotation arg with
          | Some ann => _is_bool_type ann
          | None => false
          end then true
  else if match _get_default_for_arg a i with
          | Some (Ast.Constant (Ast.CBool _)) => true
          | _ => false
          end then true
  else _is_boolean_name (Ast.arg_name arg).

(** [_find_boolean_params] *)
Definition _find_boolean_params (a : Ast.arguments) : list string :=
  let all_args := Ast.args a ++ Ast.kwonlyargs a in
  omap id
    (imap (fun i arg =>
             if is_boolean_param a i arg then Some (Ast.arg_name arg) else None)
       all_args).

Section Visitor.

Variables (file_path source : string) (cfg : settings).

(** [_add_violation] *)
Definition _add_violation (p : Ast.pos) (fname : string) (param_name : string)
    (usages : Z) (is_constructor is_method : bool) (v : visitor) : visitor :=
  let cls := _current_class v in
  let context :=
    if is_constructor then "Constructor of '" +:+ Ast.opt_str_text cls +:+ "'"
    else if is_method then
      "Method '" +:+ fname +:+ "' in class '" +:+ Ast.opt_str_text cls +:+ "'"
    else "Function '" +:+ fname +:+ "'" in
  let suggestion :=
    if is_constructor then
      "Consider splitting into separate classes or using a factory method "
      +:+ "instead of a boolean flag in the constructor."
    else if is_method then
      "Consider splitting '" +:+ fname
      +:+ "' into two methods with descriptive names "
      +:+ "instead of using a boolean flag to control behavior."
    else
      "Consider splitting '" +:+ fname
      +:+ "' into two functions with descriptive names "
      +:+ "instead of using a boolean flag to control behavior." in
  let violation :=
    RuleViolation.mk "boolean_flag"
      (context +:+ " has boolean flag parameter '" +:+ param_name +:+ "' "
       +:+ "used in " +:+ PyStr.of_int usages
       +:+ " conditional(s). This causes behavior branching.")
      file_path (Ast.lineno p) (Ast.col_offset p) "warning"
      (Some suggestion)
      (Some (_get_source_line source (Ast.lineno p)))
      [("parameter", PStr param_name);
       ("function", PStr fname);
       ("class", Ast.opt_str_val cls);
       ("is_constructor", PBool is_constructor);
       ("conditional_usages", PInt usages)] in
  let pattern :=
    [("type", PStr "boolean_flag");
     ("line", PInt (Ast.lineno p));
     ("parameter", PStr param_name);
     ("function", PStr fname);
     ("class", Ast.opt_str_val cls)] in
  mkVisitor
    (violations v ++ [violation])
    (flag_patterns v ++ [pattern])
    (if is_constructor then constructor_flag_count v + 1
     else constructor_flag_count v)
    (if is_constructor then method_flag_count v
     else if is_method then method_flag_count v + 1 else method_flag_count v)
    (if is_constructor then function_flag_count v
     else if is_method then function_flag_count v
     else function_flag_count v + 1)
    cls.

(** [_check_function] on a [FunctionDef] or [AsyncFunctionDef] node. *)
Definition _check_function (node : Ast.stmt) (p : Ast.pos) (fname : string)
    (a : Ast.arguments) (v : visitor) : visitor :=
  let is_constructor := bool_decide (fname = "__init__") in
  let is_method := match _current_class v with Some _ => true | None => false end in
  let is_function := negb is_method in
  if is_constructor && negb (check_constructors cfg) then v
  else if is_method && negb is_constructor && negb (check_methods cfg) then v
  else if is_function && negb (check_functions cfg) then v
  else
    fold_left
      (fun v param_name =>
         let usages := ConditionalUsageCounter.count param_name node in
         if min_flag_usages cfg <=? usages
         then _add_violation p fname param_name usages is_constructor is_method v
         else v)
      (_find_boolean_params a) v.

(** [visit]: [visit_ClassDef] sets the class name around its body,
    [visit_FunctionDef] and [visit_AsyncFunctionDef] check the function
    and go on into it, every other node is walked by [generic_visit]. *)
Fixpoint visit (v : visitor) (node : Ast.stmt) {struct node} : visitor :=
  match node with
  | Ast.ClassDef cname _ _ body _ =>
      let old_class := _current_class v in
      let v := fold_left visit body (set_current_class (Some cname) v) in
      set_current_class old_class v
  | Ast.FunctionDef p fname a body _ _
  | Ast.AsyncFunctionDef p fname a body _ _ =>
      fold_left visit body (_check_function node p fname a v)
  | Ast.For _ _ body orelse
  | Ast.While _ body orelse
  | Ast.If _ _ body orelse =>
      fold_left visit orelse (fold_left visit body v)
  | Ast.Match _ _ cases =>
      fold_left (fun v c => fold_left visit (snd c) v) cases v
  | _ => v
  end.

(** [BooleanFlagRule.analyze] *)
Definition analyze (tree : Ast.Module) : RuleResult.t :=
  let v := fold_left visit (Ast.mod_body tree) init_visitor in
  RuleResult.mk name (violations v)
    [("total_boolean_flags", PInt (Z.of_nat (length (violations v))));
     ("constructor_flags", PInt (constructor_flag_count v));
     ("method_flags", PInt (method_flag_count v));
     ("function_flags", PInt (function_flag_count v))]
    [("flag_patterns", PList (map PDict (flag_patterns v)))].

End Visitor.

End BooleanFlag.

(** ** rules/type_code.py *)

Module TypeCode.

Definition name : string := "type_code".

Definition TYPE_CODE_ATTRIBUTES : list string :=
  ["type"; "kind"; "category"; "status"; "state"; "mode"; "variant"; "style";
   "format"; "action"; "operation"].

Record settings : Type := mkSettings {
  min_branches : Z;
  check_constants : bool;
  check_enums : bool
}.

(** [TypeCodeRule.__init__] *)
Definition __init__ (options : dict pyval) : option settings :=
  min_branches ← Options.get_int "min_branches" 2 options;
  Some (mkSettings min_branches
          (Options.get_bool "check_constants" true options)
          (Options.get_bool "check_enums" true options)).

(** The mutable fields of [TypeCodeVisitor]. *)
Record visitor : Type := mkVisitor {
  violations : list RuleViolation.t;
  patterns : list (dict pyval);
  constant_comparison_count : Z;
  enum_comparison_count : Z;
  type_attr_count : Z;
  _current_function : option string;
  _current_class : option string
}.

Definition init_visitor : visitor := mkVisitor [] [] 0 0 0 None None.

Definition set_current_class (c : option string) (v : visitor) : visitor :=
  mkVisitor (violations v) (patterns v) (constant_comparison_count v)
    (enum_comparison_count v) (type_attr_count v) (_current_function v) c.

Definition set_current_function (f : option string) (v : visitor) : visitor :=
  mkVisitor (violations v) (patterns v) (constant_comparison_count v)
    (enum_comparison_count v) (type_attr_count v) f (_current_class v).

Definition incr_constant_comparison (v : visitor) : visitor :=
  mkVisitor (violations v) (patterns v) (constant_comparison_count v + 1)
    (enum_comparison_count v) (type_attr_count v) (_current_function v)
    (_current_class v).

Definition incr_enum_comparison (v : visitor) : visitor :=
  mkVisitor (violations v) (patterns v) (constant_comparison_count v)
    (enum_comparison_count v + 1) (type_attr_count v) (_current_function v)
    (_current_class v).

Definition incr_type_attr (v : visitor) : visitor :=
  mkVisitor (violations v) (patterns v) (constant_comparison_count v)
    (enum_comparison_count v) (type_attr_count v + 1) (_current_function v)
    (_current_class v).

Definition report (violation : RuleViolation.t) (pattern : dict pyval)
    (v : visitor) : visitor :=
  mkVisitor (violations v ++ [violation]) (patterns v ++ [pattern])
    (constant_comparison_count v) (enum_comparison_count v) (type_attr_count v)
    (_current_function v) (_current_class v).

(** The dictionary [_analyze_compare] returns for a branch. *)
Record branch_info : Type := mkBranch {
  is_type_code : bool;
  checked_attribute : string;
  compared_to : string;
  pattern_type : string
}.

(** The dictionary [_analyze_if_chain] returns for a chain. *)
Record chain_info : Type := mkChain {
  is_type_code_pattern : bool;
  chain_checked_attribute : string;
  branch_count : Z;
  type_code_branches : Z;
  comparison_values : list string;
  chain_pattern_type : string
}.

(** [_is_type_code_subject] *)
Definition _is_type_code_subject (node : Ast.expr) : bool :=
  match node with
  | Ast.Attribute _ _ attr => PyStr.mem (PyStr.lower attr) TYPE_CODE_ATTRIBUTES
  | _ => false
  end.

(** [_is_constant] *)
Definition _is_constant (node : Ast.expr) : bool :=
  match node with
  | Ast.Name id => PyStr.isupper id && bool_decide (1 < String.length id)%nat
  | _ => false
  end.

(** [_is_enum_value]; attribute names are not empty. *)
Definition _is_enum_value (node : Ast.expr) : bool :=
  match node with
  | Ast.Attribute _ (Ast.Name _) attr =>
      PyStr.isupper attr
      || match PyStr.head attr with
         | Some c => PyStr.char_isupper c
         | None => false
         end
  | _ => false
  end.

(** [_get_full_attribute] *)
Definition _get_full_attribute (node : Ast.expr) : string := Ast.dotted_name node.

(** [_get_left_name] *)
Definition _get_left_name (node : Ast.expr) : string :=
  match node with
  | Ast.Name id => id
  | Ast.Attribute _ _ _ => _get_full_attribute node
  | _ => "<expression>"
  end.

(** [repr(comp.value)] of a constant. *)
Definition repr_constant (c : Ast.constant) : string :=
  match c with
  | Ast.CNone => "None"
  | Ast.CBool true => "True"
  | Ast.CBool false => "False"
  | Ast.CInt n => PyStr.of_int n
  | Ast.CStr s => PyStr.repr s
  | Ast.CEllipsis => "Ellipsis"
  end.

(** [_get_comparison_value] *)
Definition _get_comparison_value (comparators : list Ast.expr) : string :=
  match comparators with
  | Ast.Name id :: _ => id
  | (Ast.Attribute _ _ _ as comp) :: _ => _get_full_attribute comp
  | Ast.Constant c :: _ => repr_constant c
  | _ => "<value>"
  end.

(** [_get_constant_name] *)
Definition _get_constant_name (node : Ast.expr) : string :=
  match node with Ast.Name id => id | _ => "<constant>" end.

(** [_get_enum_name] *)
Definition _get_enum_name (node : Ast.expr) : string :=
  match node with
  | Ast.Attribute _ _ _ => _get_full_attribute node
  | _ => "<enum>"
  end.

(** [_classify_comparison_value] *)
Definition _classify_comparison_value (comparators : list Ast.expr) : string :=
  match comparators with
  | Ast.Name id :: _ => if PyStr.isupper id then "constant" else "unknown"
  | Ast.Attribute _ _ _ :: _ => "enum"
  | Ast.Constant (Ast.CStr _) :: _ => "string_literal"
  | Ast.Constant _ :: _ => "literal"
  | _ => "unknown"
  end.

Section Visitor.

Variables (file_path source : string) (cfg : settings).

(** [_analyze_compare] on [Compare(left, ops, comparators)]; the
    counters it increments are part of the visitor. *)
Definition _analyze_compare (v : visitor) (lhs : Ast.expr)
    (comparators : list Ast.expr) : visitor * option branch_info :=
  if match lhs with
     | Ast.Attribute _ _ attr => PyStr.mem (PyStr.lower attr) TYPE_CODE_ATTRIBUTES
     | _ => false
     end
  then
    (incr_type_attr v,
     Some (mkBranch true (_get_full_attribute lhs)
             (_get_comparison_value comparators)
             (_classify_comparison_value comparators)))
  else
    match (if check_constants cfg then List.find _is_constant comparators else None) with
    | Some comparator =>
        (incr_constant_comparison v,
         Some (mkBranch true (_get_left_name lhs)
                 (_get_constant_name comparator) "constant"))
    | None =>
        match (if check_enums cfg then List.find _is_enum_value comparators else None) with
        | Some comparator =>
            (incr_enum_comparison v,
             Some (mkBranch true (_get_left_name lhs)
                     (_get_enum_name comparator) "enum"))
        | None => (v, None)
        end
    end.

(** [_analyze_condition] *)
Fixpoint _analyze_condition (v : visitor) (test : Ast.expr)
    : visitor * option branch_info :=
  match test with
  | Ast.Compare lhs _ comparators => _analyze_compare v lhs comparators
  | Ast.BoolOp _ (first :: _) => _analyze_condition v first
  | _ => (v, None)
  end.

(** The loop of [_analyze_if_chain]: the branches found along the
    chain, in order. *)
Definition analyze_branches (v : visitor) (tests : list Ast.expr)
    : visitor * list branch_info :=
  fold_left
    (fun acc test =>
       let '(v, branches) := acc in
       match _analyze_condition v test with
       | (v', Some info) => (v', branches ++ [info])
       | (v', None) => (v', branches)
       end)
    tests (v, []).

(** [_analyze_if_chain] *)
Definition _analyze_if_chain (v : visitor) (node : Ast.stmt)
    : visitor * option chain_info :=
  let '(v, branches) := analyze_branches v (Ast.chain_tests node) in
  if Z.of_nat (length branches) <? min_branches cfg then (v, None)
  else
    let type_code_branches := List.filter is_type_code branches in
    if min_branches cfg <=? Z.of_nat (length type_code_branches) then
      let checked_attrs := map checked_attribute type_code_branches in
      match type_code_branches with
      | first :: _ =>
          if bool_decide (size (list_to_set checked_attrs : gset string) = 1%nat)
          then
            (v, Some (mkChain true (checked_attribute first)
                        (Z.of_nat (length branches))
                        (Z.of_nat (length type_code_branches))
                        (map compared_to type_code_branches)
                        (pattern_type first)))
          else (v, None)
      | [] => (v, None)
      end
    else (v, None).

(** [_add_violation] *)
Definition _add_violation (p : Ast.pos) (info : chain_info) (v : visitor)
    : visitor :=
  let checked_attr := chain_checked_attribute info in
  let branch_count := branch_count info in
  let pattern_type := chain_pattern_type info in
  let values := comparison_values info in
  let refactoring :=
    if bool_decide (pattern_type = "constant") then
      "Replace Type Code with State/Strategy or Subclasses"
    else if bool_decide (pattern_type = "enum") then
      "Replace Type Code with State/Strategy"
    else "Replace Conditional with Polymorphism" in
  let suggestion :=
    if bool_decide (pattern_type = "constant") then
      "The conditional checks '" +:+ checked_attr +:+ "' against constants "
      +:+ "(" +:+ PyStr.join ", " (take 3 values)
      +:+ (if bool_decide (3 < length values)%nat then "..." else "") +:+ "). "
      +:+ "Consider replacing with polymorphism: create a class hierarchy where "
      +:+ "each constant becomes a subclass with its own behavior."
    else if bool_decide (pattern_type = "enum") then
      "The conditional checks '" +:+ checked_attr +:+ "' against enum values. "
      +:+ "Consider using the State or Strategy pattern where each enum value "
      +:+ "corresponds to a class that implements the varying behavior."
    else
      "The conditional on '" +:+ checked_attr +:+ "' with "
      +:+ PyStr.of_int branch_count +:+ " branches "
      +:+ "suggests a type code pattern. Consider using polymorphism." in
  report
    (RuleViolation.mk "type_code"
       ("Type code conditional detected: '" +:+ checked_attr
        +:+ "' checked against " +:+ PyStr.of_int branch_count
        +:+ " different values. " +:+ refactoring +:+ ".")
       file_path (Ast.lineno p) (Ast.col_offset p) "warning"
       (Some suggestion)
       (Some (_get_source_line source (Ast.lineno p)))
       [("pattern", PStr "type_code_conditional");
        ("checked_attribute", PStr checked_attr);
        ("branch_count", PInt branch_count);
        ("pattern_type", PStr pattern_type);
        ("comparison_values", PList (map PStr values));
        ("function", Ast.opt_str_val (_current_function v));
        ("class", Ast.opt_str_val (_current_class v))])
    [("type", PStr "if_chain");
     ("line", PInt (Ast.lineno p));
     ("checked_attribute", PStr checked_attr);
     ("branch_count", PInt branch_count);
     ("pattern_type", PStr pattern_type)]
    v.

(** [_add_match_violation] *)
Definition _add_match_violation (p : Ast.pos) (subject : Ast.expr)
    (num_cases : Z) (v : visitor) : visitor :=
  let subject_str := _get_left_name subject in
  report
    (RuleViolation.mk "type_code"
       ("Match statement on type code '" +:+ subject_str +:+ "' with "
        +:+ PyStr.of_int num_cases +:+ " cases. "
        +:+ "Consider replacing with polymorphism.")
       file_path (Ast.lineno p) (Ast.col_offset p) "warning"
       (Some ("Match statements on type codes can be replaced with polymorphism. "
              +:+ "Each case can become a subclass or strategy that implements the behavior."))
       (Some (_get_source_line source (Ast.lineno p)))
       [("pattern", PStr "match_type_code");
        ("subject", PStr subject_str);
        ("case_count", PInt num_cases);
        ("function", Ast.opt_str_val (_current_function v));
        ("class", Ast.opt_str_val (_current_class v))])
    [("type", PStr "match");
     ("line", PInt (Ast.lineno p));
     ("subject", PStr subject_str);
     ("case_count", PInt num_cases)]
    v.

(** The part of [visit_If] before [generic_visit]. *)
Definition check_If (v : visitor) (node : Ast.stmt) (p : Ast.pos) : visitor :=
  match _analyze_if_chain v node with
  | (v', Some info) =>
      if is_type_code_pattern info then _add_violation p info v' else v'
  | (v', None) => v'
  end.

(** The part of [visit_Match] before [generic_visit]. *)
Definition check_Match (v : visitor) (p : Ast.pos) (subject : Ast.expr)
    (num_cases : Z) : visitor :=
  if _is_type_code_subject subject then
    if min_branches cfg <=? num_cases
    then _add_match_violation p subject num_cases v
    else v
  else v.

(** [visit]: the handlers of [TypeCodeVisitor], each followed by
    [generic_visit]. *)
Fixpoint visit (v : visitor) (node : Ast.stmt) {struct node} : visitor :=
  match node with
  | Ast.ClassDef cname _ _ body _ =>
      let old_class := _current_class v in
      set_current_class old_class
        (fold_left visit body (set_current_class (Some cname) v))
  | Ast.FunctionDef _ fname _ body _ _
  | Ast.AsyncFunctionDef _ fname _ body _ _ =>
      let old_function := _current_function v in
      set_current_function old_function
        (fold_left visit body (set_current_function (Some fname) v))
  | Ast.If p _ body orelse =>
      fold_left visit orelse (fold_left visit body (check_If v node p))
  | Ast.Match p subject cases =>
      fold_left (fun v c => fold_left visit (snd c) v) cases
        (check_Match v p subject (Z.of_nat (length cases)))
  | Ast.For _ _ body orelse
  | Ast.While _ body orelse =>
      fold_left visit orelse (fold_left visit body v)
  | _ => v
  end.

(** [TypeCodeRule.analyze] *)
Definition analyze (tree : Ast.Module) : RuleResult.t :=
  let v := fold_left visit (Ast.mod_body tree) init_visitor in
  RuleResult.mk name (violations v)
    [("total_type_code_conditionals", PInt (Z.of_nat (length (violations v))));
     ("constant_comparisons", PInt (constant_comparison_count v));
     ("enum_comparisons", PInt (enum_comparison_count v));
     ("type_attribute_checks", PInt (type_attr_count v))]
    [("patterns", PList (map PDict (patterns v)))].

End Visitor.

End TypeCode.

(** ** rules/polymorphism.py *)

Module Polymorphism.

Definition name : string := "polymorphism".

Definition TYPE_ATTRIBUTES : list string :=
  ["type"; "kind"; "category"; "variant"; "mode"; "status"].

Record settings : Type := mkSettings {
  min_branches : Z;
  check_isinstance : bool;
  check_type_attributes : bool
}.

(** [PolymorphismRule.__init__] *)
Definition __init__ (options : dict pyval) : option settings :=
  min_branches ← Options.get_int "min_branches" 3 options;
  Some (mkSettings min_branches
          (Options.get_bool "check_isinstance" true options)
          (Options.get_bool "check_type_attributes" true options)).

(** The mutable fields of [PolymorphismVisitor]. *)
Record visitor : Type := mkVisitor {
  violations : list RuleViolation.t;
  patterns : list (dict pyval);
  isinstance_count : Z;
  type_attr_count : Z;
  long_chain_count : Z;
  _current_function : option string;
  _current_class : option string
}.

Definition init_visitor : visitor := mkVisitor [] [] 0 0 0 None None.

Definition set_current_class (c : option string) (v : visitor) : visitor :=
  mkVisitor (violations v) (patterns v) (isinstance_count v) (type_attr_count v)
    (long_chain_count v) (_current_function v) c.

Definition set_current_function (f : option string) (v : visitor) : visitor :=
  mkVisitor (violations v) (patterns v) (isinstance_count v) (type_attr_count v)
    (long_chain_count v) f (_current_class v).

(** Appends a violation and its pattern record and adds to the counters. *)
Definition report (violation : RuleViolation.t) (pattern : dict pyval)
    (d_isinstance d_type_attr d_long_chain : Z) (v : visitor) : visitor :=
  mkVisitor (violations v ++ [violation]) (patterns v ++ [pattern])
    (isinstance_count v + d_isinstance) (type_attr_count v + d_type_attr)
    (long_chain_count v + d_long_chain) (_current_function v) (_current_class v).

(** [_count_branches] *)
Fixpoint _count_branches (node : Ast.stmt) : Z :=
  match node with
  | Ast.If _ _ _ orelse =>
      match orelse with
      | [] => 1
      | [next] =>
          match next with
          | Ast.If _ _ _ _ => 1 + _count_branches next
          | _ => 2
          end
      | _ => 2
      end
  | _ => 1
  end.

(** [_get_attribute_name] *)
Definition _get_attribute_name (node : Ast.expr) : string := Ast.dotted_name node.

(** [_get_checked_variable] *)
Fixpoint _get_checked_variable (test : Ast.expr) : option string :=
  match test with
  | Ast.Compare (Ast.Attribute _ _ _ as lhs) _ _ => Some (_get_attribute_name lhs)
  | Ast.Compare (Ast.Name id) _ _ => Some id
  | Ast.Call (Ast.Name f) (Ast.Name id :: _) _ =>
      if bool_decide (f = "isinstance") then Some id else None
  | Ast.BoolOp _ (first :: _) => _get_checked_variable first
  | _ => None
  end.

(** The dictionary [_analyze_if_pattern] returns; its ["consistency"]
    entry, which no caller reads, is left out. *)
Record pattern_info : Type := mkPattern {
  pattern_kind : string;
  variable : string
}.

(** [Counter(checked_vars)]: the number of occurrences of each name, in
    the order of first occurrence; [count_into] is its counting loop. *)
Definition count_into (d : dict Z) (l : list string) : dict Z :=
  fold_left (fun d x => PyDict.set x (PyDict.get_default x 0 d + 1) d) l d.

Definition Counter (l : list string) : dict Z := count_into [] l.

(** [counter.most_common(1)[0]]: the first entry with the largest count;
    [best_entry] is the scan for it. *)
Definition best_entry (best : option (string * Z)) (d : dict Z)
    : option (string * Z) :=
  fold_left
    (fun best kv =>
       match best with
       | None => Some kv
       | Some b => if snd b <? snd kv then Some kv else Some b
       end)
    d best.

Definition most_common (d : dict Z) : option (string * Z) := best_entry None d.

(** The list [checked_vars] that [_analyze_if_pattern] collects along the
    chain: a branch contributes the name [_get_checked_variable] finds in
    its test, when it finds one and the name is not empty. *)
Definition checked_vars (node : Ast.stmt) : list string :=
  omap (fun test =>
          match _get_checked_variable test with
          | Some var => if bool_decide (var = "") then None else Some var
          | None => None
          end)
    (Ast.chain_tests node).

(** [_analyze_if_pattern].  The source compares the largest count with
    [len(checked_vars) * 0.7] in floating point; on chains of fewer than
    2^40 branches that is the comparison of [7 * len(checked_vars)] with
    [10 * count] made here. *)
Definition _analyze_if_pattern (node : Ast.stmt) : option pattern_info :=
  let checked_vars := checked_vars node in
  match checked_vars with
  | [] => None
  | first :: _ =>
      if bool_decide (size (list_to_set checked_vars : gset string) = 1%nat) then
        Some (mkPattern "same_variable" first)
      else
        match most_common (Counter checked_vars) with
        | Some (var, n) =>
            if 7 * Z.of_nat (length checked_vars) <=? 10 * n
            then Some (mkPattern "mostly_same_variable" var)
            else None
        | None => None
        end
  end.

(** The number of occurrences of a name in a list of names. *)
Definition occurrences (x : string) (l : list string) : Z :=
  Z.of_nat (length (List.filter (fun y => bool_decide (y = x)) l)).

(** The number of branches of the chain whose test checks the variable
    [var]. *)
Definition branches_checking (var : string) (node : Ast.stmt) : Z :=
  Z.of_nat
    (length
       (List.filter
          (fun test => bool_decide (_get_checked_variable test = Some var))
          (Ast.chain_tests node))).

(** [_contains_isinstance] *)
Fixpoint _contains_isinstance (node : Ast.expr) : bool :=
  match node with
  | Ast.Call (Ast.Name f) _ _ => bool_decide (f = "isinstance")
  | Ast.BoolOp _ values => existsb _contains_isinstance values
  | Ast.UnaryOp _ operand => _contains_isinstance operand
  | _ => false
  end.

(** [_get_type_attribute_check]; a result counts when it is a non-empty
    name. *)
Fixpoint _get_type_attribute_check (node : Ast.expr) : option string :=
  match node with
  | Ast.Compare (Ast.Attribute _ _ attr as lhs) _ _ =>
      if PyStr.mem (PyStr.lower attr) TYPE_ATTRIBUTES
      then Some (_get_attribute_name lhs) else None
  | Ast.BoolOp _ values =>
      (fix first_check (l : list Ast.expr) : option string :=
         match l with
         | [] => None
         | value :: rest =>
             match _get_type_attribute_check value with
             | Some result =>
                 if bool_decide (result = "") then first_check rest else Some result
             | None => first_check rest
             end
         end) values
  | _ => None
  end.

Section Visitor.

Variables (file_path source : string) (cfg : settings).

Definition context_metadata (v : visitor) : dict pyval :=
  [("function", Ast.opt_str_val (_current_function v));
   ("class", Ast.opt_str_val (_current_class v))].

(** [_add_violation] *)
Definition _add_violation (p : Ast.pos) (branches : Z) (info : pattern_info)
    (v : visitor) : visitor :=
  let variable := variable info in
  report
    (RuleViolation.mk "polymorphism"
       ("Long if/elif chain with " +:+ PyStr.of_int branches
        +:+ " branches checking '" +:+ variable +:+ "'. "
        +:+ "Consider replacing with polymorphism.")
       file_path (Ast.lineno p) (Ast.col_offset p) "warning"
       (Some ("This if/elif chain could be replaced with polymorphism. "
              +:+ "Consider using Strategy pattern, State pattern, or simple "
              +:+ "method dispatch based on the value of '" +:+ variable +:+ "'."))
       (Some (_get_source_line source (Ast.lineno p)))
       ([("pattern", PStr "long_if_chain");
         ("branches", PInt branches);
         ("checked_variable", PStr variable)] ++ context_metadata v))
    [("type", PStr "long_if_chain");
     ("branches", PInt branches);
     ("variable", PStr variable);
     ("line", PInt (Ast.lineno p))]
    0 0 1 v.

(** [_check_isinstance_pattern] *)
Definition _check_isinstance_pattern (p : Ast.pos) (test : Ast.expr)
    (v : visitor) : visitor :=
  if _contains_isinstance test then
    report
      (RuleViolation.mk "polymorphism"
         "isinstance() check detected. This often indicates a need for polymorphism."
         file_path (Ast.lineno p) (Ast.col_offset p) "warning"
         (Some ("Instead of checking types with isinstance(), consider "
                +:+ "using polymorphism. Define a common interface/base class "
                +:+ "and let each type implement its own behavior."))
         (Some (_get_source_line source (Ast.lineno p)))
         ([("pattern", PStr "isinstance_check")] ++ context_metadata v))
      [("type", PStr "isinstance"); ("line", PInt (Ast.lineno p))]
      1 0 0 v
  else v.

(** [_check_type_attribute_pattern] *)
Definition _check_type_attribute_pattern (p : Ast.pos) (test : Ast.expr)
    (v : visitor) : visitor :=
  match _get_type_attribute_check test with
  | Some attr_name =>
      if bool_decide (attr_name = "") then v
      else
        report
          (RuleViolation.mk "polymorphism"
             ("Checking '" +:+ attr_name
              +:+ "' attribute suggests type-based branching. "
              +:+ "Consider using polymorphism instead.")
             file_path (Ast.lineno p) (Ast.col_offset p) "warning"
             (Some ("Instead of checking the '"
                    +:+ List.last (PyStr.split "."%char attr_name) ""
                    +:+ "' attribute, "
                    +:+ "consider using polymorphism. Create subclasses that implement "
                    +:+ "the behavior directly."))
             (Some (_get_source_line source (Ast.lineno p)))
             ([("pattern", PStr "type_attribute");
               ("attribute", PStr attr_name)] ++ context_metadata v))
          [("type", PStr "type_attribute");
           ("attribute", PStr attr_name);
           ("line", PInt (Ast.lineno p))]
          0 1 0 v
  | None => v
  end.

(** [_add_match_violation] *)
Definition _add_match_violation (p : Ast.pos) (num_cases : Z) (v : visitor)
    : visitor :=
  report
    (RuleViolation.mk "polymorphism"
       ("Match statement with " +:+ PyStr.of_int num_cases +:+ " cases. "
        +:+ "Consider if polymorphism would be more appropriate.")
       file_path (Ast.lineno p) (Ast.col_offset p) "info"
       (Some ("While match statements are useful, many cases might indicate "
              +:+ "an opportunity for polymorphism where each case becomes a class."))
       (Some (_get_source_line source (Ast.lineno p)))
       ([("pattern", PStr "match_statement");
         ("cases", PInt num_cases)] ++ context_metadata v))
    [("type", PStr "match_statement");
     ("cases", PInt num_cases);
     ("line", PInt (Ast.lineno p))]
    0 0 0 v.

(** The first step of [visit_If]: the long-chain check. *)
Definition check_long_chain (p : Ast.pos) (node : Ast.stmt) (v : visitor)
    : visitor :=
  let branches := _count_branches node in
  if min_branches cfg <=? branches then
    match _analyze_if_pattern node with
    | Some pattern_info => _add_violation p branches pattern_info v
    | None => v
    end
  else v.

(** The part of [visit_If] before [generic_visit]. *)
Definition check_If (v : visitor) (node : Ast.stmt) (p : Ast.pos)
    (test : Ast.expr) : visitor :=
  let v := check_long_chain p node v in
  let v := if check_isinstance cfg then _check_isinstance_pattern p test v else v in
  if check_type_attributes cfg then _check_type_attribute_pattern p test v else v.

(** The part of [visit_Match] before [generic_visit]. *)
Definition check_Match (v : visitor) (p : Ast.pos) (num_cases : Z) : visitor :=
  if min_branches cfg <=? num_cases then _add_match_violation p num_cases v else v.

(** [visit]: the handlers of [PolymorphismVisitor], each followed by
    [generic_visit]. *)
Fixpoint visit (v : visitor) (node : Ast.stmt) {struct node} : visitor :=
  match node with
  | Ast.ClassDef cname _ _ body _ =>
      let old_class := _current_class v in
      set_current_class old_class
        (fold_left visit body (set_current_class (Some cname) v))
  | Ast.FunctionDef _ fname _ body _ _
  | Ast.AsyncFunctionDef _ fname _ body _ _ =>
      let old_function := _current_function v in
      set_current_function old_function
        (fold_left visit body (set_current_function (Some fname) v))
  | Ast.If p test body orelse =>
      fold_left visit orelse (fold_left visit body (check_If v node p test))
  | Ast.Match p _ cases =>
      fold_left (fun v c => fold_left visit (snd c) v) cases
        (check_Match v p (Z.of_nat (length cases)))
  | Ast.For _ _ body orelse
  | Ast.While _ body orelse =>
      fold_left visit orelse (fold_left visit body v)
  | _ => v
  end.

(** [PolymorphismRule.analyze] *)
Definition analyze (tree : Ast.Module) : RuleResult.t :=
  let v := fold_left visit (Ast.mod_body tree) init_visitor in
  RuleResult.mk name (violations v)
    [("total_opportunities", PInt (Z.of_nat (length (violations v))));
     ("isinstance_checks", PInt (isinstance_count v));
     ("type_attribute_checks", PInt (type_attr_count v));
     ("long_if_chains", PInt (long_chain_count v))]
    [("patterns", PList (map PDict (patterns v)))].

End Visitor.

End Polymorphism.

(** ** rules/functions_to_objects.py *)

Module FunctionsToObjects.

Definition name : string := "functions_to_objects".

Record settings : Type := mkSettings {
  max_params : Z;
  check_dict_returns : bool;
  check_related_functions : bool
}.

(** [FunctionsToObjectsRule.__init__] *)
Definition __init__ (options : dict pyval) : option settings :=
  max_params ← Options.get_int "max_params" 4 options;
  Some (mkSettings max_params
          (Options.get_bool "check_dict_returns" true options)
          (Options.get_bool "check_related_functions" true options)).

(** An entry of [function_info]; the key ["is_async"] is present, and
    true, for async functions only. *)
Record function_info : Type := mkInfo {
  fi_name : string;
  fi_line : Z;
  fi_params : Z;
  fi_returns_dict : bool;
  fi_is_private : bool;
  fi_is_async : bool
}.

Definition info_dict (f : function_info) : pyval :=
  PDict ([("name", PStr (fi_name f));
          ("line", PInt (fi_line f));
          ("params", PInt (fi_params f));
          ("returns_dict", PBool (fi_returns_dict f));
          ("is_private", PBool (fi_is_private f))]
         ++ (if fi_is_async f then [("is_async", PBool true)] else [])).

(** The mutable fields of [FunctionVisitor]. *)
Record visitor : Type := mkVisitor {
  violations : list RuleViolation.t;
  functions : list function_info;
  many_params_count : Z;
  dict_return_count : Z;
  _in_class : bool
}.

Definition init_visitor : visitor := mkVisitor [] [] 0 0 false.

Definition set_in_class (b : bool) (v : visitor) : visitor :=
  mkVisitor (violations v) (functions v) (many_params_count v)
    (dict_return_count v) b.

(** [_count_params] *)
Definition _count_params (a : Ast.arguments) : Z :=
  Z.of_nat (length (Ast.args a)) + Z.of_nat (length (Ast.kwonlyargs a))
  + (match Ast.vararg a with Some _ => 1 | None => 0 end)
  + (match Ast.kwarg a with Some _ => 1 | None => 0 end).

(** The test [_returns_dict] makes on each node of [ast.walk(node)]. *)
Definition is_dict_return (n : Ast.node) : bool :=
  match n with
  | Ast.NStmt (Ast.Return (Some (Ast.Dict _ _))) => true
  | Ast.NStmt (Ast.Return (Some (Ast.Call (Ast.Name f) _ _))) =>
      bool_decide (f = "dict")
  | _ => false
  end.

(** [_returns_dict] *)
Definition _returns_dict (node : Ast.stmt) : bool :=
  existsb is_dict_return (Ast.walk node).

Section Visitor.

Variables (file_path source : string) (cfg : settings).

(** [_add_many_params_violation] *)
Definition many_params_violation (p : Ast.pos) (fname : string)
    (num_params : Z) : RuleViolation.t :=
  RuleViolation.mk "functions_to_objects"
    ("Function '" +:+ fname +:+ "' has " +:+ PyStr.of_int num_params
     +:+ " parameters. " +:+ "Consider converting to a class.")
    file_path (Ast.lineno p) (Ast.col_offset p) "info"
    (Some ("Functions with many parameters often indicate the need for an object. "
           +:+ "Consider creating a class where parameters become attributes, "
           +:+ "and the function becomes a method."))
    (Some (_get_source_line source (Ast.lineno p)))
    [("pattern", PStr "many_parameters");
     ("function", PStr fname);
     ("param_count", PInt num_params)].

(** [_add_dict_return_violation] *)
Definition dict_return_violation (p : Ast.pos) (fname : string)
    : RuleViolation.t :=
  RuleViolation.mk "functions_to_objects"
    ("Function '" +:+ fname +:+ "' returns a dictionary. "
     +:+ "Consider using a dataclass or named tuple instead.")
    file_path (Ast.lineno p) (Ast.col_offset p) "info"
    (Some ("Returning dictionaries loses type information and makes code "
           +:+ "harder to maintain. Consider using a dataclass, named tuple, "
           +:+ "or a proper class to represent the returned data."))
    (Some (_get_source_line source (Ast.lineno p)))
    [("pattern", PStr "dict_return");
     ("function", PStr fname)].

(** Whether [visit_FunctionDef] reports too many parameters. *)
Definition flags_many_params (v : visitor) (fname : string) (a : Ast.arguments)
    : bool :=
  negb (_in_class v)
  && (max_params cfg <? _count_params a)
  && negb (PyStr.startswith fname "_").

(** The part of [visit_FunctionDef] ([is_async] false) and of
    [visit_AsyncFunctionDef] ([is_async] true) before [generic_visit]. *)
Definition check_function (is_async : bool) (v : visitor) (node : Ast.stmt)
    (p : Ast.pos) (fname : string) (a : Ast.arguments) : visitor :=
  if _in_class v then v
  else
    let is_private := PyStr.startswith fname "_" in
    let num_params := _count_params a in
    let returns_dict :=
      if check_dict_returns cfg then _returns_dict node else false in
    let info :=
      mkInfo fname (Ast.lineno p) num_params returns_dict is_private is_async in
    let many := (max_params cfg <? num_params) && negb is_private in
    let dict_ret := returns_dict && negb is_private in
    mkVisitor
      (violations v
       ++ (if many then [many_params_violation p fname num_params] else [])
       ++ (if dict_ret then [dict_return_violation p fname] else []))
      (functions v ++ [info])
      (if many then many_params_count v + 1 else many_params_count v)
      (if dict_ret then dict_return_count v + 1 else dict_return_count v)
      (_in_class v).

(** [visit]: the handlers of [FunctionVisitor], each followed by
    [generic_visit]. *)
Fixpoint visit (v : visitor) (node : Ast.stmt) {struct node} : visitor :=
  match node with
  | Ast.ClassDef _ _ _ body _ =>
      let old_in_class := _in_class v in
      set_in_class old_in_class (fold_left visit body (set_in_class true v))
  | Ast.FunctionDef p fname a body _ _ =>
      fold_left visit body (check_function false v node p fname a)
  | Ast.AsyncFunctionDef p fname a body _ _ =>
      fold_left visit body (check_function true v node p fname a)
  | Ast.For _ _ body orelse
  | Ast.While _ body orelse
  | Ast.If _ _ body orelse =>
      fold_left visit orelse (fold_left visit body v)
  | Ast.Match _ _ cases =>
      fold_left (fun v c => fold_left visit (snd c) v) cases v
  | _ => v
  end.

(** [_find_function_groups] *)
Definition _find_function_groups (infos : list function_info)
    : dict (list function_info) :=
  let groups :=
    fold_left
      (fun groups func =>
         let fname := fi_name func in
         if PyStr.startswith fname "_" then groups
         else
           match PyStr.split "_"%char fname with
           | prefix :: _ :: _ =>
               if bool_decide (3 <= String.length prefix)%nat then
                 PyDict.set prefix (PyDict.get_default prefix [] groups ++ [func])
                   groups
               else groups
           | _ => groups
           end)
      infos [] in
  List.filter (fun kv => bool_decide (2 <= length (snd kv))%nat) groups.

(** [_check_related_functions] *)
Definition _check_related_functions (infos : list function_info)
    : list RuleViolation.t :=
  omap
    (fun kv =>
       let '(prefix, funcs) := kv in
       if bool_decide (3 <= length funcs)%nat then
         let func_names := map fi_name funcs in
         let first_line :=
           match map fi_line funcs with
           | l :: ls => fold_left Z.min ls l
           | [] => 0
           end in
         Some
           (RuleViolation.mk "functions_to_objects"
              ("Found " +:+ PyStr.of_int (Z.of_nat (length funcs))
               +:+ " related functions with prefix '" +:+ prefix +:+ "_': "
               +:+ PyStr.join ", " (take 5 func_names)
               +:+ (if bool_decide (5 < length func_names)%nat then "..." else "")
               +:+ ". " +:+ "Consider grouping into a class.")
              file_path first_line 0 "info"
              (Some ("These functions appear related. Consider creating a class "
                     +:+ "'" +:+ PyStr.remove_char "_"%char (PyStr.title prefix)
                     +:+ "' with these as methods."))
              None
              [("pattern", PStr "related_functions");
               ("prefix", PStr prefix);
               ("functions", PList (map PStr func_names))])
       else None)
    (_find_function_groups infos).

(** [FunctionsToObjectsRule.analyze] *)
Definition analyze (tree : Ast.Module) : RuleResult.t :=
  let v := fold_left visit (Ast.mod_body tree) init_visitor in
  let groups := _find_function_groups (functions v) in
  RuleResult.mk name
    (violations v
     ++ (if check_related_functions cfg
         then _check_related_functions (functions v) else []))
    [("total_functions", PInt (Z.of_nat (length (functions v))));
     ("functions_with_many_params", PInt (many_params_count v));
     ("functions_returning_dicts", PInt (dict_return_count v));
     ("related_function_groups", PInt (Z.of_nat (length groups)))]
    [("functions", PList (map info_dict (functions v)));
     ("function_groups",
      PDict (map (fun kv => (fst kv, PList (map info_dict (snd kv)))) groups))].

End Visitor.

End FunctionsToObjects.

(** ** rules/encapsulation.py *)

Module Encapsulation.

Definition name : string := "encapsulation".

Record settings : Type := mkSettings {
  allow_self_access : bool;
  allow_private_access : bool;
  allow_dunder_access : bool;
  max_chain_length : Z;
  warn_dependency_access : bool
}.

(** [EncapsulationRule.__init__] *)
Definition __init__ (options : dict pyval) : option settings :=
  max_chain_length ← Options.get_int "max_chain_length" 1 options;
  Some (mkSettings
          (Options.get_bool "allow_self_access" true options)
          (Options.get_bool "allow_private_access" false options)
          (Options.get_bool "allow_dunder_access" true options)
          max_chain_length
          (Options.get_bool "warn_dependency_access" true options)).

(** The mutable fields of [EncapsulationVisitor], but for the two sets of
    node identities: an AST is a tree, so a node is in [_call_targets]
    exactly when it is reached as the [func] of the [Call] above it, and
    in [_class_bases] exactly when it is reached from a base of a
    [ClassDef] through [value] fields of [Attribute] nodes; [visit_expr]
    carries the two memberships as flags. *)
Record visitor : Type := mkVisitor {
  violations : list RuleViolation.t;
  _in_class : bool;
  _current_class : option string;
  _imported_modules : gset string;
  module_access_skipped : Z
}.

Definition init_visitor : visitor := mkVisitor [] false None ∅ 0.

Definition set_class (in_class : bool) (c : option string) (v : visitor) : visitor :=
  mkVisitor (violations v) in_class c (_imported_modules v)
    (module_access_skipped v).

Definition add_import (m : string) (v : visitor) : visitor :=
  mkVisitor (violations v) (_in_class v) (_current_class v)
    ({[ m ]} ∪ _imported_modules v) (module_access_skipped v).

Definition skip_module_access (v : visitor) : visitor :=
  mkVisitor (violations v) (_in_class v) (_current_class v)
    (_imported_modules v) (module_access_skipped v + 1).

Definition add_violation (violation : RuleViolation.t) (v : visitor) : visitor :=
  mkVisitor (violations v ++ [violation]) (_in_class v) (_current_class v)
    (_imported_modules v) (module_access_skipped v).

(** The chain of an attribute access whose base is a name. *)
Fixpoint attribute_chain (node : Ast.expr) : option (list string) :=
  match node with
  | Ast.Name id => Some [id]
  | Ast.Attribute _ value attr =>
      chain ← attribute_chain value; Some (chain ++ [attr])
  | _ => None
  end.

(** [_get_attribute_chain]: [[]] when the base is not a name. *)
Definition _get_attribute_chain (node : Ast.expr) : list string :=
  default [] (attribute_chain node).

Definition is_dunder (attr : string) : bool :=
  PyStr.startswith attr "__" && PyStr.endswith attr "__".

Definition common_modules : list string :=
  ["os"; "sys"; "math"; "typing"; "collections"; "functools"].

(** [all(c.isupper() or c == "_" for c in attr)] *)
Definition looks_constant (attr : string) : bool :=
  forallb (fun c => PyStr.char_isupper c || Ascii.eqb c "_"%char) (PyStr.chars attr).

Definition starts_upper (attr : string) : bool :=
  match PyStr.head attr with Some c => PyStr.char_isupper c | None => false end.

Section Visitor.

Variables (file_path source : string) (cfg : settings).

(** [_create_violation] *)
Definition _create_violation (p : Ast.pos) (base_name : string)
    (attr_names : list string) : option RuleViolation.t :=
  if looks_constant (List.last attr_names "") then None
  else if PyStr.mem base_name common_modules then None
  else
    let full_access := base_name +:+ "." +:+ PyStr.join "." attr_names in
    let long := max_chain_length cfg <? Z.of_nat (length attr_names) in
    let message :=
      if long then
        "Long attribute chain detected: '" +:+ full_access +:+ "'. "
        +:+ "This violates the Law of Demeter. Consider using delegation."
      else
        "Direct property access: '" +:+ full_access +:+ "'. "
        +:+ "Consider using a method instead (Tell Don't Ask)." in
    let suggestion :=
      if long then
        "Instead of accessing '" +:+ full_access +:+ "', consider adding a method "
        +:+ "to '" +:+ base_name +:+ "' that encapsulates this behavior."
      else
        "Instead of accessing '" +:+ base_name +:+ "."
        +:+ List.hd "" attr_names +:+ "', "
        +:+ "consider telling '" +:+ base_name
        +:+ "' what to do with a method call." in
    Some
      (RuleViolation.mk "encapsulation" message file_path
         (Ast.lineno p) (Ast.col_offset p) "warning" (Some suggestion)
         (Some (_get_source_line source (Ast.lineno p)))
         [("base_object", PStr base_name);
          ("accessed_attributes", PList (map PStr attr_names));
          ("chain_length", PInt (Z.of_nat (length attr_names)))]).

(** The part of [visit_Attribute] before [generic_visit];
    [is_call_target] and [is_class_base] say whether the node is in
    [_call_targets] and in [_class_bases]. *)
Definition check_Attribute (is_call_target is_class_base : bool)
    (v : visitor) (node : Ast.expr) (p : Ast.pos) : visitor :=
  if is_call_target then v
  else if is_class_base then skip_module_access v
  else
    match _get_attribute_chain node with
    | [] => v
    | base_name :: attr_names =>
        if allow_self_access cfg && PyStr.mem base_name ["self"; "cls"] then v
        else if bool_decide (base_name ∈ _imported_modules v)
                && match attr_names with
                   | [attr] => starts_upper attr
                   | _ => false
                   end
        then skip_module_access v
        else if allow_dunder_access cfg && existsb is_dunder attr_names then v
        else if allow_private_access cfg
                && existsb (fun attr => PyStr.startswith attr "_") attr_names
        then v
        else
          match attr_names with
          | [] => v
          | _ =>
              match _create_violation p base_name attr_names with
              | Some violation => add_violation violation v
              | None => v
              end
          end
    end.

Definition is_Attribute (e : Ast.expr) : bool :=
  match e with Ast.Attribute _ _ _ => true | _ => false end.

(** [visit] on an expression: [visit_Call] marks its [func], then
    [generic_visit]; [visit_Attribute]; [generic_visit] elsewhere. *)
Fixpoint visit_expr (is_call_target is_class_base : bool) (v : visitor)
    (node : Ast.expr) {struct node} : visitor :=
  let visit_all := fold_left (visit_expr false false) in
  match node with
  | Ast.Attribute p value _ =>
      visit_expr false is_class_base
        (check_Attribute is_call_target is_class_base v node p) value
  | Ast.Call func args keywords =>
      let v := visit_expr (is_Attribute func) false v func in
      let v := visit_all args v in
      fold_left (fun v kw => visit_expr false false v (snd kw)) keywords v
  | Ast.BoolOp _ values => visit_all values v
  | Ast.BinOp lhs _ rhs =>
      visit_expr false false (visit_expr false false v lhs) rhs
  | Ast.UnaryOp _ operand => visit_expr false false v operand
  | Ast.IfExp test body orelse =>
      visit_expr false false
        (visit_expr false false (visit_expr false false v test) body) orelse
  | Ast.Dict keys values =>
      let v :=
        fold_left
          (fun v k =>
             match k with Some k => visit_expr false false v k | None => v end)
          keys v in
      visit_all values v
  | Ast.Compare lhs _ comparators =>
      visit_all comparators (visit_expr false false v lhs)
  | Ast.Subscript value slice =>
      visit_expr false false (visit_expr false false v value) slice
  | Ast.List elts => visit_all elts v
  | Ast.Tuple elts => visit_all elts v
  | Ast.Constant _ => v
  | Ast.Name _ => v
  end.

Definition visit_exprs (es : list Ast.expr) (v : visitor) : visitor :=
  fold_left (visit_expr false false) es v.

(** [visit_Import] before [generic_visit] *)
Definition check_Import (names : list Ast.alias) (v : visitor) : visitor :=
  fold_left
    (fun v alias =>
       let m :=
         match Ast.asname alias with
         | Some a => if bool_decide (a = "") then None else Some a
         | None => None
         end in
       add_import
         (default (List.hd "" (PyStr.split "."%char (Ast.alias_name alias))) m) v)
    names v.

(** [visit_ImportFrom] before [generic_visit] *)
Definition check_ImportFrom (module : option string) (names : list Ast.alias)
    (v : visitor) : visitor :=
  match module with
  | Some m =>
      if bool_decide (m = "") then v
      else
        fold_left
          (fun v alias =>
             match Ast.asname alias with
             | Some a =>
                 if bool_decide (a = "") then add_import (Ast.alias_name alias) v
                 else add_import a v
             | None => add_import (Ast.alias_name alias) v
             end)
          names v
  | None => v
  end.

(** [visit] on a statement. *)
Fixpoint visit (v : visitor) (node : Ast.stmt) {struct node} : visitor :=
  match node with
  | Ast.Import names => check_Import names v
  | Ast.ImportFrom module names _ => check_ImportFrom module names v
  | Ast.ClassDef cname bases keywords body decorator_list =>
      let old_in_class := _in_class v in
      let old_class := _current_class v in
      let v := set_class true (Some cname) v in
      let v := fold_left (visit_expr false true) bases v in
      let v := visit_exprs (map snd keywords) v in
      let v := fold_left visit body v in
      let v := visit_exprs decorator_list v in
      set_class old_in_class old_class v
  | Ast.FunctionDef _ _ a body decorator_list returns
  | Ast.AsyncFunctionDef _ _ a body decorator_list returns =>
      let v := visit_exprs (Ast.arguments_exprs a) v in
      let v := fold_left visit body v in
      let v := visit_exprs decorator_list v in
      visit_exprs (Ast.opt_expr returns) v
  | Ast.Return value => visit_exprs (Ast.opt_expr value) v
  | Ast.Assign targets value => visit_exprs [value] (visit_exprs targets v)
  | Ast.For target iter body orelse =>
      fold_left visit orelse (fold_left visit body (visit_exprs [target; iter] v))
  | Ast.While test body orelse =>
      fold_left visit orelse (fold_left visit body (visit_exprs [test] v))
  | Ast.If _ test body orelse =>
      fold_left visit orelse (fold_left visit body (visit_exprs [test] v))
  | Ast.Match _ subject cases =>
      fold_left
        (fun v c =>
           fold_left visit (snd c)
             (visit_exprs
                (Ast.pattern_exprs (fst (fst c)) ++ Ast.opt_expr (snd (fst c))) v))
        cases (visit_exprs [subject] v)
  | Ast.Expr value => visit_exprs [value] v
  | Ast.Pass => v
  end.

(** [EncapsulationRule.analyze] *)
Definition analyze (tree : Ast.Module) : RuleResult.t :=
  let v := fold_left visit (Ast.mod_body tree) init_visitor in
  RuleResult.mk name (violations v)
    [("total_violations", PInt (Z.of_nat (length (violations v))));
     ("files_analyzed", PInt 1);
     ("module_access_skipped", PInt (module_access_skipped v))]
    [].

End Visitor.

End Encapsulation.

(** ** Sample inputs

    A parser that knows one program, a registry with a rule that raises,
    and the syntax trees of the scenarios, used to run the definitions. *)

Module Samples.

(** Accepts the program [pass]; anything else is a syntax error. *)
Definition parse_pass_only (source filename : string) : outcome Ast.Module :=
  if bool_decide (source = "pass") then Return (Ast.MkModule [Ast.Pass])
  else Raise (SyntaxError ("invalid syntax (" +:+ filename +:+ ", line 1)")).



Definition broken_rule (options : dict pyval) : BaseRule.t :=
  BaseRule.mk "coupling"
    (fun _ _ _ => Raise (Exception "RuntimeError" "dependency graph failed")).

Definition boolean_flag_rule (options : dict pyval) : BaseRule.t :=
  BaseRule.mk BooleanFlag.name
    (fun tree source file_path =>
       match BooleanFlag.__init__ options with
       | Some cfg => Return (BooleanFlag.analyze file_path source cfg tree)
       | None => Raise (Exception "TypeError" "min_flag_usages is not an integer")
       end).

Definition registry : dict (dict pyval -> BaseRule.t) :=
  [("coupling", broken_rule); ("boolean_flag", boolean_flag_rule)].

(** A disk with one 2 KiB Python file. *)
Definition one_small_file : Safety.filesystem :=
  fun path =>
    if bool_decide (path = "pkg/mod.py") then Safety.RegularFile (inl 2048)
    else Safety.Missing.

Definition newline : string := String (Ascii.ascii_of_nat 10) EmptyString.

(** The boolean-flag scenario: the text

      def process(data, verbose: bool = False):
          if verbose:
              print(data)

    and its syntax tree. *)
Definition process_source : string :=
  "def process(data, verbose: bool = False):" +:+ newline
  +:+ "    if verbose:" +:+ newline
  +:+ "        print(data)".

Definition process_tree : Ast.Module :=
  Ast.MkModule
    [Ast.FunctionDef (Ast.Pos 1 0) "process"
       (Ast.Arguments []
          [Ast.Arg "data" None; Ast.Arg "verbose" (Some (Ast.Name "bool"))]
          None [] [] None
          [Ast.Constant (Ast.CBool false)])
       [Ast.If (Ast.Pos 2 4) (Ast.Name "verbose")
          [Ast.Expr (Ast.Call (Ast.Name "print") [Ast.Name "data"] [])]
          []]
       [] None].

(** A test [self.type <ops> NAME]. *)
Definition self_type_test (p : Ast.pos) (ops : list Ast.cmpop) (constant : string)
    : Ast.expr :=
  Ast.Compare (Ast.Attribute p (Ast.Name "self") "type") ops [Ast.Name constant].

(** An [if]/[elif]/[elif] chain of three such tests. *)
Definition type_chain (p1 p2 p3 : Ast.pos) (t1 t2 t3 : Ast.expr)
    (body1 body2 body3 : list Ast.stmt) : Ast.stmt :=
  Ast.If p1 t1 body1 [Ast.If p2 t2 body2 [Ast.If p3 t3 body3 []]].

(** The chain of the type-code scenario:

      if self.type == EUROPEAN:
          pass
      elif self.type == AFRICAN:
          pass
      elif self.type == NORWEGIAN_BLUE:
          pass *)
Definition bird_tree : Ast.Module :=
  Ast.MkModule
    [type_chain (Ast.Pos 1 0) (Ast.Pos 3 0) (Ast.Pos 5 0)
       (self_type_test (Ast.Pos 1 3) [Ast.Eq] "EUROPEAN")
       (self_type_test (Ast.Pos 3 5) [Ast.Eq] "AFRICAN")
       (self_type_test (Ast.Pos 5 5) [Ast.Eq] "NORWEGIAN_BLUE")
       [Ast.Pass] [Ast.Pass] [Ast.Pass]].

(** A chain whose first test only names a variable:

      if x == 1:
          pass
      elif ready():
          pass
      elif done():
          pass *)
Definition mixed_chain : Ast.stmt :=
  Ast.If (Ast.Pos 1 0)
    (Ast.Compare (Ast.Name "x") [Ast.Eq] [Ast.Constant (Ast.CInt 1)])
    [Ast.Pass]
    [Ast.If (Ast.Pos 3 0) (Ast.Call (Ast.Name "ready") [] []) [Ast.Pass]
       [Ast.If (Ast.Pos 5 0) (Ast.Call (Ast.Name "done") [] []) [Ast.Pass] []]].

Definition mixed_source : string :=
  "if x == 1:" +:+ newline +:+ "    pass" +:+ newline
  +:+ "elif ready():" +:+ newline +:+ "    pass" +:+ newline
  +:+ "elif done():" +:+ newline +:+ "    pass".

Definition bird_source : string :=
  "if self.type == EUROPEAN:" +:+ newline +:+ "    pass" +:+ newline
  +:+ "elif self.type == AFRICAN:" +:+ newline +:+ "    pass" +:+ newline
  +:+ "elif self.type == NORWEGIAN_BLUE:" +:+ newline +:+ "    pass".

(** The default configuration with a tuple among the options of one rule:
    [config.enable_rule("polymorphism", ignore=("a", "b"))]. *)
Definition tuple_config : AnalyzerConfig.t :=
  match AnalyzerConfig.enable_rule "polymorphism"
          [("ignore", PTuple [PStr "a"; PStr "b"])] AnalyzerConfig.default with
  | Return config => config
  | Raise _ => AnalyzerConfig.default
  end.

(** The default configuration with a threshold and a list among the
    options of one rule. *)
Definition list_config : AnalyzerConfig.t :=
  match AnalyzerConfig.enable_rule "polymorphism"
          [("min_branches", PInt 4); ("ignore", PList [PStr "a"; PStr "b"])]
          (AnalyzerConfig.disable_rule "coupling" AnalyzerConfig.default) with
  | Return config => config
  | Raise _ => AnalyzerConfig.default
  end.

(** [def f(a, b, c, d, e, /): pass] *)
Definition posonly_source : string := "def f(a, b, c, d, e, /): pass".

Definition posonly_tree : Ast.Module :=
  Ast.MkModule
    [Ast.FunctionDef (Ast.Pos 1 0) "f"
       (Ast.Arguments
          [Ast.Arg "a" None; Ast.Arg "b" None; Ast.Arg "c" None;
           Ast.Arg "d" None; Ast.Arg "e" None]
          [] None [] [] None [])
       [Ast.Pass] [] None].

(** [def g(a, b, c, d, e): pass] *)
Definition five_params_tree : Ast.Module :=
  Ast.MkModule
    [Ast.FunctionDef (Ast.Pos 1 0) "g"
       (Ast.Arguments []
          [Ast.Arg "a" None; Ast.Arg "b" None; Ast.Arg "c" None;
           Ast.Arg "d" None; Ast.Arg "e" None]
          None [] [] None [])
       [Ast.Pass] [] None].

(** The statement [os.b.c], in a file without imports (the name [os] may be
    a parameter or a local variable). *)
Definition os_chain_tree : Ast.Module :=
  Ast.MkModule
    [Ast.Expr (Ast.attribute_access "os" [(Ast.Pos 1 0, "b"); (Ast.Pos 1 0, "c")])].

(** The statement [order.customer.name]. *)
Definition order_chain_tree : Ast.Module :=
  Ast.MkModule
    [Ast.Expr
       (Ast.attribute_access "order"
          [(Ast.Pos 1 0, "customer"); (Ast.Pos 1 0, "name")])].

End Samples.

(** * Properties *)

(** ** Dictionaries *)

Section PyDictFacts.

Context {V : Type}.
Implicit Types (d : dict V) (k : string) (v : V).

Lemma get_set_eq k v d : PyDict.get k (PyDict.set k v d) = Some v.
Proof.
  induction d as [|[k' v'] d IH]; simpl.
  - by rewrite bool_decide_eq_true_2.
  - destruct (bool_decide (k = k')) eqn:E; simpl; rewrite ?E; [|done].
    by rewrite bool_decide_eq_true_2.
Qed.

Lemma get_set_ne k k' v d : k ≠ k' -> PyDict.get k' (PyDict.set k v d) = PyDict.get k' d.
Proof.
  intros Hne. induction d as [|[k0 v0] d IH]; simpl.
  - by rewrite bool_decide_eq_false_2.
  - destruct (bool_decide (k = k0)) eqn:E; simpl.
    + apply bool_decide_eq_true_1 in E as <-.
      by rewrite !bool_decide_eq_false_2.
    + by rewrite IH.
Qed.

Lemma get_None k d : PyDict.get k d = None <-> k ∉ PyDict.keys d.
Proof.
  induction d as [|[k' v'] d IH]; simpl.
  - split; [intros _; apply not_elem_of_nil | done].
  - rewrite not_elem_of_cons. case_bool_decide as E; split.
    + done.
    + by intros [? _].
    + intros H. split; [done | by apply IH].
    + intros [_ H]. by apply IH.
Qed.

Lemma get_Some_elem k v d : PyDict.get k d = Some v -> (k, v) ∈ d.
Proof.
  induction d as [|[k' v'] d IH]; simpl; [done|].
  case_bool_decide; [intros [= ->]; subst; left | right; auto].
Qed.

Lemma elem_get_NoDup k v d :
  NoDup (PyDict.keys d) -> (k, v) ∈ d -> PyDict.get k d = Some v.
Proof.
  induction d as [|[k' v'] d IH]; simpl.
  - by intros _ ?%elem_of_nil.
  - intros [Hk Hd]%NoDup_cons [[= -> ->]|Hin]%elem_of_cons.
    + by rewrite bool_decide_eq_true_2.
    + rewrite bool_decide_eq_false_2; [auto|].
      intros ->. apply Hk. unfold PyDict.keys.
      apply list_elem_of_fmap. by exists (k', v).
Qed.

Lemma set_fresh k v d : k ∉ PyDict.keys d -> PyDict.set k v d = d ++ [(k, v)].
Proof.
  induction d as [|[k' v'] d IH]; simpl; [done|].
  intros [Hne Hk]%not_elem_of_cons.
  rewrite bool_decide_eq_false_2 by done. by rewrite IH.
Qed.

Lemma keys_set k v d :
  PyDict.keys (PyDict.set k v d)
  = if bool_decide (k ∈ PyDict.keys d) then PyDict.keys d else PyDict.keys d ++ [k].
Proof.
  induction d as [|[k' v'] d IH].
  - cbn. by rewrite bool_decide_eq_false_2 by apply not_elem_of_nil.
  - cbn [PyDict.set]. destruct (bool_decide (k = k')) eqn:E.
    + apply bool_decide_eq_true_1 in E as <-.
      rewrite (bool_decide_eq_true_2 (k ∈ PyDict.keys ((k, v') :: d))); [done | left].
    + apply bool_decide_eq_false_1 in E.
      change (PyDict.keys ((k', v') :: PyDict.set k v d))
        with (k' :: PyDict.keys (PyDict.set k v d)).
      change (PyDict.keys ((k', v') :: d)) with (k' :: PyDict.keys d).
      rewrite IH. case_bool_decide as H1; case_bool_decide as H2; try done.
      * exfalso. apply H2. by right.
      * exfalso. apply elem_of_cons in H2 as [?|?]; done.
Qed.

Lemma NoDup_keys_set k v d :
  NoDup (PyDict.keys d) -> NoDup (PyDict.keys (PyDict.set k v d)).
Proof.
  intros Hd. rewrite keys_set. case_bool_decide; [done|].
  apply NoDup_app. split_and!; [done | | apply NoDup_singleton].
  intros x Hx ->%list_elem_of_singleton. done.
Qed.

(** Entries with fresh, distinct keys are appended in order. *)
Lemma update_fresh (l : list (string * V)) d :
  NoDup (PyDict.keys d ++ map fst l) -> PyDict.update l d = d ++ l.
Proof.
  revert d. induction l as [|[k v] l IH]; intros d Hnd; simpl.
  - by rewrite app_nil_r.
  - unfold PyDict.update in *. simpl.
    assert (k ∉ PyDict.keys d) as Hk.
    { apply NoDup_app in Hnd as (_ & Hdis & _). intros Hin.
      apply (Hdis k Hin). left. }
    rewrite set_fresh by done. rewrite IH.
    + by rewrite <- app_assoc.
    + unfold PyDict.keys in *. rewrite fmap_app. simpl.
      rewrite <- app_assoc. done.
Qed.

Lemma of_pairs_NoDup (l : list (string * V)) :
  NoDup (map fst l) -> PyDict.of_pairs l = l.
Proof. intros H. unfold PyDict.of_pairs. by rewrite update_fresh. Qed.

End PyDictFacts.

(** ** Results and reports *)

Lemma fold_left_Zadd (l : list Z) (a : Z) :
  fold_left Z.add l a = a + foldr Z.add 0 l.
Proof.
  revert a. induction l as [|x l IH]; intros a; simpl; [lia|].
  rewrite IH. lia.
Qed.

Lemma length_concat_Z {A} (ls : list (list A)) :
  Z.of_nat (length (concat ls)) = foldr Z.add 0 (map (fun l => Z.of_nat (length l)) ls).
Proof.
  induction ls as [|l ls IH]; simpl; [done|].
  rewrite length_app, Nat2Z.inj_add, IH. done.
Qed.

(** C1. For every RuleResult, [violation_count] is the length of
    [violations] and [has_violations] holds exactly when [violation_count]
    is positive; for every AnalysisReport, [total_violations] is the sum of
    the [violation_count] of the results in its mapping (and so the number
    of violations they hold together). *)
Theorem C1_counts_are_derived (r : RuleResult.t) (report : AnalysisReport.t) :
  RuleResult.violation_count r = Z.of_nat (length (RuleResult.violations r))
  /\ (RuleResult.has_violations r = true <-> RuleResult.violation_count r > 0)
  /\ AnalysisReport.total_violations report
     = foldr (fun res acc => RuleResult.violation_count res + acc) 0
         (PyDict.values (AnalysisReport.results report))
  /\ AnalysisReport.total_violations report
     = Z.of_nat (length (concat (map RuleResult.violations
                                   (PyDict.values (AnalysisReport.results report))))).
Proof.
  split_and!.
  - reflexivity.
  - unfold RuleResult.has_violations, RuleResult.violation_count.
    rewrite Z.ltb_lt. lia.
  - unfold AnalysisReport.total_violations. rewrite fold_left_Zadd, Z.add_0_l.
    induction (PyDict.values (AnalysisReport.results report)) as [|x l IH]; simpl; congruence.
  - unfold AnalysisReport.total_violations. rewrite fold_left_Zadd, Z.add_0_l.
    rewrite length_concat_Z, map_map. reflexivity.
Qed.

(** ** The orchestrator *)

Section AnalyzerFacts.

Variable ast_parse : string -> string -> outcome Ast.Module.
Variable RULE_REGISTRY : dict (dict pyval -> BaseRule.t).

Implicit Types (rules : dict BaseRule.t) (results : dict RuleResult.t)
  (errors : list (dict pyval)).

(** The results mapping after the loop: a rule that returned has its
    result under its name, a rule that raised leaves the entry as it
    was. *)
Lemma run_rules_results tree source file_path rules results errors name :
  NoDup (PyDict.keys rules) ->
  PyDict.get name
    (fst (fold_left (OOPAnalyzer.run_rule tree source file_path) rules
            (results, errors)))
  = match PyDict.get name rules with
    | Some rule =>
        match BaseRule.analyze rule tree source file_path with
        | Return result => Some result
        | Raise _ => PyDict.get name results
        end
    | None => PyDict.get name results
    end.
Proof.
  revert results errors.
  induction rules as [|[k rule] rules IH]; intros results errors Hnd; [done|].
  apply NoDup_cons in Hnd as [Hk Hnd]. simpl in Hk.
  cbn [fold_left OOPAnalyzer.run_rule PyDict.get].
  destruct (BaseRule.analyze rule tree source file_path) as [result|e] eqn:Hrun.
  - rewrite IH by done. case_bool_decide as Hname.
    + subst k. apply get_None in Hk. rewrite Hk, Hrun. apply get_set_eq.
    + rewrite get_set_ne by done. done.
  - rewrite IH by done. case_bool_decide as Hname; [|done].
    subst k. apply get_None in Hk. by rewrite Hk, Hrun.
Qed.

(** The error list after the loop holds the record of each rule that
    raised. *)
Lemma run_rules_errors tree source file_path rules results errors name rule e :
  (name, rule) ∈ rules ->
  BaseRule.analyze rule tree source file_path = Raise e ->
  OOPAnalyzer.rule_error file_path name e
  ∈ snd (fold_left (OOPAnalyzer.run_rule tree source file_path) rules
           (results, errors)).
Proof.
  intros Hin Hraise.
  assert (forall rules results errors x,
             x ∈ errors ->
             x ∈ snd (fold_left (OOPAnalyzer.run_rule tree source file_path) rules
                        (results, errors))) as Hkeep.
  { clear. intros rules. induction rules as [|[k r] rules IH];
      intros results errors x Hx; [done|].
    cbn [fold_left OOPAnalyzer.run_rule].
    destruct (BaseRule.analyze r tree source file_path); apply IH; [done|].
    apply elem_of_app. by left. }
  revert results errors.
  induction rules as [|[k r] rules IH]; intros results errors.
  - by apply elem_of_nil in Hin.
  - cbn [fold_left OOPAnalyzer.run_rule].
    apply elem_of_cons in Hin as [[= <- <-]|Hin].
    + rewrite Hraise. apply Hkeep. apply elem_of_app. right. left.
    + destruct (BaseRule.analyze r tree source file_path); by apply IH.
Qed.

(** The rules an analyzer holds: one instance per enabled rule name that
    the registry knows, built from that rule's options. *)
Lemma get_initialize_rules config name :
  PyDict.get name (OOPAnalyzer._initialize_rules RULE_REGISTRY config)
  = if bool_decide (name ∈ AnalyzerConfig.get_enabled_rules config) then
      match PyDict.get name RULE_REGISTRY with
      | Some rule_class => Some (rule_class (OOPAnalyzer.rule_options config name))
      | None => None
      end
    else None.
Proof.
  unfold OOPAnalyzer._initialize_rules.
  generalize (AnalyzerConfig.get_enabled_rules config) as names.
  assert (forall names acc,
    PyDict.get name
      (fold_left
         (fun rules rule_name =>
            match PyDict.get rule_name RULE_REGISTRY with
            | Some rule_class =>
                PyDict.set rule_name
                  (rule_class (OOPAnalyzer.rule_options config rule_name)) rules
            | None => rules
            end) names acc)
    = if bool_decide (name ∈ names) then
        match PyDict.get name RULE_REGISTRY with
        | Some rule_class => Some (rule_class (OOPAnalyzer.rule_options config name))
        | None => PyDict.get name acc
        end
      else PyDict.get name acc) as Hgen.
  { induction names as [|n names IH]; intros acc; [done|].
    cbn [fold_left]. rewrite IH.
    destruct (decide (name = n)) as [->|Hne].
    - rewrite (bool_decide_eq_true_2 (n ∈ n :: names)) by left.
      destruct (PyDict.get n RULE_REGISTRY) as [rule_class|] eqn:Hreg.
      + by destruct (bool_decide (n ∈ names)); [|apply get_set_eq].
      + by destruct (bool_decide (n ∈ names)).
    - assert (bool_decide (name ∈ n :: names) = bool_decide (name ∈ names)) as ->.
      { apply bool_decide_ext. rewrite elem_of_cons. split; [by intros [?|?]|by right]. }
      destruct (PyDict.get n RULE_REGISTRY) as [rule_class|] eqn:Hreg; [|done].
      rewrite get_set_ne by done. done. }
  intros names. rewrite Hgen.
  destruct (bool_decide (name ∈ names)); [|done].
  by destruct (PyDict.get name RULE_REGISTRY).
Qed.

Lemma NoDup_initialize_rules config :
  NoDup (PyDict.keys (OOPAnalyzer._initialize_rules RULE_REGISTRY config)).
Proof.
  unfold OOPAnalyzer._initialize_rules.
  generalize (AnalyzerConfig.get_enabled_rules config) as names.
  assert (forall names (acc : dict BaseRule.t),
    NoDup (PyDict.keys acc) ->
    NoDup (PyDict.keys
      (fold_left
         (fun rules rule_name =>
            match PyDict.get rule_name RULE_REGISTRY with
            | Some rule_class =>
                PyDict.set rule_name
                  (rule_class (OOPAnalyzer.rule_options config rule_name)) rules
            | None => rules
            end) names acc))) as Hgen.
  { induction names as [|n names IH]; intros acc Hacc; [done|].
    cbn [fold_left]. apply IH.
    destruct (PyDict.get n RULE_REGISTRY); [by apply NoDup_keys_set | done]. }
  intros names. apply Hgen. apply NoDup_nil_2.
Qed.

End AnalyzerFacts.

(** C2. When the source parses and the [analyze] call of one enabled rule
    raises an exception while those of the other rules return,
    [analyze_source] returns a report: its error list has the record
    tagged with the failing rule's name, its results mapping has the result
    of every other enabled rule, and no entry for the failing rule. *)
Theorem C2_failing_rule_is_isolated
    (ast_parse : string -> string -> outcome Ast.Module)
    (RULE_REGISTRY : dict (dict pyval -> BaseRule.t))
    (config : AnalyzerConfig.t) (now : Z) (source file_path : string)
    (tree0 tree : Ast.Module)
    (failing : string) (failing_class : dict pyval -> BaseRule.t) (e : exception) :
  let self := OOPAnalyzer.__init__ RULE_REGISTRY (Some config) in
  let instance rule_class name :=
    BaseRule.analyze (rule_class (OOPAnalyzer.rule_options config name))
      tree source file_path in
  ast_parse source "<unknown>" = Return tree0 ->
  ast_parse source file_path = Return tree ->
  failing ∈ AnalyzerConfig.get_enabled_rules config ->
  PyDict.get failing RULE_REGISTRY = Some failing_class ->
  instance failing_class failing = Raise e ->
  (forall name rule_class,
      name ∈ AnalyzerConfig.get_enabled_rules config ->
      name <> failing ->
      PyDict.get name RULE_REGISTRY = Some rule_class ->
      exists result, instance rule_class name = Return result) ->
  exists report,
    OOPAnalyzer.analyze_source ast_parse self now source file_path = Return report
    /\ (exists record,
          record ∈ AnalysisReport.errors report
          /\ PyDict.get "rule" record = Some (PStr failing)
          /\ PyDict.get "error" record = Some (PStr (str_of_exception e)))
    /\ (forall name rule_class,
          name ∈ AnalyzerConfig.get_enabled_rules config ->
          name <> failing ->
          PyDict.get name RULE_REGISTRY = Some rule_class ->
          exists result,
            instance rule_class name = Return result
            /\ PyDict.get name (AnalysisReport.results report) = Some result)
    /\ PyDict.get failing (AnalysisReport.results report) = None.
Proof.
  intros self instance Hparse0 Hparse Henabled Hreg Hraise Hothers.
  unfold OOPAnalyzer.analyze_source, Safety.validate_source_code, Safety.parse_safely.
  cbn [snd]. rewrite Hparse0, Hparse. cbn [SafetyReport.is_safe negb].
  unfold OOPAnalyzer.run_rules, PyDict.items. subst self.
  cbn [OOPAnalyzer.__init__ OOPAnalyzer._rules].
  set (rules := OOPAnalyzer._initialize_rules RULE_REGISTRY config).
  destruct (fold_left _ rules _) as [results errors] eqn:Hrun.
  eexists. split; [reflexivity|].
  cbn [AnalysisReport.errors AnalysisReport.results].
  assert (PyDict.get failing rules
          = Some (failing_class (OOPAnalyzer.rule_options config failing))) as Hfailing.
  { subst rules. rewrite get_initialize_rules.
    by rewrite bool_decide_eq_true_2, Hreg. }
  pose proof (NoDup_initialize_rules RULE_REGISTRY config) as Hnd.
  fold rules in Hnd.
  assert (results = fst (fold_left (OOPAnalyzer.run_rule tree source file_path) rules ([], [])))
    as -> by (by rewrite Hrun).
  assert (errors = snd (fold_left (OOPAnalyzer.run_rule tree source file_path) rules ([], [])))
    as -> by (by rewrite Hrun).
  clear Hrun. split_and!.
  - exists (OOPAnalyzer.rule_error file_path failing e).
    split_and!; [|reflexivity|reflexivity].
    eapply run_rules_errors; [|exact Hraise].
    by apply get_Some_elem.
  - intros name rule_class Hen Hne Hname.
    destruct (Hothers name rule_class Hen Hne Hname) as [result Hres].
    exists result. split; [done|].
    rewrite run_rules_results by exact Hnd.
    subst rules. rewrite get_initialize_rules.
    rewrite bool_decide_eq_true_2, Hname by done.
    unfold instance in Hres. by rewrite Hres.
  - rewrite run_rules_results by exact Hnd.
    rewrite Hfailing. unfold instance in Hraise. by rewrite Hraise.
Qed.

(** ** The safety validator *)


(** C9. A validator constructed with [max_file_size=0] has the default
    limit of 10 MiB, and accepts a Python file exactly when its size is at
    most 10 MiB. *)
Theorem C9_zero_limit_is_default (fs : Safety.filesystem) (path : string) (size : Z) :
  fs path = Safety.RegularFile (inl size) ->
  Safety.path_suffix path = ".py" ->
  Safety.max_file_size (Safety.__init__ (Some 0)) = 10 * 1024 * 1024
  /\ Safety.__init__ (Some 0) = Safety.__init__ None
  /\ (SafetyReport.is_safe
        (Safety.validate_file_path (Safety.__init__ (Some 0)) fs path) = true
      <-> size <= 10 * 1024 * 1024).
Proof.
  intros Hfile Hsuffix. split_and!; [reflexivity..|].
  unfold Safety.validate_file_path. rewrite Hfile, Hsuffix.
  rewrite bool_decide_eq_true_2 by done. cbn [negb].
  change (Safety.max_file_size (Safety.__init__ (Some 0))) with 10485760.
  destruct (10485760 <? size) eqn:E; cbn [SafetyReport.is_safe].
  - apply Z.ltb_lt in E. split; [done | lia].
  - apply Z.ltb_ge in E. split; [lia | done].
Qed.

(** An exception of the parser that is not a [SyntaxError] is not handled
    by the validator. *)
Lemma parse_safely_propagates
    (ast_parse : string -> string -> outcome Ast.Module)
    (source file_path : string) (e : exception) :
  ast_parse source file_path = Raise e ->
  is_SyntaxError e = false ->
  Safety.parse_safely ast_parse source file_path = Raise e.
Proof. intros Hparse He. unfold Safety.parse_safely. by rewrite Hparse, He. Qed.



Lemma C9_witness :
  Safety.max_file_size (Safety.__init__ (Some 0)) = 10 * 1024 * 1024
  /\ Safety.__init__ (Some 0) = Safety.__init__ None
  /\ (SafetyReport.is_safe
        (Safety.validate_file_path (Safety.__init__ (Some 0))
           Samples.one_small_file "pkg/mod.py") = true
      <-> 2048 <= 10 * 1024 * 1024).
Proof.
  apply (C9_zero_limit_is_default Samples.one_small_file "pkg/mod.py" 2048);
    reflexivity.
Defined.

Lemma C2_witness :
  exists report,
    OOPAnalyzer.analyze_source Samples.parse_pass_only
      (OOPAnalyzer.__init__ Samples.registry (Some AnalyzerConfig.default))
      0 "pass" "<string>" = Return report
    /\ (exists record,
          record ∈ AnalysisReport.errors report
          /\ PyDict.get "rule" record = Some (PStr "coupling")
          /\ PyDict.get "error" record = Some (PStr "dependency graph failed"))
    /\ (forall name rule_class,
          name ∈ AnalyzerConfig.get_enabled_rules AnalyzerConfig.default ->
          name <> "coupling" ->
          PyDict.get name Samples.registry = Some rule_class ->
          exists result,
            BaseRule.analyze
              (rule_class (OOPAnalyzer.rule_options AnalyzerConfig.default name))
              (Ast.MkModule [Ast.Pass]) "pass" "<string>" = Return result
            /\ PyDict.get name (AnalysisReport.results report) = Some result)
    /\ PyDict.get "coupling" (AnalysisReport.results report) = None.
Proof.
  apply (C2_failing_rule_is_isolated Samples.parse_pass_only Samples.registry
           AnalyzerConfig.default 0 "pass" "<string>"
           (Ast.MkModule [Ast.Pass]) (Ast.MkModule [Ast.Pass])
           "coupling" Samples.broken_rule
           (Exception "RuntimeError" "dependency graph failed")).
  - reflexivity.
  - reflexivity.
  - vm_compute. apply list_elem_of_In. simpl. tauto.
  - reflexivity.
  - reflexivity.
  - intros name rule_class _ Hne. unfold Samples.registry. cbn [PyDict.get].
    case_bool_decide; [done|]. case_bool_decide; [|done].
    subst name. intros [= <-]. eexists. reflexivity.
Defined.

(** ** The boolean-flag rule *)

(** C4. On the text [def process(data, verbose: bool = False): if verbose:
    print(data)] the boolean_flag rule with default options reports exactly
    one violation; its metadata names the parameter [verbose] and counts one
    conditional usage; the flag is counted for a free function, not for a
    constructor or a method. *)
Theorem C4_boolean_flag_scenario (file_path : string) :
  exists cfg violation,
    BooleanFlag.__init__ [] = Some cfg
    /\ let result :=
         BooleanFlag.analyze file_path Samples.process_source cfg Samples.process_tree in
       RuleResult.violations result = [violation]
       /\ PyDict.get "parameter" (RuleViolation.metadata violation) = Some (PStr "verbose")
       /\ PyDict.get "conditional_usages" (RuleViolation.metadata violation)
          = Some (PInt 1)
       /\ PyDict.get "is_constructor" (RuleViolation.metadata violation)
          = Some (PBool false)
       /\ PyDict.get "class" (RuleViolation.metadata violation) = Some PNone
       /\ PyDict.get "function_flags" (RuleResult.summary result) = Some (PInt 1)
       /\ PyDict.get "constructor_flags" (RuleResult.summary result) = Some (PInt 0)
       /\ PyDict.get "method_flags" (RuleResult.summary result) = Some (PInt 0).
Proof.
  eexists _, _. split; [reflexivity|].
  cbv zeta. split_and!; [vm_compute; reflexivity | reflexivity..].
Qed.

(** ** The type-code rule *)

Section TypeCodeFacts.

Variables (file_path source : string) (cfg : TypeCode.settings).

Lemma TypeCode_visit_simple v s :
  Ast.is_simple_stmt s = true -> TypeCode.visit file_path source cfg v s = v.
Proof. by destruct s. Qed.

Lemma TypeCode_visit_simple_body v body :
  forallb Ast.is_simple_stmt body = true ->
  fold_left (TypeCode.visit file_path source cfg) body v = v.
Proof.
  induction body as [|s body IH]; [done|].
  intros [Hs Hbody]%andb_prop. cbn [fold_left].
  rewrite TypeCode_visit_simple by done. auto.
Qed.

(** A comparison of [self.type] with an upper-case name is a branch on
    the attribute ["self.type"], of pattern type ["constant"]. *)
Lemma analyze_condition_self_type v p ops constant :
  PyStr.isupper constant = true ->
  TypeCode._analyze_condition cfg v (Samples.self_type_test p ops constant)
  = (TypeCode.incr_type_attr v,
     Some (TypeCode.mkBranch true "self.type" constant "constant")).
Proof.
  intros Hupper. cbn [Samples.self_type_test TypeCode._analyze_condition].
  unfold TypeCode._analyze_compare.
  change (PyStr.mem (PyStr.lower "type") TypeCode.TYPE_CODE_ATTRIBUTES) with true.
  cbn [TypeCode._get_comparison_value TypeCode._classify_comparison_value].
  rewrite Hupper. reflexivity.
Qed.

End TypeCodeFacts.

(** C5, as the code has it.  For an [if]/[elif]/[elif] chain whose three
    tests compare [self.type] with upper-case names, with bodies of simple
    statements, the type_code rule with default options reports two
    violations: the first, at the [if], for the whole chain, with
    [checked_attribute] ["self.type"] and [branch_count] 3; the second, at
    the first [elif], for the chain that starts there, with the same
    attribute and [branch_count] 2. *)
Theorem C5_type_code_chain_reported_twice
    (file_path source : string) (p1 p2 p3 q1 q2 q3 : Ast.pos)
    (ops1 ops2 ops3 : list Ast.cmpop) (a b c : string)
    (body1 body2 body3 : list Ast.stmt) :
  TypeCode._is_constant (Ast.Name a) = true ->
  TypeCode._is_constant (Ast.Name b) = true ->
  TypeCode._is_constant (Ast.Name c) = true ->
  forallb Ast.is_simple_stmt body1 = true ->
  forallb Ast.is_simple_stmt body2 = true ->
  forallb Ast.is_simple_stmt body3 = true ->
  exists cfg first second,
    TypeCode.__init__ [] = Some cfg
    /\ RuleResult.violations
         (TypeCode.analyze file_path source cfg
            (Ast.MkModule
               [Samples.type_chain p1 p2 p3
                  (Samples.self_type_test q1 ops1 a)
                  (Samples.self_type_test q2 ops2 b)
                  (Samples.self_type_test q3 ops3 c)
                  body1 body2 body3]))
       = [first; second]
    /\ PyDict.get "checked_attribute" (RuleViolation.metadata first)
       = Some (PStr "self.type")
    /\ PyDict.get "branch_count" (RuleViolation.metadata first) = Some (PInt 3)
    /\ PyDict.get "comparison_values" (RuleViolation.metadata first)
       = Some (PList [PStr a; PStr b; PStr c])
    /\ RuleViolation.line first = Ast.lineno p1
    /\ PyDict.get "checked_attribute" (RuleViolation.metadata second)
       = Some (PStr "self.type")
    /\ PyDict.get "branch_count" (RuleViolation.metadata second) = Some (PInt 2)
    /\ PyDict.get "comparison_values" (RuleViolation.metadata second)
       = Some (PList [PStr b; PStr c])
    /\ RuleViolation.line second = Ast.lineno p2.
Proof.
  intros [Ha _]%andb_prop [Hb _]%andb_prop [Hc _]%andb_prop Hbody1 Hbody2 Hbody3.
  eexists _, _, _. split; [reflexivity|].
  unfold TypeCode.analyze, Samples.type_chain.
  cbn [RuleResult.violations Ast.mod_body fold_left TypeCode.visit].
  rewrite !TypeCode_visit_simple_body by done.
  unfold TypeCode.check_If, TypeCode._analyze_if_chain, TypeCode.analyze_branches.
  cbn [Ast.chain_tests fold_left].
  rewrite !analyze_condition_self_type by done.
  cbn [app length List.filter TypeCode.is_type_code TypeCode.min_branches map
       TypeCode.checked_attribute TypeCode.compared_to TypeCode.pattern_type].
  change (Z.of_nat 3 <? 2) with false. change (Z.of_nat 2 <? 2) with false.
  change (Z.of_nat 1 <? 2) with true.
  change (2 <=? Z.of_nat 3) with true. change (2 <=? Z.of_nat 2) with true.
  cbv iota.
  change (bool_decide
            (size (list_to_set ["self.type"; "self.type"; "self.type"] : gset string)
             = 1%nat)) with true.
  change (bool_decide
            (size (list_to_set ["self.type"; "self.type"] : gset string) = 1%nat))
    with true.
  cbv iota.
  cbn [TypeCode.is_type_code_pattern TypeCode._add_violation TypeCode.report
       TypeCode.violations TypeCode.incr_type_attr TypeCode.init_visitor app
       TypeCode.chain_checked_attribute TypeCode.branch_count
       TypeCode.chain_pattern_type TypeCode.comparison_values].
  split; [reflexivity|]. split_and!; reflexivity.
Qed.

Lemma C5_witness :
  exists cfg first second,
    TypeCode.__init__ [] = Some cfg
    /\ RuleResult.violations
         (TypeCode.analyze "bird.py" Samples.bird_source cfg Samples.bird_tree)
       = [first; second]
    /\ PyDict.get "checked_attribute" (RuleViolation.metadata first)
       = Some (PStr "self.type")
    /\ PyDict.get "branch_count" (RuleViolation.metadata first) = Some (PInt 3)
    /\ PyDict.get "comparison_values" (RuleViolation.metadata first)
       = Some (PList [PStr "EUROPEAN"; PStr "AFRICAN"; PStr "NORWEGIAN_BLUE"])
    /\ RuleViolation.line first = 1
    /\ PyDict.get "checked_attribute" (RuleViolation.metadata second)
       = Some (PStr "self.type")
    /\ PyDict.get "branch_count" (RuleViolation.metadata second) = Some (PInt 2)
    /\ PyDict.get "comparison_values" (RuleViolation.metadata second)
       = Some (PList [PStr "AFRICAN"; PStr "NORWEGIAN_BLUE"])
    /\ RuleViolation.line second = 3.
Proof.
  apply (C5_type_code_chain_reported_twice "bird.py" Samples.bird_source
           (Ast.Pos 1 0) (Ast.Pos 3 0) (Ast.Pos 5 0)
           (Ast.Pos 1 3) (Ast.Pos 3 5) (Ast.Pos 5 5)
           [Ast.Eq] [Ast.Eq] [Ast.Eq] "EUROPEAN" "AFRICAN" "NORWEGIAN_BLUE"
           [Ast.Pass] [Ast.Pass] [Ast.Pass]); reflexivity.
Defined.

(** C5 as stated fails: on the chain of the scenario the rule does not
    report exactly one violation. *)
Lemma C5_counterexample :
  exists cfg,
    TypeCode.__init__ [] = Some cfg
    /\ ~ (exists violation,
            RuleResult.violations
              (TypeCode.analyze "bird.py" Samples.bird_source cfg Samples.bird_tree)
            = [violation]).
Proof.
  eexists. split; [reflexivity|].
  intros [violation H]. apply (f_equal length) in H. vm_compute in H. discriminate.
Qed.

(** ** The polymorphism rule *)

Lemma occurrences_cons x y l :
  Polymorphism.occurrences x (y :: l)
  = (if bool_decide (y = x) then 1 else 0) + Polymorphism.occurrences x l.
Proof.
  unfold Polymorphism.occurrences. cbn [List.filter].
  case_bool_decide; cbn [length]; lia.
Qed.

Lemma occurrences_nonneg x l : 0 <= Polymorphism.occurrences x l.
Proof. unfold Polymorphism.occurrences. lia. Qed.

Lemma occurrences_le_length x l :
  Polymorphism.occurrences x l <= Z.of_nat (length l).
Proof.
  induction l as [|y l IH]; [done|].
  rewrite occurrences_cons. cbn [length]. case_bool_decide; lia.
Qed.

Lemma occurrences_not_elem x l : x ∉ l -> Polymorphism.occurrences x l = 0.
Proof.
  induction l as [|y l IH]; [done|].
  intros [Hne Hl]%not_elem_of_cons. rewrite occurrences_cons, IH by done.
  by rewrite bool_decide_eq_false_2.
Qed.

Lemma occurrences_all_equal x l :
  (forall y, y ∈ l -> y = x) -> Polymorphism.occurrences x l = Z.of_nat (length l).
Proof.
  induction l as [|y l IH]; intros Hall; [done|].
  rewrite occurrences_cons, IH.
  - rewrite bool_decide_eq_true_2; [cbn [length]; lia|]. apply Hall. left.
  - intros z Hz. apply Hall. by right.
Qed.

Section CounterFacts.

Implicit Types (d : dict Z) (l : list string) (x : string).

Lemma get_default_set_eq x (n : Z) d :
  PyDict.get_default x 0 (PyDict.set x n d) = n.
Proof. unfold PyDict.get_default. by rewrite get_set_eq. Qed.

Lemma get_default_set_ne x y (n : Z) d :
  y <> x -> PyDict.get_default x 0 (PyDict.set y n d) = PyDict.get_default x 0 d.
Proof. intros H. unfold PyDict.get_default. by rewrite get_set_ne. Qed.

Lemma count_into_get d l x :
  PyDict.get_default x 0 (Polymorphism.count_into d l)
  = PyDict.get_default x 0 d + Polymorphism.occurrences x l.
Proof.
  revert d. induction l as [|y l IH]; intros d.
  - unfold Polymorphism.occurrences. cbn. lia.
  - unfold Polymorphism.count_into in *. cbn [fold_left]. rewrite IH.
    rewrite occurrences_cons. case_bool_decide as E.
    + subst y. rewrite get_default_set_eq. lia.
    + rewrite get_default_set_ne by done. lia.
Qed.

Lemma count_into_keys d l x :
  x ∈ PyDict.keys (Polymorphism.count_into d l) <-> x ∈ PyDict.keys d \/ x ∈ l.
Proof.
  revert d. induction l as [|y l IH]; intros d.
  - cbn. rewrite elem_of_nil. tauto.
  - unfold Polymorphism.count_into in *. cbn [fold_left]. rewrite IH.
    rewrite keys_set, elem_of_cons.
    case_bool_decide as E.
    + split; [tauto|]. intros [?|[->|?]]; tauto.
    + rewrite elem_of_app, list_elem_of_singleton. tauto.
Qed.

Lemma count_into_NoDup d l :
  NoDup (PyDict.keys d) -> NoDup (PyDict.keys (Polymorphism.count_into d l)).
Proof.
  revert d. induction l as [|y l IH]; intros d Hd; [done|].
  unfold Polymorphism.count_into in *. cbn [fold_left].
  apply IH. by apply NoDup_keys_set.
Qed.

(** An entry of [Counter(l)] is a name of [l] with its number of
    occurrences. *)
Lemma Counter_entry l x n :
  (x, n) ∈ Polymorphism.Counter l -> x ∈ l /\ n = Polymorphism.occurrences x l.
Proof.
  intros Hin. unfold Polymorphism.Counter in *. split.
  - assert (x ∈ PyDict.keys (Polymorphism.count_into [] l)) as Hk.
    { unfold PyDict.keys. apply list_elem_of_fmap. by exists (x, n). }
    apply count_into_keys in Hk as [Hk|Hk]; [|done].
    cbn in Hk. by apply elem_of_nil in Hk.
  - assert (PyDict.get x (Polymorphism.count_into [] l) = Some n) as Hget.
    { apply elem_get_NoDup; try done. apply count_into_NoDup. apply NoDup_nil_2. }
    pose proof (count_into_get [] l x) as H.
    unfold PyDict.get_default in H at 1. rewrite Hget in H.
    rewrite H. unfold PyDict.get_default. cbn. lia.
Qed.

Lemma Counter_has l x :
  x ∈ l -> (x, Polymorphism.occurrences x l) ∈ Polymorphism.Counter l.
Proof.
  intros Hin. unfold Polymorphism.Counter.
  assert (x ∈ PyDict.keys (Polymorphism.count_into [] l)) as Hk.
  { apply count_into_keys. by right. }
  destruct (PyDict.get x (Polymorphism.count_into [] l)) as [n|] eqn:Hget.
  - pose proof (count_into_get [] l x) as H.
    unfold PyDict.get_default in H at 1. rewrite Hget in H.
    apply get_Some_elem in Hget.
    assert (n = Polymorphism.occurrences x l) as <-; [|done].
    rewrite H. unfold PyDict.get_default. cbn. lia.
  - apply get_None in Hget. done.
Qed.

(** The scan returns an entry with the largest count among the entries
    scanned and the one it started from. *)
Lemma best_entry_spec d (best : option (string * Z)) :
  match Polymorphism.best_entry best d with
  | Some b =>
      (Some b = best \/ b ∈ d)
      /\ (forall c, c ∈ d -> snd c <= snd b)
      /\ (forall c, best = Some c -> snd c <= snd b)
  | None => best = None /\ d = []
  end.
Proof.
  revert best. induction d as [|kv d IH]; intros best.
  - cbn. destruct best as [b|]; [|done].
    split_and!; [by left | by intros c ?%elem_of_nil | by intros c [= ->]].
  - unfold Polymorphism.best_entry in *. cbn [fold_left].
    set (best' := match best with
                  | None => Some kv
                  | Some b => if snd b <? snd kv then Some kv else Some b
                  end).
    specialize (IH best').
    destruct (fold_left _ d best') as [b|] eqn:Hfold.
    + destruct IH as (Hsrc & Hmax & Hbest).
      assert (snd kv <= snd b) as Hkv.
      { subst best'. destruct best as [b0|]; [|by apply Hbest].
        destruct (snd b0 <? snd kv) eqn:E; [by apply Hbest|].
        apply Z.ltb_ge in E. specialize (Hbest b0 eq_refl). lia. }
      split_and!.
      * destruct Hsrc as [Hsrc|Hsrc]; [|right; by right].
        subst best'. destruct best as [b0|].
        -- destruct (snd b0 <? snd kv); [|by left].
           injection Hsrc as ->. right. left.
        -- injection Hsrc as ->. right. left.
      * intros c [->|Hc]%elem_of_cons; [done | by apply Hmax].
      * intros c ->. subst best'.
        destruct (snd c <? snd kv) eqn:E; [|by apply Hbest].
        apply Z.ltb_lt in E. lia.
    + destruct IH as [Hnone _]. subst best'.
      destruct best as [b0|]; [|done]. by destruct (snd b0 <? snd kv).
Qed.

(** [most_common] of the counts of a non-empty list: a name of the list
    with the largest number of occurrences. *)
Lemma most_common_Counter l :
  l <> [] ->
  exists var,
    Polymorphism.most_common (Polymorphism.Counter l)
    = Some (var, Polymorphism.occurrences var l)
    /\ var ∈ l
    /\ forall x, Polymorphism.occurrences x l <= Polymorphism.occurrences var l.
Proof.
  intros Hl. unfold Polymorphism.most_common.
  pose proof (best_entry_spec (Polymorphism.Counter l) None) as H.
  destruct (Polymorphism.best_entry None (Polymorphism.Counter l)) as [[var n]|].
  - destruct H as ([H|Hin] & Hmax & _); [done|].
    apply Counter_entry in Hin as [Hvar ->].
    exists var. split_and!; [done..|].
    intros x. destruct (decide (x ∈ l)) as [Hx|Hx].
    + apply (Hmax (x, Polymorphism.occurrences x l)). by apply Counter_has.
    + rewrite (occurrences_not_elem x l) by done. apply occurrences_nonneg.
  - destruct H as [_ Hempty]. destruct l as [|x l]; [done|].
    assert ((x, Polymorphism.occurrences x (x :: l)) ∈ Polymorphism.Counter (x :: l)) as Hin
      by (apply Counter_has; left).
    rewrite Hempty in Hin. by apply elem_of_nil in Hin.
Qed.

End CounterFacts.

Lemma set_size_1_all_equal (first : string) (l : list string) :
  size (list_to_set (first :: l) : gset string) = 1%nat ->
  forall y, y ∈ first :: l -> y = first.
Proof.
  intros Hsize y Hy.
  apply size_1_elem_of in Hsize as [x Hx].
  assert (first ∈ (list_to_set (first :: l) : gset string)) as Hfirst
    by (apply elem_of_list_to_set; left).
  assert (y ∈ (list_to_set (first :: l) : gset string)) as Hy'
    by (by apply elem_of_list_to_set).
  rewrite Hx in Hfirst, Hy'.
  apply elem_of_singleton in Hfirst, Hy'. congruence.
Qed.

(** [_analyze_if_pattern] finds a pattern exactly when some name makes up
    at least 70% of [checked_vars], and then names such a variable. *)
Lemma analyze_if_pattern_spec node :
  let vars := Polymorphism.checked_vars node in
  match Polymorphism._analyze_if_pattern node with
  | Some info =>
      vars <> []
      /\ 7 * Z.of_nat (length vars)
         <= 10 * Polymorphism.occurrences (Polymorphism.variable info) vars
  | None =>
      vars = []
      \/ forall var, 10 * Polymorphism.occurrences var vars < 7 * Z.of_nat (length vars)
  end.
Proof.
  intros vars. unfold Polymorphism._analyze_if_pattern. fold vars.
  destruct vars as [|first rest] eqn:Hvars; [by left|].
  case_bool_decide as Hsize.
  - cbn [Polymorphism.variable]. split; [done|].
    rewrite occurrences_all_equal by (by apply set_size_1_all_equal). lia.
  - destruct (most_common_Counter (first :: rest)) as (var & -> & _ & Hmax); [done|].
    destruct (7 * Z.of_nat (length (first :: rest))
              <=? 10 * Polymorphism.occurrences var (first :: rest)) eqn:E.
    + apply Z.leb_le in E. cbn [Polymorphism.variable]. by split.
    + apply Z.leb_gt in E. right. intros x. specialize (Hmax x). lia.
Qed.

(** C6, as the code has it.  [visit_If] reports a long if/elif chain
    exactly when the branch count of the chain ([_count_branches]: one for
    the [if], one per [elif], one for a trailing [else]) reaches
    [min_branches] and, among the branches in whose test a checked variable
    is found, there is at least one and one variable accounts for at least
    70% of them.  The default minimum is 3. *)
Theorem C6_long_chain_condition
    (file_path source : string) (cfg : Polymorphism.settings)
    (p : Ast.pos) (node : Ast.stmt) (v : Polymorphism.visitor) :
  let vars := Polymorphism.checked_vars node in
  let v' := Polymorphism.check_long_chain file_path source cfg p node v in
  ((exists violation,
       Polymorphism.violations v' = Polymorphism.violations v ++ [violation]
       /\ PyDict.get "pattern" (RuleViolation.metadata violation)
          = Some (PStr "long_if_chain")
       /\ PyDict.get "branches" (RuleViolation.metadata violation)
          = Some (PInt (Polymorphism._count_branches node)))
   <-> (Polymorphism.min_branches cfg <= Polymorphism._count_branches node
        /\ vars <> []
        /\ exists var,
             7 * Z.of_nat (length vars) <= 10 * Polymorphism.occurrences var vars))
  /\ ((forall violation,
         Polymorphism.violations v' <> Polymorphism.violations v ++ [violation])
      -> v' = v)
  /\ option_map Polymorphism.min_branches (Polymorphism.__init__ []) = Some 3.
Proof.
  intros vars v'. subst v'. unfold Polymorphism.check_long_chain.
  pose proof (analyze_if_pattern_spec node) as Hspec. cbv zeta in Hspec. fold vars in Hspec.
  destruct (Polymorphism.min_branches cfg <=? Polymorphism._count_branches node) eqn:Hmin.
  - apply Z.leb_le in Hmin.
    destruct (Polymorphism._analyze_if_pattern node) as [info|].
    + destruct Hspec as [Hne Hocc]. split_and!; [|intros Hno|reflexivity].
      * split; [intros _; split_and!; eauto|]. intros _. eexists.
        split_and!; reflexivity.
      * exfalso. eapply Hno. reflexivity.
    + split_and!; [|done|reflexivity]. split.
      * intros (violation & Hviol & _). apply (f_equal length) in Hviol.
        rewrite length_app in Hviol. cbn in Hviol. lia.
      * intros (_ & Hne & var & Hvar). destruct Hspec as [?|Hspec]; [done|].
        specialize (Hspec var). lia.
  - apply Z.leb_gt in Hmin. split_and!; [|done|reflexivity]. split.
    + intros (violation & Hviol & _). apply (f_equal length) in Hviol.
      rewrite length_app in Hviol. cbn in Hviol. lia.
    + intros (? & _). lia.
Qed.

(** C6 as stated fails: on a chain of three branches of which one names a
    variable, the rule reports a long chain checking that variable, though
    the variable is checked in one branch of the three. *)
Lemma C6_counterexample :
  exists cfg violation,
    Polymorphism.__init__ [] = Some cfg
    /\ RuleResult.violations
         (Polymorphism.analyze "mixed.py" Samples.mixed_source cfg
            (Ast.MkModule [Samples.mixed_chain]))
       = [violation]
    /\ PyDict.get "pattern" (RuleViolation.metadata violation)
       = Some (PStr "long_if_chain")
    /\ PyDict.get "checked_variable" (RuleViolation.metadata violation)
       = Some (PStr "x")
    /\ Polymorphism._count_branches Samples.mixed_chain = 3
    /\ ~ (exists var,
            7 * Polymorphism._count_branches Samples.mixed_chain
            <= 10 * Polymorphism.branches_checking var Samples.mixed_chain).
Proof.
  eexists _, _. split; [reflexivity|].
  split; [vm_compute; reflexivity|]. split_and!; [reflexivity..|].
  intros [var Hvar].
  assert (Polymorphism.branches_checking var Samples.mixed_chain <= 1) as Hle.
  { unfold Polymorphism.branches_checking, Samples.mixed_chain.
    cbn [Ast.chain_tests List.filter Polymorphism._get_checked_variable].
    rewrite (bool_decide_eq_false_2 (None = Some var)) by done.
    case_bool_decide; cbn [length]; lia. }
  change (Polymorphism._count_branches Samples.mixed_chain) with 3 in Hvar. lia.
Qed.

(** ** The functions-to-objects rule *)

(** What [visit_FunctionDef] and [visit_AsyncFunctionDef] do about the
    number of parameters: outside a class, a function whose name does not
    start with an underscore is reported exactly when [_count_params]
    exceeds [max_params]; inside a class nothing is recorded. *)
Lemma check_function_many_params
    (file_path source : string) (cfg : FunctionsToObjects.settings)
    (is_async : bool) (v : FunctionsToObjects.visitor) (node : Ast.stmt)
    (p : Ast.pos) (fname : string) (a : Ast.arguments) :
  let v' := FunctionsToObjects.check_function file_path source cfg is_async v node p fname a in
  let violation :=
    FunctionsToObjects.many_params_violation file_path source p fname
      (FunctionsToObjects._count_params a) in
  (FunctionsToObjects._in_class v = true -> v' = v)
  /\ (FunctionsToObjects._in_class v = false ->
      FunctionsToObjects.many_params_count v'
      = FunctionsToObjects.many_params_count v
        + Z.b2z (FunctionsToObjects.flags_many_params cfg v fname a)
      /\ (FunctionsToObjects.flags_many_params cfg v fname a = true
          -> exists rest,
               FunctionsToObjects.violations v'
               = FunctionsToObjects.violations v ++ violation :: rest)
      /\ (FunctionsToObjects.flags_many_params cfg v fname a = false
          -> Forall
               (fun x =>
                  PyDict.get "pattern" (RuleViolation.metadata x)
                  <> Some (PStr "many_parameters"))
               (drop (length (FunctionsToObjects.violations v))
                  (FunctionsToObjects.violations v')))).
Proof.
  intros v' violation. subst v' violation.
  unfold FunctionsToObjects.check_function, FunctionsToObjects.flags_many_params.
  split; [by intros -> | intros ->]. cbv zeta. cbn [negb andb].
  cbn [FunctionsToObjects.many_params_count FunctionsToObjects.violations].
  destruct (FunctionsToObjects.max_params cfg <? FunctionsToObjects._count_params a);
    destruct (PyStr.startswith fname "_"); cbn [negb andb Z.b2z app].
  - split_and!; [lia | done |]. intros _. rewrite drop_app_length.
    rewrite andb_false_r. constructor.
  - split_and!; [lia | | done]. intros _. eexists. reflexivity.
  - split_and!; [lia | done |]. intros _. rewrite drop_app_length.
    rewrite andb_false_r. constructor.
  - split_and!; [lia | done |]. intros _. rewrite drop_app_length.
    rewrite andb_true_r.
    destruct (if FunctionsToObjects.check_dict_returns cfg
              then FunctionsToObjects._returns_dict node else false);
      repeat constructor; done.
Qed.

(** C7 at a function with positional-only parameters: on
    [def f(a, b, c, d, e, /): pass] the rule with default options (maximum 4)
    counts no parameter and reports nothing, while it reports the same
    function written without the [/]. *)
Theorem C7_positional_only_not_counted :
  exists cfg,
    FunctionsToObjects.__init__ [] = Some cfg
    /\ FunctionsToObjects.max_params cfg = 4
    /\ RuleResult.violations
         (FunctionsToObjects.analyze "f.py" Samples.posonly_source cfg
            Samples.posonly_tree) = []
    /\ PyDict.get "functions"
         (RuleResult.metadata
            (FunctionsToObjects.analyze "f.py" Samples.posonly_source cfg
               Samples.posonly_tree))
       = Some (PList [PDict [("name", PStr "f"); ("line", PInt 1); ("params", PInt 0);
                             ("returns_dict", PBool false);
                             ("is_private", PBool false)]])
    /\ exists violation,
         RuleResult.violations
           (FunctionsToObjects.analyze "g.py" "def g(a, b, c, d, e): pass" cfg
              Samples.five_params_tree) = [violation]
         /\ PyDict.get "param_count" (RuleViolation.metadata violation)
            = Some (PInt 5).
Proof.
  eexists. split; [reflexivity|]. split_and!; [reflexivity..|].
  eexists. split; [vm_compute; reflexivity | reflexivity].
Qed.

(** ** Configuration files *)

(** Values without tuples survive the JSON form. *)
Lemma load_dump (v : pyval) :
  Json.wf v = true -> Json.tuple_free v = true -> Json.load (Json.dump v) = v.
Proof.
  induction v as [| | | |items IH|items IH|entries IH] using pyval_ind;
    intros Hwf Hfree; try reflexivity; try discriminate.
  - cbn [Json.dump Json.load]. f_equal.
    cbn [Json.wf Json.tuple_free] in Hwf, Hfree.
    induction IH as [|x items Hx Hitems IH']; [done|].
    cbn [forallb] in Hwf, Hfree.
    apply andb_prop in Hwf as [Hwf1 Hwf2]. apply andb_prop in Hfree as [Hf1 Hf2].
    cbn [map]. rewrite Hx by done. f_equal. by apply IH'.
  - cbn [Json.dump Json.load]. f_equal.
    cbn [Json.wf Json.tuple_free] in Hwf, Hfree.
    apply andb_prop in Hwf as [Hnd Hwf]. apply bool_decide_eq_true_1 in Hnd.
    assert (map (fun kv => (fst kv, Json.load (snd kv)))
              (map (fun kv => (fst kv, Json.dump (snd kv))) entries) = entries) as ->.
    { clear Hnd. induction IH as [|[k x] entries Hx Hentries IH']; [done|].
      cbn [forallb] in Hwf, Hfree.
      apply andb_prop in Hwf as [Hwf1 Hwf2]. apply andb_prop in Hfree as [Hf1 Hf2].
      cbn [map fst snd] in *. rewrite Hx by done. f_equal. by apply IH'. }
    by apply of_pairs_NoDup.
Qed.

Lemma mapM_as_str (l : list string) :
  mapM AnalyzerConfig.as_str (map PStr l) = Some l.
Proof. induction l as [|x l IH]; [done|]. cbn. by rewrite IH. Qed.

Lemma str_list_json (l : list string) :
  Json.wf (PList (map PStr l)) = true /\ Json.tuple_free (PList (map PStr l)) = true.
Proof. cbn. induction l as [|x l [IH1 IH2]]; [done|]. cbn. by rewrite IH1, IH2. Qed.

Section ConfigFacts.

Implicit Types (self : AnalyzerConfig.t) (rules : dict RuleConfig.t).

Lemma load_rule_entry (acc : dict RuleConfig.t) (k : string) (c : RuleConfig.t) :
  AnalyzerConfig.load_rule acc (AnalyzerConfig.rule_entry (k, c))
  = Some (PyDict.set k c acc).
Proof. by destruct c. Qed.

(** Reading back the entries [to_dict] wrote gives the rules again. *)
Lemma load_rules_to_dict (acc rules : dict RuleConfig.t) :
  NoDup (PyDict.keys acc ++ PyDict.keys rules) ->
  AnalyzerConfig.load_rules acc (map AnalyzerConfig.rule_entry rules)
  = Some (acc ++ rules).
Proof.
  revert acc. induction rules as [|[k c] rules IH]; intros acc Hnd.
  - cbn. by rewrite app_nil_r.
  - cbn [map AnalyzerConfig.load_rules]. rewrite load_rule_entry.
    cbn [mbind option_bind].
    assert (k ∉ PyDict.keys acc) as Hk.
    { apply NoDup_app in Hnd as (_ & Hdis & _). intros Hin.
      apply (Hdis k Hin). left. }
    rewrite set_fresh by done. rewrite IH.
    + by rewrite <- app_assoc.
    + unfold PyDict.keys in *. rewrite map_app. cbn [map fst].
      rewrite <- app_assoc. exact Hnd.
Qed.

(** [__post_init__] adds nothing when every available rule has an
    entry. *)
Lemma post_init_id self :
  Forall (fun rule_name => PyDict.contains rule_name (AnalyzerConfig.rules self) = true)
    (PyDict.keys AnalyzerConfig.AVAILABLE_RULES) ->
  AnalyzerConfig.__post_init__ self = self.
Proof.
  unfold AnalyzerConfig.__post_init__.
  induction (PyDict.keys AnalyzerConfig.AVAILABLE_RULES) as [|n names IH];
    intros Hall; [done|].
  apply Forall_cons in Hall as [Hn Hall]. cbn [fold_left]. rewrite Hn. by apply IH.
Qed.

Lemma rule_entries_json rules :
  Forall (fun kv =>
            Json.wf (PDict (RuleConfig.options (snd kv))) = true
            /\ Json.tuple_free (PDict (RuleConfig.options (snd kv))) = true) rules ->
  forallb (fun kv => Json.wf (snd kv)) (map AnalyzerConfig.rule_entry rules) = true
  /\ forallb (fun kv => Json.tuple_free (snd kv)) (map AnalyzerConfig.rule_entry rules)
     = true.
Proof.
  induction 1 as [|[k c] rules [H1 H2] Hrest [IH1 IH2]]; [done|].
  cbn [map forallb]. rewrite IH1, IH2. cbn [snd] in H1, H2.
  change (AnalyzerConfig.rule_entry (k, c)).2
    with (PDict [("enabled", PBool (RuleConfig.enabled c));
                 ("severity", PStr (RuleConfig.severity c));
                 ("options", PDict (RuleConfig.options c))]).
  split.
  - cbn [Json.wf forallb snd]. cbn [Json.wf] in H1. rewrite H1. reflexivity.
  - cbn [Json.tuple_free forallb snd]. cbn [Json.tuple_free] in H2. rewrite H2.
    reflexivity.
Qed.

Lemma to_dict_json self :
  NoDup (PyDict.keys (AnalyzerConfig.rules self)) ->
  AnalyzerConfig.options_are_json self ->
  Json.wf (AnalyzerConfig.to_dict self) = true
  /\ Json.tuple_free (AnalyzerConfig.to_dict self) = true.
Proof.
  intros Hnd Hopts. unfold AnalyzerConfig.to_dict, PyDict.items.
  destruct (str_list_json (AnalyzerConfig.include_patterns self)) as [Hi1 Hi2].
  destruct (str_list_json (AnalyzerConfig.exclude_patterns self)) as [He1 He2].
  destruct (rule_entries_json _ Hopts) as [Hw Hf].
  assert (map fst (map AnalyzerConfig.rule_entry (AnalyzerConfig.rules self))
          = PyDict.keys (AnalyzerConfig.rules self)) as Hkeys.
  { unfold PyDict.keys. rewrite map_map. reflexivity. }
  split.
  - cbn [Json.wf forallb snd]. cbn [Json.wf] in Hi1, He1.
    rewrite Hkeys, Hw, Hi1, He1, (bool_decide_eq_true_2 _ Hnd). reflexivity.
  - cbn [Json.tuple_free forallb snd]. cbn [Json.tuple_free] in Hi2, He2.
    by rewrite Hf, Hi2, He2.
Qed.

End ConfigFacts.

(** Loading the dictionary a configuration was converted to gives the
    configuration again. *)
Lemma from_data_to_dict (self : AnalyzerConfig.t) :
  AnalyzerConfig.invariant self ->
  AnalyzerConfig.from_data (AnalyzerConfig.to_dict self) = Some (Return self).
Proof.
  intros [Hnd Hall]. unfold AnalyzerConfig.from_data, AnalyzerConfig.to_dict.
  change (PyDict.get_default "rules" (PDict []) _)
    with (PDict (map AnalyzerConfig.rule_entry (PyDict.items (AnalyzerConfig.rules self)))).
  change (PyDict.get_default "output_format" (PStr "json") _)
    with (PStr (AnalyzerConfig.output_format self)).
  change (PyDict.get_default "include_patterns" _ _)
    with (PList (map PStr (AnalyzerConfig.include_patterns self))).
  change (PyDict.get_default "exclude_patterns" _ _)
    with (PList (map PStr (AnalyzerConfig.exclude_patterns self))).
  change (PyDict.get_default "max_file_size" _ _)
    with (PInt (AnalyzerConfig.max_file_size self)).
  unfold PyDict.items. rewrite load_rules_to_dict by done.
  cbn [mbind option_bind AnalyzerConfig.as_str AnalyzerConfig.as_str_list
       AnalyzerConfig.as_int app].
  rewrite !mapM_as_str. cbn [mbind option_bind].
  unfold AnalyzerConfig.new. rewrite post_init_id by done. by destruct self.
Qed.

(** The invariant holds after [__post_init__], hence for every
    configuration the constructor builds from a dictionary of rules. *)
Lemma post_init_invariant (self : AnalyzerConfig.t) :
  NoDup (PyDict.keys (AnalyzerConfig.rules self)) ->
  AnalyzerConfig.invariant (AnalyzerConfig.__post_init__ self).
Proof.
  unfold AnalyzerConfig.invariant, AnalyzerConfig.__post_init__.
  generalize (PyDict.keys AnalyzerConfig.AVAILABLE_RULES) as names.
  intros names. revert self.
  assert (forall names self,
    NoDup (PyDict.keys (AnalyzerConfig.rules self)) ->
    let self' :=
      fold_left
        (fun self rule_name =>
           if PyDict.contains rule_name (AnalyzerConfig.rules self) then self
           else AnalyzerConfig.set_rules
                  (PyDict.set rule_name RuleConfig.default (AnalyzerConfig.rules self))
                  self)
        names self in
    NoDup (PyDict.keys (AnalyzerConfig.rules self'))
    /\ (forall n, PyDict.contains n (AnalyzerConfig.rules self) = true ->
                  PyDict.contains n (AnalyzerConfig.rules self') = true)
    /\ Forall (fun n => PyDict.contains n (AnalyzerConfig.rules self') = true) names)
    as Hgen.
  { clear. induction names as [|n names IH]; intros self Hnd; cbn [fold_left].
    - split_and!; [done | done | constructor].
    - set (step := if PyDict.contains n (AnalyzerConfig.rules self) then self
                   else AnalyzerConfig.set_rules
                          (PyDict.set n RuleConfig.default (AnalyzerConfig.rules self))
                          self).
      assert (NoDup (PyDict.keys (AnalyzerConfig.rules step))) as Hstep.
      { subst step. destruct (PyDict.contains n (AnalyzerConfig.rules self)); [done|].
        cbn. by apply NoDup_keys_set. }
      assert (forall m, PyDict.contains m (AnalyzerConfig.rules self) = true ->
                        PyDict.contains m (AnalyzerConfig.rules step) = true) as Hmono.
      { intros m Hm. subst step.
        destruct (PyDict.contains n (AnalyzerConfig.rules self)) eqn:E; [done|].
        cbn. unfold PyDict.contains in *.
        destruct (decide (n = m)) as [->|Hne]; [by rewrite E in Hm|].
        by rewrite get_set_ne. }
      assert (PyDict.contains n (AnalyzerConfig.rules step) = true) as Hn.
      { subst step. destruct (PyDict.contains n (AnalyzerConfig.rules self)) eqn:E; [done|].
        cbn. unfold PyDict.contains. by rewrite get_set_eq. }
      destruct (IH step Hstep) as (H1 & H2 & H3).
      split_and!; [done | by auto |]. constructor; [by apply H2 | done]. }
  intros self Hnd. destruct (Hgen names self Hnd) as (H1 & _ & H3). by split.
Qed.

Lemma default_invariant : AnalyzerConfig.invariant AnalyzerConfig.default.
Proof. apply post_init_invariant. cbn. apply NoDup_nil_2. Qed.

(** C8, as the code has it.  A configuration that satisfies the class
    invariant and whose option values contain no tuple is read back by
    [from_file] as it was saved: same rules, same enabled rule names, same
    options for every rule. *)
Theorem C8_save_from_file_round_trip
    (config : AnalyzerConfig.t) (config_path : string) (fs : AnalyzerConfig.files) :
  AnalyzerConfig.invariant config ->
  AnalyzerConfig.options_are_json config ->
  exists loaded,
    AnalyzerConfig.from_file config_path (AnalyzerConfig.save config_path config fs)
    = Some (Return loaded)
    /\ loaded = config
    /\ AnalyzerConfig.get_enabled_rules loaded = AnalyzerConfig.get_enabled_rules config
    /\ forall rule_name,
         option_map RuleConfig.options
           (PyDict.get rule_name (AnalyzerConfig.rules loaded))
         = option_map RuleConfig.options
             (PyDict.get rule_name (AnalyzerConfig.rules config)).
Proof.
  intros Hinv Hopts. exists config.
  split; [|done].
  unfold AnalyzerConfig.from_file, AnalyzerConfig.save.
  rewrite lookup_insert_eq.
  destruct (to_dict_json config (proj1 Hinv) Hopts) as [Hwf Hfree].
  rewrite load_dump by done. by apply from_data_to_dict.
Qed.

Lemma C8_witness :
  exists loaded,
    AnalyzerConfig.from_file "oop.json"
      (AnalyzerConfig.save "oop.json" Samples.list_config ∅)
    = Some (Return loaded)
    /\ loaded = Samples.list_config
    /\ AnalyzerConfig.get_enabled_rules loaded
       = AnalyzerConfig.get_enabled_rules Samples.list_config
    /\ forall rule_name,
         option_map RuleConfig.options
           (PyDict.get rule_name (AnalyzerConfig.rules loaded))
         = option_map RuleConfig.options
             (PyDict.get rule_name (AnalyzerConfig.rules Samples.list_config)).
Proof.
  apply (C8_save_from_file_round_trip Samples.list_config "oop.json" ∅).
  - split; refine (bool_decide_unpack _ _); vm_compute; exact I.
  - refine (bool_decide_unpack _ _). vm_compute. exact I.
Defined.

(** C8 as stated fails: a tuple among the options is read back as a
    list. *)
Lemma C8_counterexample :
  AnalyzerConfig.invariant Samples.tuple_config
  /\ exists loaded,
       AnalyzerConfig.from_file "oop.json"
         (AnalyzerConfig.save "oop.json" Samples.tuple_config ∅)
       = Some (Return loaded)
       /\ option_map RuleConfig.options
            (PyDict.get "polymorphism" (AnalyzerConfig.rules Samples.tuple_config))
          = Some [("ignore", PTuple [PStr "a"; PStr "b"])]
       /\ option_map RuleConfig.options
            (PyDict.get "polymorphism" (AnalyzerConfig.rules loaded))
          = Some [("ignore", PList [PStr "a"; PStr "b"])]
       /\ option_map RuleConfig.options
            (PyDict.get "polymorphism" (AnalyzerConfig.rules loaded))
          <> option_map RuleConfig.options
               (PyDict.get "polymorphism" (AnalyzerConfig.rules Samples.tuple_config)).
Proof.
  split.
  - split; refine (bool_decide_unpack _ _); vm_compute; exact I.
  - eexists. split.
    + unfold AnalyzerConfig.from_file, AnalyzerConfig.save.
      rewrite lookup_insert_eq. vm_compute. reflexivity.
    + split_and!; [reflexivity | reflexivity | discriminate].
Qed.

(** ** The encapsulation rule *)

Lemma attribute_access_snoc base attrs p a :
  Ast.attribute_access base (attrs ++ [(p, a)])
  = Ast.Attribute p (Ast.attribute_access base attrs) a.
Proof. unfold Ast.attribute_access. by rewrite fold_left_app. Qed.

Lemma attribute_chain_access base attrs :
  Encapsulation.attribute_chain (Ast.attribute_access base attrs)
  = Some (base :: map snd attrs).
Proof.
  induction attrs as [|[p a] attrs IH] using rev_ind; [done|].
  rewrite attribute_access_snoc. cbn [Encapsulation.attribute_chain].
  rewrite IH. cbn [mbind option_bind]. by rewrite map_app.
Qed.

Section EncapsulationFacts.

Variables (file_path source : string) (cfg : Encapsulation.settings).
Hypothesis default_options : Encapsulation.__init__ [] = Some cfg.

(** An access [base.a1. ... .an] that no exemption covers is reported by
    [visit_Attribute] unless its last name looks like a constant. *)
Lemma check_Attribute_access v base attrs p a :
  let node := Ast.attribute_access base (attrs ++ [(p, a)]) in
  let names := map snd attrs ++ [a] in
  PyStr.mem base ["self"; "cls"] = false ->
  base ∉ Encapsulation._imported_modules v ->
  PyStr.mem base Encapsulation.common_modules = false ->
  existsb Encapsulation.is_dunder names = false ->
  Encapsulation.check_Attribute file_path source cfg false false v node p
  = match Encapsulation._create_violation file_path source cfg p base names with
    | Some violation => Encapsulation.add_violation violation v
    | None => v
    end
  /\ (Encapsulation.looks_constant a = false ->
      exists violation,
        Encapsulation._create_violation file_path source cfg p base names
        = Some violation
        /\ RuleViolation.message violation
           = (if 1 <? Z.of_nat (length names)
              then "Long attribute chain detected: '"
              else "Direct property access: '")
             +:+ (base +:+ "." +:+ PyStr.join "." names) +:+ "'. "
             +:+ (if 1 <? Z.of_nat (length names)
                  then "This violates the Law of Demeter. Consider using delegation."
                  else "Consider using a method instead (Tell Don't Ask).")
        /\ RuleViolation.metadata violation
           = [("base_object", PStr base);
              ("accessed_attributes", PList (map PStr names));
              ("chain_length", PInt (Z.of_nat (length names)))]).
Proof.
  intros node names Hself Himp Hcommon Hdunder. subst node.
  vm_compute in default_options. injection default_options as <-.
  split.
  - unfold Encapsulation.check_Attribute, Encapsulation._get_attribute_chain.
    rewrite attribute_chain_access. rewrite map_app. cbn [map snd default from_option id].
    fold names.
    cbn [Encapsulation.allow_self_access Encapsulation.allow_dunder_access
         Encapsulation.allow_private_access andb].
    rewrite Hself, Hdunder. rewrite (bool_decide_eq_false_2 _ Himp). cbn [andb].
    subst names. by destruct (map snd attrs).
  - intros Hconst. unfold Encapsulation._create_violation.
    assert (List.last names "" = a) as -> by apply last_last.
    rewrite Hconst, Hcommon. cbn [Encapsulation.max_chain_length].
    eexists. split; [reflexivity|]. cbn [RuleViolation.message RuleViolation.metadata].
    split; [|reflexivity]. by destruct (1 <? Z.of_nat (length names)).
Qed.

Lemma check_Attribute_imports is_call_target is_class_base v node p :
  Encapsulation._imported_modules
    (Encapsulation.check_Attribute file_path source cfg is_call_target is_class_base
       v node p)
  = Encapsulation._imported_modules v.
Proof.
  unfold Encapsulation.check_Attribute.
  repeat (match goal with
          | |- context [if ?b then _ else _] => destruct b
          | |- context [match ?x with _ => _ end] => destruct x
          end; try reflexivity).
Qed.

(** Visiting [base.b.a1. ... .an]: the node itself and then each shorter
    access down to [base.b] is checked, and [base.b] is reported last. *)
Lemma visit_access v base pb b rest :
  PyStr.mem base ["self"; "cls"] = false ->
  base ∉ Encapsulation._imported_modules v ->
  PyStr.mem base Encapsulation.common_modules = false ->
  existsb Encapsulation.is_dunder (b :: map snd rest) = false ->
  Encapsulation.looks_constant b = false ->
  exists added direct,
    Encapsulation.violations
      (Encapsulation.visit_expr file_path source cfg false false v
         (Ast.attribute_access base ((pb, b) :: rest)))
    = Encapsulation.violations v ++ added ++ [direct]
    /\ Encapsulation._create_violation file_path source cfg pb base [b] = Some direct
    /\ (length added <= length rest)%nat
    /\ forall rest' p a,
         rest = rest' ++ [(p, a)] ->
         Encapsulation.looks_constant a = false ->
         exists lod added',
           added = lod :: added'
           /\ Encapsulation._create_violation file_path source cfg p base
                (b :: map snd rest) = Some lod.
Proof.
  intros Hself Himp Hcommon. revert v Himp.
  induction rest as [|[p a] rest IH] using rev_ind; intros v Himp Hdunder Hb.
  - change (Ast.attribute_access base [(pb, b)])
      with (Ast.attribute_access base ([] ++ [(pb, b)])).
    rewrite attribute_access_snoc. cbn [Encapsulation.visit_expr Ast.attribute_access fold_left].
    destruct (check_Attribute_access v base [] pb b Hself Himp Hcommon Hdunder)
      as [Hcheck Hviol].
    destruct (Hviol Hb) as (direct & Hdirect & _).
    cbn [app map] in Hcheck, Hdirect.
    change (Ast.attribute_access base [(pb, b)])
      with (Ast.Attribute pb (Ast.Name base) b) in Hcheck.
    rewrite Hcheck, Hdirect. exists [], direct.
    split_and!; [done | done | done |].
    intros rest' p a Hrest. by destruct rest'.
  - rewrite app_comm_cons, attribute_access_snoc.
    cbn [Encapsulation.visit_expr].
    rewrite map_app in Hdunder. cbn [map snd] in Hdunder.
    rewrite app_comm_cons in Hdunder.
    assert (existsb Encapsulation.is_dunder (b :: map snd rest) = false) as Hdunder'.
    { rewrite existsb_app in Hdunder. by apply orb_false_elim in Hdunder as [? _]. }
    destruct (check_Attribute_access v base ((pb, b) :: rest) p a
                Hself Himp Hcommon Hdunder) as [Hcheck Hviol].
    cbn [map snd] in Hcheck, Hviol. rewrite attribute_access_snoc in Hcheck.
    rewrite Hcheck.
    set (v1 := match Encapsulation._create_violation file_path source cfg p base
                       ((b :: map snd rest) ++ [a]) with
               | Some violation => Encapsulation.add_violation violation v
               | None => v
               end).
    assert (Encapsulation._imported_modules v1 = Encapsulation._imported_modules v) as Himp1.
    { subst v1.
      destruct (Encapsulation._create_violation file_path source cfg p base
                  ((b :: map snd rest) ++ [a])); reflexivity. }
    assert (base ∉ Encapsulation._imported_modules v1) as Himp1' by (by rewrite Himp1).
    destruct (IH v1 Himp1' Hdunder' Hb) as (added & direct & Hvis & Hdirect & Hlen & _).
    rewrite Hvis. subst v1.
    destruct (Encapsulation._create_violation file_path source cfg p base
                ((b :: map snd rest) ++ [a])) as [lod|] eqn:Hlod.
    + exists (lod :: added), direct. cbn [Encapsulation.add_violation Encapsulation.violations].
      split_and!.
      * by rewrite <- !app_assoc.
      * done.
      * rewrite length_app. cbn [length]. lia.
      * intros rest' p' a' Hrest Ha'. exists lod, added. split; [done|].
        apply app_inj_tail in Hrest as [<- [= <- <-]].
        by rewrite map_app.
    + exists added, direct. split_and!; [done | done | rewrite length_app; lia |].
      intros rest' p' a' Hrest Ha'.
      apply app_inj_tail in Hrest as [<- [= <- <-]].
      destruct (Hviol Ha') as (violation & Hsome & _). congruence.
Qed.

End EncapsulationFacts.

(** C10, as the code has it.  For an access [x.b. ... .c] of at least two
    attributes that is neither a call target nor a class base, where [x] is
    not [self] or [cls], not an imported name and not one of the module
    names [_create_violation] always skips, no attribute is a dunder name,
    and neither [b] nor [c] is written in capitals and underscores only, the
    rule with default options reports more than one violation: first a
    Law-of-Demeter violation for the whole chain, last a
    direct-property-access violation for [x.b], and between them at most one
    for each access in between. *)
Theorem C10_chain_reported_at_each_prefix
    (file_path source : string) (v : Encapsulation.visitor)
    (x : string) (pb : Ast.pos) (b : string) (between : list (Ast.pos * string))
    (pc : Ast.pos) (c : string) :
  let names := b :: map snd between ++ [c] in
  let node := Ast.attribute_access x ((pb, b) :: between ++ [(pc, c)]) in
  PyStr.mem x ["self"; "cls"] = false ->
  x ∉ Encapsulation._imported_modules v ->
  PyStr.mem x Encapsulation.common_modules = false ->
  existsb Encapsulation.is_dunder names = false ->
  Encapsulation.looks_constant b = false ->
  Encapsulation.looks_constant c = false ->
  exists cfg demeter middle direct,
    Encapsulation.__init__ [] = Some cfg
    /\ Encapsulation.violations
         (Encapsulation.visit_expr file_path source cfg false false v node)
       = Encapsulation.violations v ++ demeter :: middle ++ [direct]
    /\ RuleViolation.message demeter
       = "Long attribute chain detected: '" +:+ (x +:+ "." +:+ PyStr.join "." names)
         +:+ "'. " +:+ "This violates the Law of Demeter. Consider using delegation."
    /\ PyDict.get "accessed_attributes" (RuleViolation.metadata demeter)
       = Some (PList (map PStr names))
    /\ RuleViolation.message direct
       = "Direct property access: '" +:+ (x +:+ "." +:+ b)
         +:+ "'. " +:+ "Consider using a method instead (Tell Don't Ask)."
    /\ PyDict.get "accessed_attributes" (RuleViolation.metadata direct)
       = Some (PList [PStr b])
    /\ (length middle <= length between)%nat.
Proof.
  intros names node Hself Himp Hcommon Hdunder Hb Hc.
  assert (Encapsulation.__init__ [] = Some (Encapsulation.mkSettings true false true 1 true))
    as Hcfg by reflexivity.
  set (cfg := Encapsulation.mkSettings true false true 1 true) in *.
  assert (map snd (between ++ [(pc, c)]) = map snd between ++ [c]) as Hmap
    by (by rewrite map_app).
  destruct (visit_access file_path source cfg Hcfg v x pb b (between ++ [(pc, c)]))
    as (added & direct & Hvis & Hdirect & Hlen & Hfirst);
    [done | done | done | by rewrite Hmap | done |].
  destruct (Hfirst between pc c eq_refl Hc) as (demeter & middle & -> & Hdemeter).
  rewrite Hmap in Hdemeter.
  exists cfg, demeter, middle, direct. split; [done|]. split; [exact Hvis|].
  destruct (check_Attribute_access file_path source cfg Hcfg v x
              ((pb, b) :: between) pc c Hself Himp Hcommon Hdunder)
    as [_ Hviol].
  destruct (Hviol Hc) as (demeter' & Hd' & Hmsg & Hmeta).
  cbn [map snd app] in Hd', Hmsg, Hmeta. fold names in Hd', Hmsg, Hmeta.
  change (b :: map snd between ++ [c]) with names in Hdemeter.
  assert (demeter' = demeter) as -> by congruence.
  destruct (check_Attribute_access file_path source cfg Hcfg v x [] pb b
              Hself Himp Hcommon) as [_ Hviol0].
  { cbn [map app existsb]. subst names. cbn [existsb] in Hdunder.
    apply orb_false_elim in Hdunder as [-> _]. done. }
  destruct (Hviol0 Hb) as (direct' & Hdr' & Hmsg0 & Hmeta0).
  cbn [map snd app] in Hdr', Hmsg0, Hmeta0.
  assert (direct' = direct) as -> by congruence.
  assert ((1 <? Z.of_nat (length names)) = true) as Hlong.
  { apply Z.ltb_lt. subst names. cbn [length]. rewrite length_app. cbn [length]. lia. }
  rewrite Hlong in Hmsg. rewrite Hmsg, Hmeta, Hmsg0, Hmeta0.
  split_and!; [reflexivity..|].
  rewrite length_app in Hlen. cbn [length] in Hlen. lia.
Qed.

Lemma C10_witness :
  exists cfg demeter middle direct,
    Encapsulation.__init__ [] = Some cfg
    /\ Encapsulation.violations
         (Encapsulation.visit_expr "shop.py" "order.customer.name" cfg false false
            Encapsulation.init_visitor
            (Ast.attribute_access "order"
               [(Ast.Pos 1 0, "customer"); (Ast.Pos 1 0, "name")]))
       = Encapsulation.violations Encapsulation.init_visitor
         ++ demeter :: middle ++ [direct]
    /\ RuleViolation.message demeter
       = "Long attribute chain detected: '"
         +:+ ("order" +:+ "." +:+ PyStr.join "." ["customer"; "name"])
         +:+ "'. " +:+ "This violates the Law of Demeter. Consider using delegation."
    /\ PyDict.get "accessed_attributes" (RuleViolation.metadata demeter)
       = Some (PList [PStr "customer"; PStr "name"])
    /\ RuleViolation.message direct
       = "Direct property access: '" +:+ ("order" +:+ "." +:+ "customer")
         +:+ "'. " +:+ "Consider using a method instead (Tell Don't Ask)."
    /\ PyDict.get "accessed_attributes" (RuleViolation.metadata direct)
       = Some (PList [PStr "customer"])
    /\ (length middle <= 0)%nat.
Proof.
  apply (C10_chain_reported_at_each_prefix "shop.py" "order.customer.name"
           Encapsulation.init_visitor "order" (Ast.Pos 1 0) "customer" []
           (Ast.Pos 1 0) "name");
    try reflexivity.
  simpl. apply not_elem_of_empty.
Defined.

(** C10 as stated fails: for [os.b.c] in a file that imports nothing, none
    of the exemptions the claim lists applies, and the rule reports no
    violation. *)
Lemma C10_counterexample :
  exists cfg,
    Encapsulation.__init__ [] = Some cfg
    /\ PyStr.mem "os" ["self"; "cls"] = false
    /\ ("os" ∉ Encapsulation._imported_modules Encapsulation.init_visitor)
    /\ existsb Encapsulation.is_dunder ["b"; "c"] = false
    /\ Encapsulation.looks_constant "b" = false
    /\ Encapsulation.looks_constant "c" = false
    /\ RuleResult.violations
         (Encapsulation.analyze "m.py" "os.b.c" cfg Samples.os_chain_tree) = [].
Proof.
  eexists. split; [reflexivity|].
  split_and!; [reflexivity | apply not_elem_of_empty | reflexivity..].
Qed.

(** * Further properties of the code *)

(** ** Configuration *)

Section ConfigUpdates.

Implicit Types (self : AnalyzerConfig.t) (rules : dict RuleConfig.t).

(** Assigning the entries of a list of names, one after the other, as
    the loop of [enable_only] does. *)
Lemma get_fold_set (f : string -> RuleConfig.t) (names : list string) rules r :
  PyDict.get r (fold_left (fun rules n => PyDict.set n (f n) rules) names rules)
  = if bool_decide (r ∈ names) then Some (f r) else PyDict.get r rules.
Proof.
  revert rules. induction names as [|n names IH]; intros rules; [done|].
  cbn [fold_left]. rewrite IH.
  destruct (decide (r = n)) as [->|Hne].
  - rewrite (bool_decide_eq_true_2 (n ∈ n :: names)) by left.
    destruct (bool_decide (n ∈ names)); [done | apply get_set_eq].
  - rewrite get_set_ne by done.
    apply (f_equal (fun b : bool => if b then _ else _)).
    apply bool_decide_ext. rewrite elem_of_cons.
    split; [by right | by intros [?|?]].
Qed.

Lemma contains_elem {V} (k : string) (d : dict V) :
  PyDict.contains k d = bool_decide (k ∈ PyDict.keys d).
Proof.
  unfold PyDict.contains. destruct (PyDict.get k d) eqn:E.
  - symmetry. apply bool_decide_eq_true_2.
    destruct (decide (k ∈ PyDict.keys d)) as [|Hn]; [done|].
    apply get_None in Hn. congruence.
  - symmetry. apply bool_decide_eq_false_2. by apply get_None.
Qed.

Lemma set_set_eq {V} (k : string) (v v' : V) (d : dict V) :
  PyDict.set k v (PyDict.set k v' d) = PyDict.set k v d.
Proof.
  induction d as [|[k0 v0] d IH]; cbn.
  - by rewrite bool_decide_eq_true_2.
  - destruct (bool_decide (k = k0)) eqn:E; cbn.
    + by rewrite bool_decide_eq_true_2.
    + by rewrite E, IH.
Qed.

(** The loop of [enable_only] touches the rules only. *)
Lemma enable_only_unfold (rule_names names : list string) self :
  fold_left
    (fun self rule_name =>
       AnalyzerConfig.set_rules
         (PyDict.set rule_name
            (RuleConfig.mk (PyStr.mem rule_name rule_names) "warning" [])
            (AnalyzerConfig.rules self)) self)
    names self
  = AnalyzerConfig.set_rules
      (fold_left
         (fun rules n =>
            PyDict.set n (RuleConfig.mk (PyStr.mem n rule_names) "warning" []) rules)
         names (AnalyzerConfig.rules self))
      self.
Proof.
  revert self. induction names as [|n names IH]; intros self; [by destruct self|].
  cbn [fold_left]. rewrite IH. by destruct self.
Qed.

(** The loop of [__post_init__] touches the rules only, and gives each
    missing name the default entry. *)
Lemma post_init_unfold (names : list string) self :
  fold_left
    (fun self rule_name =>
       if PyDict.contains rule_name (AnalyzerConfig.rules self) then self
       else AnalyzerConfig.set_rules
              (PyDict.set rule_name RuleConfig.default (AnalyzerConfig.rules self))
              self)
    names self
  = AnalyzerConfig.set_rules
      (fold_left
         (fun rules n =>
            if PyDict.contains n rules then rules
            else PyDict.set n RuleConfig.default rules)
         names (AnalyzerConfig.rules self))
      self.
Proof.
  revert self. induction names as [|n names IH]; intros self; [by destruct self|].
  cbn [fold_left]. rewrite IH.
  destruct (PyDict.contains n (AnalyzerConfig.rules self)); by destruct self.
Qed.

Lemma get_fold_default (names : list string) rules r :
  PyDict.get r
    (fold_left
       (fun rules n =>
          if PyDict.contains n rules then rules
          else PyDict.set n RuleConfig.default rules)
       names rules)
  = match PyDict.get r rules with
    | Some c => Some c
    | None => if bool_decide (r ∈ names) then Some RuleConfig.default else None
    end.
Proof.
  revert rules. induction names as [|n names IH]; intros rules.
  - cbn. by destruct (PyDict.get r rules).
  - cbn [fold_left]. rewrite IH. unfold PyDict.contains.
    destruct (decide (r = n)) as [->|Hne].
    + rewrite (bool_decide_eq_true_2 (n ∈ n :: names)) by left.
      destruct (PyDict.get n rules) as [c|] eqn:E; [by rewrite E|].
      by rewrite get_set_eq.
    + assert (bool_decide (r ∈ n :: names) = bool_decide (r ∈ names)) as ->.
      { apply bool_decide_ext. rewrite elem_of_cons.
    split; [by intros [?|?] | by right]. }
      destruct (PyDict.get n rules); [done|]. by rewrite get_set_ne.
Qed.

End ConfigUpdates.

(** X1. The constructor of [AnalyzerConfig] keeps every entry of the rules
    it is given, adds the default entry (enabled, severity ["warning"], no
    options) for each available rule that has none, adds nothing else, and
    leaves the other fields as given. *)
Theorem post_init_completes_rules
    (rules : dict RuleConfig.t) (output_format : string)
    (include_patterns exclude_patterns : list string) (max_file_size : Z)
    (rule_name : string) :
  let config :=
    AnalyzerConfig.new rules output_format include_patterns exclude_patterns
      max_file_size in
  PyDict.get rule_name (AnalyzerConfig.rules config)
  = match PyDict.get rule_name rules with
    | Some c => Some c
    | None =>
        if PyDict.contains rule_name AnalyzerConfig.AVAILABLE_RULES
        then Some (RuleConfig.mk true "warning" []) else None
    end
  /\ AnalyzerConfig.output_format config = output_format
  /\ AnalyzerConfig.include_patterns config = include_patterns
  /\ AnalyzerConfig.exclude_patterns config = exclude_patterns
  /\ AnalyzerConfig.max_file_size config = max_file_size.
Proof.
  intros config. subst config.
  unfold AnalyzerConfig.new, AnalyzerConfig.__post_init__.
  rewrite post_init_unfold. cbn [AnalyzerConfig.set_rules AnalyzerConfig.rules
    AnalyzerConfig.output_format AnalyzerConfig.include_patterns
    AnalyzerConfig.exclude_patterns AnalyzerConfig.max_file_size].
  split_and!; try reflexivity.
  rewrite get_fold_default, contains_elem. reflexivity.
Qed.

(** X2. [enable_rule] raises [ValueError] for a name that is not an
    available rule and changes nothing then; for an available rule it
    stores a fresh entry: enabled, with exactly the options passed and the
    severity back at ["warning"], whatever the entry was before; the
    entries of the other rules and the other fields stay as they were. *)
Theorem enable_rule_replaces_entry
    (rule_name : string) (options : dict pyval) (self : AnalyzerConfig.t) :
  (PyDict.contains rule_name AnalyzerConfig.AVAILABLE_RULES = false ->
   AnalyzerConfig.enable_rule rule_name options self
   = Raise (Exception "ValueError" ("Unknown rule: " +:+ rule_name)))
  /\ (PyDict.contains rule_name AnalyzerConfig.AVAILABLE_RULES = true ->
      exists config,
        AnalyzerConfig.enable_rule rule_name options self = Return config
        /\ AnalyzerConfig.is_rule_enabled rule_name config = true
        /\ PyDict.get rule_name (AnalyzerConfig.rules config)
           = Some (RuleConfig.mk true "warning" options)
        /\ (forall other, other <> rule_name ->
              PyDict.get other (AnalyzerConfig.rules config)
              = PyDict.get other (AnalyzerConfig.rules self))
        /\ AnalyzerConfig.set_rules (AnalyzerConfig.rules self) config = self).
Proof.
  unfold AnalyzerConfig.enable_rule. split; intros ->; cbn [negb]; [done|].
  eexists. split; [reflexivity|].
  unfold AnalyzerConfig.is_rule_enabled.
  cbn [AnalyzerConfig.set_rules AnalyzerConfig.rules].
  rewrite get_set_eq. split_and!; [done | done | | by destruct self].
  intros other Hne. by rewrite get_set_ne.
Qed.

(** X3. [disable_rule] never raises.  After it the rule is not enabled,
    whether it had an entry or not; an entry it had keeps its severity and
    options and its place among the rules; a name without entry gets none;
    the entries of the other rules are untouched. *)
Theorem disable_rule_turns_off
    (rule_name : string) (self : AnalyzerConfig.t) :
  let config := AnalyzerConfig.disable_rule rule_name self in
  AnalyzerConfig.is_rule_enabled rule_name config = false
  /\ PyDict.get rule_name (AnalyzerConfig.rules config)
     = option_map
         (fun c => RuleConfig.mk false (RuleConfig.severity c) (RuleConfig.options c))
         (PyDict.get rule_name (AnalyzerConfig.rules self))
  /\ (forall other, other <> rule_name ->
        PyDict.get other (AnalyzerConfig.rules config)
        = PyDict.get other (AnalyzerConfig.rules self))
  /\ PyDict.keys (AnalyzerConfig.rules config) = PyDict.keys (AnalyzerConfig.rules self)
  /\ AnalyzerConfig.disable_rule rule_name config = config.
Proof.
  intros config. subst config.
  unfold AnalyzerConfig.disable_rule, AnalyzerConfig.is_rule_enabled.
  destruct (PyDict.get rule_name (AnalyzerConfig.rules self)) as [c|] eqn:E.
  - cbn [AnalyzerConfig.set_rules AnalyzerConfig.rules option_map].
    rewrite !get_set_eq. cbn [RuleConfig.enabled RuleConfig.severity RuleConfig.options].
    split_and!; [done | done | | |].
    + intros other Hne. by rewrite get_set_ne.
    + rewrite keys_set. rewrite bool_decide_eq_true_2; [done|].
      destruct (decide (rule_name ∈ PyDict.keys (AnalyzerConfig.rules self))) as [|Hn];
        [done|]. apply get_None in Hn. congruence.
    + by rewrite set_set_eq.
  - rewrite E. cbn [option_map]. by split_and!.
Qed.

(** X4. [enable_only] resets the entry of every available rule: enabled
    exactly when its name is among the arguments, severity ["warning"], no
    options.  It does not raise for an argument that is not an available
    rule, and it leaves the entries of names that are not available rules
    as they were, enabled ones included. *)
Theorem enable_only_resets_available_rules
    (rule_names : list string) (self : AnalyzerConfig.t) (rule_name : string) :
  let config := AnalyzerConfig.enable_only rule_names self in
  PyDict.get rule_name (AnalyzerConfig.rules config)
  = (if PyDict.contains rule_name AnalyzerConfig.AVAILABLE_RULES
     then Some (RuleConfig.mk (bool_decide (rule_name ∈ rule_names)) "warning" [])
     else PyDict.get rule_name (AnalyzerConfig.rules self))
  /\ AnalyzerConfig.is_rule_enabled rule_name config
     = (if PyDict.contains rule_name AnalyzerConfig.AVAILABLE_RULES
        then bool_decide (rule_name ∈ rule_names)
        else AnalyzerConfig.is_rule_enabled rule_name self)
  /\ AnalyzerConfig.set_rules (AnalyzerConfig.rules self) config = self.
Proof.
  intros config. subst config. unfold AnalyzerConfig.enable_only.
  rewrite enable_only_unfold.
  cbn [AnalyzerConfig.set_rules AnalyzerConfig.rules].
  assert (PyDict.get rule_name
            (fold_left
               (fun rules n =>
                  PyDict.set n (RuleConfig.mk (PyStr.mem n rule_names) "warning" []) rules)
               (PyDict.keys AnalyzerConfig.AVAILABLE_RULES) (AnalyzerConfig.rules self))
          = if PyDict.contains rule_name AnalyzerConfig.AVAILABLE_RULES
            then Some (RuleConfig.mk (bool_decide (rule_name ∈ rule_names)) "warning" [])
            else PyDict.get rule_name (AnalyzerConfig.rules self)) as Hget.
  { rewrite (get_fold_set
               (fun n => RuleConfig.mk (PyStr.mem n rule_names) "warning" [])).
    by rewrite contains_elem. }
  split_and!; [exact Hget | | by destruct self].
  unfold AnalyzerConfig.is_rule_enabled.
  cbn [AnalyzerConfig.set_rules AnalyzerConfig.rules]. rewrite Hget.
  by destruct (PyDict.contains rule_name AnalyzerConfig.AVAILABLE_RULES).
Qed.

(** X5. In a configuration whose rule names are distinct, as the keys of
    a dictionary are, [get_enabled_rules] lists exactly the names for which
    [is_rule_enabled] answers true, each once, in the order of the rules. *)
Theorem enabled_rules_are_the_enabled_ones (self : AnalyzerConfig.t) :
  NoDup (PyDict.keys (AnalyzerConfig.rules self)) ->
  (forall rule_name,
      rule_name ∈ AnalyzerConfig.get_enabled_rules self
      <-> AnalyzerConfig.is_rule_enabled rule_name self = true)
  /\ NoDup (AnalyzerConfig.get_enabled_rules self)
  /\ AnalyzerConfig.get_enabled_rules self
     = List.filter (fun rule_name => AnalyzerConfig.is_rule_enabled rule_name self)
         (PyDict.keys (AnalyzerConfig.rules self)).
Proof.
  intros Hnd.
  assert (forall rule_name,
      rule_name ∈ AnalyzerConfig.get_enabled_rules self
      <-> AnalyzerConfig.is_rule_enabled rule_name self = true) as Hiff.
  { intros rule_name.
    unfold AnalyzerConfig.get_enabled_rules, AnalyzerConfig.is_rule_enabled, PyDict.items.
    rewrite list_elem_of_fmap. split.
    - intros ([k c] & -> & [Hen Hin]%list_elem_of_filter). cbn [fst snd] in *.
      by rewrite (elem_get_NoDup _ _ _ Hnd Hin).
    - destruct (PyDict.get rule_name (AnalyzerConfig.rules self)) as [c|] eqn:E; [|done].
      intros Hen. exists (rule_name, c). split; [done|].
      apply list_elem_of_filter. split; [done | by apply get_Some_elem]. }
  assert (AnalyzerConfig.get_enabled_rules self
          = List.filter (fun rule_name => AnalyzerConfig.is_rule_enabled rule_name self)
              (PyDict.keys (AnalyzerConfig.rules self))) as Heq.
  { unfold AnalyzerConfig.get_enabled_rules, AnalyzerConfig.is_rule_enabled, PyDict.items.
    assert (forall (d d0 : list (string * RuleConfig.t)),
               (forall k c, (k, c) ∈ d -> PyDict.get k d0 = Some c) ->
               map fst (filter (fun kv => RuleConfig.enabled (snd kv) = true) d)
               = List.filter
                   (fun rule_name =>
                      match PyDict.get rule_name d0 with
                      | Some c => RuleConfig.enabled c
                      | None => false
                      end) (PyDict.keys d)) as Hgen.
    { induction d as [|[k c] d IH]; intros d0 Hd0; [done|].
      rewrite filter_cons. cbn [PyDict.keys map fst List.filter snd].
      rewrite (Hd0 k c) by left.
      destruct (decide (RuleConfig.enabled c = true)) as [Hen|Hen].
      - rewrite Hen. cbn [map fst]. f_equal. apply IH.
        intros k' c' Hin. apply Hd0. by right.
      - apply not_true_is_false in Hen. rewrite Hen. apply IH.
        intros k' c' Hin. apply Hd0. by right. }
    apply Hgen. intros k c Hin. by apply elem_get_NoDup. }
  split_and!; [exact Hiff | | exact Heq].
  rewrite Heq. apply NoDup_ListNoDup, List.NoDup_filter. by apply NoDup_ListNoDup.
Qed.

Lemma enabled_rules_are_the_enabled_ones_witness :
  (forall rule_name,
      rule_name ∈ AnalyzerConfig.get_enabled_rules AnalyzerConfig.minimal
      <-> AnalyzerConfig.is_rule_enabled rule_name AnalyzerConfig.minimal = true)
  /\ NoDup (AnalyzerConfig.get_enabled_rules AnalyzerConfig.minimal)
  /\ AnalyzerConfig.get_enabled_rules AnalyzerConfig.minimal
     = List.filter
         (fun rule_name => AnalyzerConfig.is_rule_enabled rule_name AnalyzerConfig.minimal)
         (PyDict.keys (AnalyzerConfig.rules AnalyzerConfig.minimal)).
Proof.
  apply (enabled_rules_are_the_enabled_ones AnalyzerConfig.minimal).
  refine (bool_decide_unpack _ _). vm_compute. exact I.
Defined.

Lemma load_rules_NoDup (acc rules : dict RuleConfig.t) (entries : list (string * pyval)) :
  NoDup (PyDict.keys acc) ->
  AnalyzerConfig.load_rules acc entries = Some rules ->
  NoDup (PyDict.keys rules).
Proof.
  revert acc. induction entries as [|[k data] entries IH]; intros acc Hacc.
  - cbn. by intros [= <-].
  - cbn [AnalyzerConfig.load_rules].
    destruct (AnalyzerConfig.load_rule acc (k, data)) as [acc'|] eqn:Hstep;
      [|discriminate].
    cbn [mbind option_bind]. apply IH.
    unfold AnalyzerConfig.load_rule in Hstep.
    destruct data; try (injection Hstep as <-; done || by apply NoDup_keys_set).
    repeat lazymatch type of Hstep with
           | mbind _ ?x = _ =>
               destruct x; cbn [mbind option_bind] in Hstep; [|discriminate Hstep]
           end.
    injection Hstep as <-. by apply NoDup_keys_set.
Qed.

(** The loop of [from_file] over the rules of the document assigns the
    names of the document only. *)
Lemma load_rules_get_other (acc rules : dict RuleConfig.t)
    (entries : list (string * pyval)) (rule_name : string) :
  AnalyzerConfig.load_rules acc entries = Some rules ->
  rule_name ∉ PyDict.keys entries ->
  PyDict.get rule_name rules = PyDict.get rule_name acc.
Proof.
  revert acc. induction entries as [|[k data] entries IH]; intros acc.
  - cbn. by intros [= <-].
  - cbn [AnalyzerConfig.load_rules].
    destruct (AnalyzerConfig.load_rule acc (k, data)) as [acc'|] eqn:Hstep;
      [|discriminate].
    cbn [mbind option_bind]. intros Hrules Hnotin.
    unfold PyDict.keys in Hnotin. cbn [map fst] in Hnotin.
    apply not_elem_of_cons in Hnotin as [Hne Hnotin].
    rewrite (IH acc' Hrules Hnotin).
    unfold AnalyzerConfig.load_rule in Hstep.
    destruct data; try (injection Hstep as <-; done || by apply get_set_ne).
    repeat lazymatch type of Hstep with
           | mbind _ ?x = _ =>
               destruct x; cbn [mbind option_bind] in Hstep; [|discriminate Hstep]
           end.
    injection Hstep as <-. by apply get_set_ne.
Qed.

(** X6. Whatever the JSON document holds, a configuration that
    [from_file] returns satisfies the class invariant: its rule names are
    distinct and every available rule has an entry.  An available rule
    that the ["rules"] object of the document does not mention is present
    with the default entry: enabled, severity ["warning"], no options; a
    name that is neither mentioned nor available has no entry. *)
Theorem loaded_config_has_every_rule
    (config_path : string) (fs : AnalyzerConfig.files) (config : AnalyzerConfig.t) :
  AnalyzerConfig.from_file config_path fs = Some (Return config) ->
  AnalyzerConfig.invariant config
  /\ exists doc data entries,
      fs !! config_path = Some doc
      /\ Json.load doc = PDict data
      /\ PyDict.get_default "rules" (PDict []) data = PDict entries
      /\ forall rule_name,
          rule_name ∉ PyDict.keys entries ->
          PyDict.get rule_name (AnalyzerConfig.rules config)
          = if PyDict.contains rule_name AnalyzerConfig.AVAILABLE_RULES
            then Some (RuleConfig.mk true "warning" [])
            else None.
Proof.
  intros Hload.
  unfold AnalyzerConfig.from_file in Hload.
  destruct (fs !! config_path) as [doc|]; [|discriminate].
  unfold AnalyzerConfig.from_data in Hload.
  destruct (Json.load doc) as [| | | | | |d] eqn:Hdoc; try discriminate.
  destruct (PyDict.get_default "rules" (PDict []) d) as [| | | | | |entries]
    eqn:Hentries; try discriminate.
  destruct (AnalyzerConfig.load_rules [] entries) as [rules|] eqn:Hrules;
    cbn [mbind option_bind] in Hload; [|discriminate].
  repeat lazymatch type of Hload with
         | mbind _ ?x = _ =>
             destruct x; cbn [mbind option_bind] in Hload; [|discriminate Hload]
         end.
  injection Hload as <-. split.
  - unfold AnalyzerConfig.new.
    apply post_init_invariant. cbn [AnalyzerConfig.rules].
    eapply load_rules_NoDup; [|exact Hrules]. apply NoDup_nil_2.
  - exists doc, d, entries. split_and!; [done..|].
    intros rule_name Hnotin.
    unfold AnalyzerConfig.new, AnalyzerConfig.__post_init__.
    rewrite post_init_unfold. cbn [AnalyzerConfig.set_rules AnalyzerConfig.rules].
    rewrite get_fold_default, (load_rules_get_other _ _ _ _ Hrules Hnotin).
    cbn [PyDict.get]. by rewrite contains_elem.
Qed.

Lemma loaded_config_has_every_rule_witness :
  AnalyzerConfig.invariant
    (AnalyzerConfig.disable_rule "coupling" AnalyzerConfig.default)
  /\ exists doc data entries,
      ({[ "oop.json" :=
            Json.JObject
              [("rules",
                Json.JObject [("encapsulation", Json.JBool true);
                              ("coupling", Json.JBool false)])] ]}
       : AnalyzerConfig.files) !! "oop.json" = Some doc
      /\ Json.load doc = PDict data
      /\ PyDict.get_default "rules" (PDict []) data = PDict entries
      /\ forall rule_name,
          rule_name ∉ PyDict.keys entries ->
          PyDict.get rule_name
            (AnalyzerConfig.rules
               (AnalyzerConfig.disable_rule "coupling" AnalyzerConfig.default))
          = if PyDict.contains rule_name AnalyzerConfig.AVAILABLE_RULES
            then Some (RuleConfig.mk true "warning" [])
            else None.
Proof.
  apply (loaded_config_has_every_rule "oop.json"
           {[ "oop.json" :=
                Json.JObject
                  [("rules",
                    Json.JObject [("encapsulation", Json.JBool true);
                                  ("coupling", Json.JBool false)])] ]}).
  vm_compute. reflexivity.
Defined.

(** ** Path validation *)

(** X7. [validate_file_path] accepts a path exactly when it names a
    regular file whose suffix is [.py], whose size can be read and is at
    most the validator's limit: a file of exactly the limit is accepted.
    The report carries the path, and it has no issue when it is safe and
    exactly one when it is not. *)
Theorem validate_file_path_accepts_iff
    (self : Safety.SafetyValidator) (fs : Safety.filesystem) (path : string) :
  let report := Safety.validate_file_path self fs path in
  (SafetyReport.is_safe report = true
   <-> exists size,
         fs path = Safety.RegularFile (inl size)
         /\ Safety.path_suffix path = ".py"
         /\ size <= Safety.max_file_size self)
  /\ SafetyReport.file_path report = path
  /\ (SafetyReport.is_safe report = true -> SafetyReport.issues report = [])
  /\ (SafetyReport.is_safe report = false ->
      exists issue, SafetyReport.issues report = [issue]).
Proof.
  intros report. subst report. unfold Safety.validate_file_path.
  destruct (fs path) as [| |[size|e]|] eqn:Hfs;
    try (cbn; split_and!; [split; [done | by intros (? & ? & _)] | done | done | eauto]).
  - case_bool_decide as Hsuffix; cbn [negb].
    + destruct (Safety.max_file_size self <? size) eqn:Hsize; cbn.
      * apply Z.ltb_lt in Hsize. split_and!; [|done|done|eauto].
        split; [done|]. intros (size' & [= <-] & _ & ?). lia.
      * apply Z.ltb_ge in Hsize. split_and!; [|done|done|done].
        split; [|done]. intros _. by exists size.
    + cbn. split_and!; [|done|done|eauto].
      split; [done|]. by intros (? & _ & ? & _).
  - case_bool_decide as Hsuffix; cbn; (split_and!; [|done|done|eauto]);
      (split; [done|]); by intros (? & ? & _).
Qed.

(** X8. The reports of [validate_directory] and [validate_source_code]:
    a directory is accepted exactly when the path exists and is a
    directory; a source text, whenever the validator returns, exactly when
    the parser returned a tree; and each report is safe exactly when it
    lists no issue, an unsafe one listing exactly one. *)
Theorem safety_reports_are_consistent
    (ast_parse : string -> string -> outcome Ast.Module)
    (fs : Safety.filesystem) (path source file_path : string) :
  let consistent (report : SafetyReport.t) :=
    (SafetyReport.is_safe report = true <-> SafetyReport.issues report = [])
    /\ (SafetyReport.is_safe report = false ->
        exists issue, SafetyReport.issues report = [issue]) in
  consistent (Safety.validate_directory fs path)
  /\ (SafetyReport.is_safe (Safety.validate_directory fs path) = true
      <-> fs path = Safety.Directory)
  /\ SafetyReport.file_path (Safety.validate_directory fs path) = path
  /\ forall report,
       Safety.validate_source_code ast_parse source file_path = Return report ->
       consistent report
       /\ SafetyReport.file_path report = file_path
       /\ (SafetyReport.is_safe report = true
           <-> exists tree, ast_parse source "<unknown>" = Return tree).
Proof.
  intros consistent. subst consistent. cbv beta.
  unfold Safety.validate_directory, Safety.path_exists, Safety.path_is_dir.
  split_and!.
  - destruct (fs path); cbn; split; intros ?; first [done | discriminate].
  - destruct (fs path); cbn; intros ?; first [discriminate | eauto].
  - destruct (fs path); cbn; split; intros ?; first [done | discriminate].
  - by destruct (fs path).
  - intros report. unfold Safety.validate_source_code. cbn [snd].
    destruct (ast_parse source "<unknown>") as [tree|e].
    + intros [= <-]. cbn. split_and!; [done | discriminate | done |].
      split; [by exists tree | done].
    + destruct (is_SyntaxError e); [|discriminate]. intros [= <-]. cbn.
      split_and!; [split; discriminate | eauto | done |].
      split; [discriminate | by intros [? ?]].
Qed.

(** ** Reports *)

Section CountingFacts.

Implicit Types (d : dict Z) (l : list string) (x : string).

Lemma sum_values_set x d :
  foldr Z.add 0 (PyDict.values (PyDict.set x (PyDict.get_default x 0 d + 1) d))
  = foldr Z.add 0 (PyDict.values d) + 1.
Proof.
  unfold PyDict.get_default.
  induction d as [|[k n] d IH]; cbn; [lia|].
  destruct (bool_decide (x = k)) eqn:E; cbn; [lia|].
  unfold PyDict.values in IH. rewrite IH. lia.
Qed.

Lemma sum_values_count_into d l :
  foldr Z.add 0 (PyDict.values (Polymorphism.count_into d l))
  = foldr Z.add 0 (PyDict.values d) + Z.of_nat (length l).
Proof.
  revert d. induction l as [|x l IH]; intros d; cbn [length].
  { unfold Polymorphism.count_into. cbn [fold_left]. lia. }
  unfold Polymorphism.count_into in *. cbn [fold_left].
  rewrite IH, sum_values_set. lia.
Qed.

Lemma keys_count_into_prefix d l :
  exists more, PyDict.keys (Polymorphism.count_into d l) = PyDict.keys d ++ more.
Proof.
  revert d. induction l as [|x l IH]; intros d.
  - exists []. by rewrite app_nil_r.
  - unfold Polymorphism.count_into in *. cbn [fold_left].
    destruct (IH (PyDict.set x (PyDict.get_default x 0 d + 1) d)) as [more ->].
    rewrite keys_set. case_bool_decide; [by exists more|].
    exists (x :: more). by rewrite <- app_assoc.
Qed.

End CountingFacts.

(** The two loops of [violations_by_severity] count the severities of the
    violations of all results, taken in order. *)
Lemma violations_by_severity_counts (report : AnalysisReport.t) :
  AnalysisReport.violations_by_severity report
  = Polymorphism.count_into [("error", 0); ("warning", 0); ("info", 0)]
      (map RuleViolation.severity
         (concat (map RuleResult.violations
                    (PyDict.values (AnalysisReport.results report))))).
Proof.
  unfold AnalysisReport.violations_by_severity.
  generalize [("error", 0); ("warning", 0); ("info", 0)] as counts.
  induction (PyDict.values (AnalysisReport.results report)) as [|res l IH];
    intros counts; [done|].
  cbn [fold_left map concat]. rewrite IH, map_app.
  unfold Polymorphism.count_into. rewrite fold_left_app. f_equal.
  generalize (RuleResult.violations res) as vs. clear.
  intros vs. revert counts. induction vs as [|v vs IH]; intros counts; [done|].
  cbn [fold_left map]. apply IH.
Qed.

(** X9. [violations_by_severity] maps each severity to the number of
    violations of that severity in the report, whatever the severity is
    called; its first three keys are ["error"], ["warning"] and ["info"],
    present also when their count is 0; and its counts add up to
    [total_violations]. *)
Theorem severity_counts_add_up (report : AnalysisReport.t) :
  let counts := AnalysisReport.violations_by_severity report in
  let violations :=
    concat (map RuleResult.violations (PyDict.values (AnalysisReport.results report))) in
  (forall severity,
      PyDict.get_default severity 0 counts
      = Z.of_nat
          (length
             (List.filter
                (fun v => bool_decide (RuleViolation.severity v = severity))
                violations)))
  /\ take 3 (PyDict.keys counts) = ["error"; "warning"; "info"]
  /\ NoDup (PyDict.keys counts)
  /\ foldr Z.add 0 (PyDict.values counts) = AnalysisReport.total_violations report.
Proof.
  intros counts violations. subst counts.
  rewrite violations_by_severity_counts. fold violations. split_and!.
  - intros severity. rewrite count_into_get.
    assert (PyDict.get_default severity 0 [("error", 0); ("warning", 0); ("info", 0)] = 0)
      as ->.
    { unfold PyDict.get_default. cbn. repeat case_bool_decide; done. }
    unfold Polymorphism.occurrences. rewrite Z.add_0_l. f_equal.
    induction violations as [|v vs IH]; [done|].
    cbn [map List.filter]. destruct (bool_decide _); cbn [length]; by rewrite IH.
  - destruct (keys_count_into_prefix
                [("error", 0); ("warning", 0); ("info", 0)]
                (map RuleViolation.severity violations)) as [more ->].
    reflexivity.
  - apply count_into_NoDup. refine (bool_decide_unpack _ _). vm_compute. exact I.
  - rewrite sum_values_count_into, length_map. subst violations.
    unfold AnalysisReport.total_violations.
    rewrite fold_left_Zadd, length_concat_Z, map_map.
    change (foldr Z.add 0 (PyDict.values [("error", 0); ("warning", 0); ("info", 0)]))
      with 0.
    reflexivity.
Qed.

(** X10. [rules_with_violations] lists the names of the results that hold
    at least one violation, in the order of the results; it is empty
    exactly when [total_violations] is 0. *)
Theorem rules_with_violations_empty_iff (report : AnalysisReport.t) :
  (forall name,
      name ∈ AnalysisReport.rules_with_violations report
      <-> exists result,
            (name, result) ∈ AnalysisReport.results report
            /\ RuleResult.violations result <> [])
  /\ (AnalysisReport.rules_with_violations report = []
      <-> AnalysisReport.total_violations report = 0).
Proof.
  unfold AnalysisReport.rules_with_violations, AnalysisReport.total_violations,
    PyDict.items, PyDict.values.
  assert (forall result : RuleResult.t,
             RuleResult.has_violations result = true
             <-> RuleResult.violations result <> []) as Hhas.
  { intros result. unfold RuleResult.has_violations.
    destruct (RuleResult.violations result); cbn; [split; done|].
    split; [done|]. intros _. apply Z.ltb_lt. lia. }
  split.
  - intros name. rewrite list_elem_of_fmap. split.
    + intros ([k result] & -> & [Hv Hin]%list_elem_of_filter). cbn [fst snd] in *.
      exists result. split; [done | by apply Hhas].
    + intros (result & Hin & Hv). exists (name, result). split; [done|].
      apply list_elem_of_filter. split; [by apply Hhas | done].
  - rewrite fold_left_Zadd, Z.add_0_l.
    induction (AnalysisReport.results report) as [|[k result] results IH]; [done|].
    rewrite filter_cons. cbn [map snd foldr].
    assert (0 <= foldr Z.add 0 (map RuleResult.violation_count (map snd results))) as Hnn.
    { clear. induction results as [|[k r] results IH]; cbn; [lia|].
      unfold RuleResult.violation_count at 1. lia. }
    destruct (decide _) as [Hv|Hv]; cbn [snd] in Hv.
    + cbn [map fst]. split; [done|]. apply Hhas in Hv.
      unfold RuleResult.violation_count at 1.
      destruct (RuleResult.violations result); [done|]. cbn [length]. lia.
    + rewrite IH. apply not_true_is_false in Hv.
      assert (RuleResult.violation_count result = 0) as ->; [|lia].
      unfold RuleResult.has_violations in Hv. apply Z.ltb_ge in Hv.
      unfold RuleResult.violation_count. lia.
Qed.

(** ** Analysis of one source text *)

(** The loop over the rules appends, in the order of the rules, the
    result of each rule that returns to the results and the record of each
    rule that raises to the errors. *)
Lemma run_rules_partition (tree : Ast.Module) (source file_path : string)
    (rules : dict BaseRule.t) (results : dict RuleResult.t)
    (errors : list (dict pyval)) :
  NoDup (PyDict.keys results ++ PyDict.keys rules) ->
  fold_left (OOPAnalyzer.run_rule tree source file_path) rules (results, errors)
  = (results
     ++ omap (fun entry : string * BaseRule.t =>
                match BaseRule.analyze (snd entry) tree source file_path with
                | Return result => Some (fst entry, result)
                | Raise _ => None
                end) rules,
     errors
     ++ omap (fun entry : string * BaseRule.t =>
                match BaseRule.analyze (snd entry) tree source file_path with
                | Return _ => None
                | Raise e => Some (OOPAnalyzer.rule_error file_path (fst entry) e)
                end) rules).
Proof.
  revert results errors.
  induction rules as [|[name rule] rules IH]; intros results errors Hnd.
  - cbn. by rewrite !app_nil_r.
  - cbn [fold_left OOPAnalyzer.run_rule omap list_omap fst snd].
    assert (name ∉ PyDict.keys results) as Hfresh.
    { apply NoDup_app in Hnd as (_ & Hdis & _). intros Hin. apply (Hdis _ Hin). left. }
    destruct (BaseRule.analyze rule tree source file_path) as [result|e].
    + rewrite IH.
      * rewrite set_fresh by done. by rewrite <- app_assoc.
      * rewrite set_fresh by done. unfold PyDict.keys in *.
        rewrite map_app. cbn [map fst]. rewrite <- app_assoc. exact Hnd.
    + rewrite IH.
      * by rewrite <- app_assoc.
      * unfold PyDict.keys in *. cbn [map fst] in Hnd.
        apply NoDup_app in Hnd as (H1 & H2 & H3). apply NoDup_cons in H3 as [_ H3].
        apply NoDup_app. split_and!; [done | | done].
        intros x Hx Hin. apply (H2 x Hx). by right.
Qed.

(** X11. When the parser rejects the text, [analyze_source] runs no rule:
    for a [SyntaxError] it returns a report without analysed files and
    without results, whose only error record names the file and carries the
    syntax error message; an exception of any other class is not caught and
    leaves [analyze_source]. *)
Theorem analyze_source_on_parser_failure
    (ast_parse : string -> string -> outcome Ast.Module)
    (self : OOPAnalyzer.t) (now : Z) (source file_path : string) (e : exception) :
  ast_parse source "<unknown>" = Raise e ->
  OOPAnalyzer.analyze_source ast_parse self now source file_path
  = if is_SyntaxError e then
      Return
        (AnalysisReport.mk [] [] now (AnalyzerConfig.to_dict (OOPAnalyzer.config self))
           [[("file", PStr file_path);
             ("error", PStr "Failed to parse source");
             ("details",
              PList [PStr ("Syntax error in source: " +:+ str_of_exception e)])]])
    else Raise e.
Proof.
  intros Hparse. unfold OOPAnalyzer.analyze_source, Safety.validate_source_code.
  cbn [snd]. rewrite Hparse. by destruct (is_SyntaxError e).
Qed.

Lemma analyze_source_on_parser_failure_witness :
  OOPAnalyzer.analyze_source Samples.parse_pass_only
    (OOPAnalyzer.__init__ Samples.registry None) 0 "def f(:" "broken.py"
  = if is_SyntaxError (SyntaxError "invalid syntax (<unknown>, line 1)") then
      Return
        (AnalysisReport.mk [] [] 0
           (AnalyzerConfig.to_dict
              (OOPAnalyzer.config (OOPAnalyzer.__init__ Samples.registry None)))
           [[("file", PStr "broken.py");
             ("error", PStr "Failed to parse source");
             ("details",
              PList [PStr ("Syntax error in source: "
                           +:+ str_of_exception
                                 (SyntaxError "invalid syntax (<unknown>, line 1)"))])]])
    else Raise (SyntaxError "invalid syntax (<unknown>, line 1)").
Proof.
  apply (analyze_source_on_parser_failure Samples.parse_pass_only
           (OOPAnalyzer.__init__ Samples.registry None) 0 "def f(:" "broken.py"
           (SyntaxError "invalid syntax (<unknown>, line 1)")).
  reflexivity.
Defined.

(** X12. When the text parses, [analyze_source] of an analyzer built by
    [__init__] returns a report for that one file in which every rule the
    analyzer holds is accounted for once, in the order of the rules: the
    results are those of the rules whose [analyze] returned, the error
    records those of the rules whose [analyze] raised. *)
Theorem analyze_source_accounts_for_every_rule
    (ast_parse : string -> string -> outcome Ast.Module)
    (RULE_REGISTRY : dict (dict pyval -> BaseRule.t))
    (config : option AnalyzerConfig.t) (now : Z) (source file_path : string)
    (tree0 tree : Ast.Module) :
  let self := OOPAnalyzer.__init__ RULE_REGISTRY config in
  let run (rule : BaseRule.t) := BaseRule.analyze rule tree source file_path in
  ast_parse source "<unknown>" = Return tree0 ->
  ast_parse source file_path = Return tree ->
  exists report,
    OOPAnalyzer.analyze_source ast_parse self now source file_path = Return report
    /\ AnalysisReport.files_analyzed report = [file_path]
    /\ AnalysisReport.results report
       = omap (fun entry : string * BaseRule.t =>
                 match run (snd entry) with
                 | Return result => Some (fst entry, result)
                 | Raise _ => None
                 end) (OOPAnalyzer._rules self)
    /\ AnalysisReport.errors report
       = omap (fun entry : string * BaseRule.t =>
                 match run (snd entry) with
                 | Return _ => None
                 | Raise e => Some (OOPAnalyzer.rule_error file_path (fst entry) e)
                 end) (OOPAnalyzer._rules self)
    /\ (length (AnalysisReport.results report) + length (AnalysisReport.errors report)
        = length (OOPAnalyzer._rules self))%nat.
Proof.
  intros self run Hparse0 Hparse.
  unfold OOPAnalyzer.analyze_source, Safety.validate_source_code, Safety.parse_safely.
  cbn [snd]. rewrite Hparse0, Hparse. cbn [SafetyReport.is_safe negb].
  unfold OOPAnalyzer.run_rules, PyDict.items.
  rewrite run_rules_partition.
  - eexists. split; [reflexivity|].
    cbn [AnalysisReport.files_analyzed AnalysisReport.results AnalysisReport.errors app].
    split_and!; [done..|].
    subst run. induction (OOPAnalyzer._rules self) as [|[name rule] rules IH]; [done|].
    cbn [omap list_omap fst snd length].
    destruct (BaseRule.analyze rule tree source file_path); cbn [length]; lia.
  - cbn [PyDict.keys map app]. subst self. destruct config; cbn [OOPAnalyzer.__init__
      OOPAnalyzer._rules default from_option id]; apply NoDup_initialize_rules.
Qed.

Lemma analyze_source_accounts_for_every_rule_witness :
  exists report,
    OOPAnalyzer.analyze_source Samples.parse_pass_only
      (OOPAnalyzer.__init__ Samples.registry None) 0 "pass" "<string>" = Return report
    /\ AnalysisReport.files_analyzed report = ["<string>"]
    /\ AnalysisReport.results report
       = omap (fun entry : string * BaseRule.t =>
                 match BaseRule.analyze (snd entry) (Ast.MkModule [Ast.Pass])
                         "pass" "<string>" with
                 | Return result => Some (fst entry, result)
                 | Raise _ => None
                 end)
           (OOPAnalyzer._rules (OOPAnalyzer.__init__ Samples.registry None))
    /\ AnalysisReport.errors report
       = omap (fun entry : string * BaseRule.t =>
                 match BaseRule.analyze (snd entry) (Ast.MkModule [Ast.Pass])
                         "pass" "<string>" with
                 | Return _ => None
                 | Raise e => Some (OOPAnalyzer.rule_error "<string>" (fst entry) e)
                 end)
           (OOPAnalyzer._rules (OOPAnalyzer.__init__ Samples.registry None))
    /\ (length (AnalysisReport.results report) + length (AnalysisReport.errors report)
        = length (OOPAnalyzer._rules (OOPAnalyzer.__init__ Samples.registry None)))%nat.
Proof.
  apply (analyze_source_accounts_for_every_rule Samples.parse_pass_only
           Samples.registry None 0 "pass" "<string>"
           (Ast.MkModule [Ast.Pass]) (Ast.MkModule [Ast.Pass]));
    reflexivity.
Defined.

(** In a configuration whose rule names are distinct, the names
    [get_enabled_rules] lists are those for which [is_rule_enabled] answers
    true. *)
Lemma elem_get_enabled_rules (self : AnalyzerConfig.t) (rule_name : string) :
  NoDup (PyDict.keys (AnalyzerConfig.rules self)) ->
  rule_name ∈ AnalyzerConfig.get_enabled_rules self
  <-> AnalyzerConfig.is_rule_enabled rule_name self = true.
Proof.
  intros Hnd.
  unfold AnalyzerConfig.get_enabled_rules, AnalyzerConfig.is_rule_enabled, PyDict.items.
  rewrite list_elem_of_fmap. split.
  - intros ([k c] & -> & [Hen Hin]%list_elem_of_filter). cbn [fst snd] in *.
    by rewrite (elem_get_NoDup _ _ _ Hnd Hin).
  - destruct (PyDict.get rule_name (AnalyzerConfig.rules self)) as [c|] eqn:E; [|done].
    intros Hen. exists (rule_name, c). split; [done|].
    apply list_elem_of_filter. split; [done | by apply get_Some_elem].
Qed.

(** X13. A rule that the configuration does not enable is never run: the
    report of [analyze_source] has no result under its name and no error
    record tagged with it, whether or not the text parses. *)
Theorem disabled_rule_is_never_run
    (ast_parse : string -> string -> outcome Ast.Module)
    (RULE_REGISTRY : dict (dict pyval -> BaseRule.t))
    (config : AnalyzerConfig.t) (now : Z) (source file_path : string)
    (rule_name : string) :
  NoDup (PyDict.keys (AnalyzerConfig.rules config)) ->
  AnalyzerConfig.is_rule_enabled rule_name config = false ->
  match OOPAnalyzer.analyze_source ast_parse
          (OOPAnalyzer.__init__ RULE_REGISTRY (Some config)) now source file_path with
  | Return report =>
      PyDict.get rule_name (AnalysisReport.results report) = None
      /\ forall record,
           record ∈ AnalysisReport.errors report ->
           PyDict.get "rule" record <> Some (PStr rule_name)
  | Raise _ => True
  end.
Proof.
  intros Hnd Hoff.
  assert (rule_name ∉ PyDict.keys (OOPAnalyzer._initialize_rules RULE_REGISTRY config))
    as Hnot.
  { apply get_None. rewrite get_initialize_rules.
    rewrite bool_decide_eq_false_2; [done|].
    rewrite elem_get_enabled_rules by done. by rewrite Hoff. }
  unfold OOPAnalyzer.analyze_source, Safety.validate_source_code, Safety.parse_safely.
  cbn [snd].
  destruct (ast_parse source "<unknown>") as [tree0|e0].
  - cbn [SafetyReport.is_safe negb].
    destruct (ast_parse source file_path) as [tree|e].
    + unfold OOPAnalyzer.run_rules, PyDict.items.
      cbn [OOPAnalyzer.__init__ OOPAnalyzer._rules default from_option id].
      rewrite run_rules_partition
        by (cbn [PyDict.keys map app]; apply NoDup_initialize_rules).
      cbn [AnalysisReport.results AnalysisReport.errors app]. split.
      * apply get_None. intros Hin. apply Hnot.
        unfold PyDict.keys in *. apply list_elem_of_fmap in Hin as ([k r] & -> & Hin).
        apply list_elem_of_omap in Hin as ([k' rule] & Hin & Hret). cbn [fst snd] in *.
        destruct (BaseRule.analyze rule tree source file_path); [|discriminate].
        injection Hret as <- <-. apply list_elem_of_fmap. by exists (k', rule).
      * intros record Hin Hrule.
        apply list_elem_of_omap in Hin as ([k' rule] & Hin & Hret). cbn [fst snd] in *.
        destruct (BaseRule.analyze rule tree source file_path); [discriminate|].
        injection Hret as <-. cbn in Hrule. injection Hrule as ->.
        apply Hnot. unfold PyDict.keys. apply list_elem_of_fmap. by exists (rule_name, rule).
    + destruct (is_SyntaxError e); [|done].
      cbn [AnalysisReport.results AnalysisReport.errors]. split; [done|].
      intros record ->%list_elem_of_singleton. cbn. discriminate.
  - destruct (is_SyntaxError e0); [|done].
    cbn [SafetyReport.is_safe negb AnalysisReport.results AnalysisReport.errors].
    split; [done|]. intros record ->%list_elem_of_singleton. cbn. discriminate.
Qed.

Lemma disabled_rule_is_never_run_witness :
  match OOPAnalyzer.analyze_source Samples.parse_pass_only
          (OOPAnalyzer.__init__ Samples.registry
             (Some (AnalyzerConfig.disable_rule "coupling" AnalyzerConfig.default)))
          0 "pass" "<string>" with
  | Return report =>
      PyDict.get "coupling" (AnalysisReport.results report) = None
      /\ forall record,
           record ∈ AnalysisReport.errors report ->
           PyDict.get "rule" record <> Some (PStr "coupling")
  | Raise _ => True
  end.
Proof.
  apply (disabled_rule_is_never_run Samples.parse_pass_only Samples.registry
           (AnalyzerConfig.disable_rule "coupling" AnalyzerConfig.default)
           0 "pass" "<string>" "coupling").
  - refine (bool_decide_unpack _ _). vm_compute. exact I.
  - reflexivity.
Defined.

(** ** Invariants of the visitors *)

(** A loop keeps what each of its iterations keeps. *)
Lemma fold_left_preserves {A B : Type} (f : A -> B -> A) (I : A -> Prop) (l : list B) :
  Forall (fun x => forall a, I a -> I (f a x)) l ->
  forall a, I a -> I (fold_left f l a).
Proof.
  induction 1 as [|x l Hx Hl IH]; intros a Ha; [done|].
  cbn [fold_left]. apply IH. by apply Hx.
Qed.

Lemma fold_left_cases_preserves {A B C : Type} (f : A -> B -> A) (I : A -> Prop)
    (cases : list (C * list B)) :
  Forall (fun c => Forall (fun x => forall a, I a -> I (f a x)) (snd c)) cases ->
  forall a, I a -> I (fold_left (fun a c => fold_left f (snd c) a) cases a).
Proof.
  intros Hcases. apply fold_left_preserves.
  eapply Forall_impl; [exact Hcases|]. intros c Hc a Ha.
  by apply fold_left_preserves.
Qed.

Lemma count_partition {A : Type} (a b : A -> bool) (l : list A) :
  Z.of_nat (length l)
  = Z.of_nat (length (List.filter a l))
    + Z.of_nat (length (List.filter (fun x => negb (a x) && b x) l))
    + Z.of_nat (length (List.filter (fun x => negb (a x) && negb (b x)) l)).
Proof.
  induction l as [|x l IH]; [done|]. cbn [List.filter length].
  destruct (a x), (b x); cbn [negb andb length]; lia.
Qed.

Section BooleanFlagFacts.

Variables (file_path source : string) (cfg : BooleanFlag.settings).

(** A property of the visitor's fields that setting the class context and
    checking a function keep is kept by the whole traversal. *)
Lemma BooleanFlag_visit_preserves (I : BooleanFlag.visitor -> Prop) :
  (forall c v, I v -> I (BooleanFlag.set_current_class c v)) ->
  (forall node p fname a v,
      I v -> I (BooleanFlag._check_function file_path source cfg node p fname a v)) ->
  forall node v, I v -> I (BooleanFlag.visit file_path source cfg v node).
Proof.
  intros Hclass Hcheck node.
  induction node using Ast.stmt_ind; intros v Hv; cbn [BooleanFlag.visit]; try done.
  - apply fold_left_preserves; [done|]. by apply Hcheck.
  - apply fold_left_preserves; [done|]. by apply Hcheck.
  - apply Hclass. apply fold_left_preserves; [done|]. by apply Hclass.
  - apply fold_left_preserves; [done|]. by apply fold_left_preserves.
  - apply fold_left_preserves; [done|]. by apply fold_left_preserves.
  - apply fold_left_preserves; [done|]. by apply fold_left_preserves.
  - by apply (fold_left_cases_preserves
                (BooleanFlag.visit file_path source cfg) I).
Qed.

(** What [_check_function] does to the visitor is a sequence of
    [_add_violation] calls, each for a parameter other than [self] and
    [cls] whose number of conditional usages reaches the minimum, with
    [is_constructor] and [is_method] computed from the function name and
    the class context. *)
Lemma BooleanFlag_check_function_preserves (I : BooleanFlag.visitor -> Prop) :
  (forall p fname param_name usages v,
      I v ->
      BooleanFlag.min_flag_usages cfg <= usages ->
      PyStr.mem param_name ["self"; "cls"] = false ->
      I (BooleanFlag._add_violation file_path source p fname param_name usages
           (bool_decide (fname = "__init__"))
           (match BooleanFlag._current_class v with Some _ => true | None => false end)
           v)) ->
  forall node p fname a v,
    I v -> I (BooleanFlag._check_function file_path source cfg node p fname a v).
Proof.
  intros Hadd node p fname a v Hv. unfold BooleanFlag._check_function.
  repeat (match goal with |- context [if ?b then v else _] => destruct b end; [done|]).
  refine (proj1 (fold_left_preserves _
                   (fun v' => I v'
                              /\ BooleanFlag._current_class v'
                                 = BooleanFlag._current_class v) _ _ v _));
    [|done].
  apply Forall_forall. intros param_name Hin v' [Hv' Hcls].
  match goal with
  | |- context [if ?b then _ else _] => destruct b eqn:Hmin
  end; [|done].
  split; [|exact Hcls]. rewrite <- Hcls.
  apply Hadd; [done | by apply Z.leb_le |].
  unfold BooleanFlag._find_boolean_params in Hin.
  apply list_elem_of_omap in Hin as (o & Hin & Ho). cbn in Ho. subst o.
  apply elem_of_lookup_imap in Hin as (i & arg & Heq & _).
  unfold BooleanFlag.is_boolean_param in Heq.
  destruct (PyStr.mem (Ast.arg_name arg) ["self"; "cls"]) eqn:Hself;
    [discriminate|].
  match type of Heq with
  | _ = (if ?b then _ else _) => destruct b; [|discriminate]
  end.
  by injection Heq as ->.
Qed.

End BooleanFlagFacts.

(** X14. The counters in the summary of the boolean_flag rule partition
    its violations: [constructor_flags] counts the violations whose
    metadata marks a constructor, [method_flags] the others that have a
    class, [function_flags] those without class, and
    [total_boolean_flags] is their sum, the number of violations; the
    metadata lists one flag pattern per violation. *)
Theorem boolean_flag_counters_partition_violations
    (file_path source : string) (cfg : BooleanFlag.settings) (tree : Ast.Module) :
  let result := BooleanFlag.analyze file_path source cfg tree in
  let count (P : RuleViolation.t -> bool) :=
    Z.of_nat (length (List.filter P (RuleResult.violations result))) in
  let is_constructor (x : RuleViolation.t) :=
    match PyDict.get "is_constructor" (RuleViolation.metadata x) with
    | Some (PBool true) => true
    | _ => false
    end in
  let in_class (x : RuleViolation.t) :=
    match PyDict.get "class" (RuleViolation.metadata x) with
    | Some (PStr _) => true
    | _ => false
    end in
  RuleResult.summary result
  = [("total_boolean_flags", PInt (RuleResult.violation_count result));
     ("constructor_flags", PInt (count is_constructor));
     ("method_flags", PInt (count (fun x => negb (is_constructor x) && in_class x)));
     ("function_flags",
      PInt (count (fun x => negb (is_constructor x) && negb (in_class x))))]
  /\ RuleResult.violation_count result
     = count is_constructor
       + count (fun x => negb (is_constructor x) && in_class x)
       + count (fun x => negb (is_constructor x) && negb (in_class x))
  /\ exists patterns,
       RuleResult.metadata result = [("flag_patterns", PList patterns)]
       /\ length patterns = length (RuleResult.violations result).
Proof.
  intros result count is_constructor in_class.
  set (counted (P : RuleViolation.t -> bool) (l : list RuleViolation.t) :=
         Z.of_nat (length (List.filter P l))).
  set (I := fun v : BooleanFlag.visitor =>
              BooleanFlag.constructor_flag_count v
              = counted is_constructor (BooleanFlag.violations v)
              /\ BooleanFlag.method_flag_count v
                 = counted (fun x => negb (is_constructor x) && in_class x)
                     (BooleanFlag.violations v)
              /\ BooleanFlag.function_flag_count v
                 = counted (fun x => negb (is_constructor x) && negb (in_class x))
                     (BooleanFlag.violations v)
              /\ length (BooleanFlag.flag_patterns v)
                 = length (BooleanFlag.violations v)).
  assert (I (fold_left (BooleanFlag.visit file_path source cfg) (Ast.mod_body tree)
               BooleanFlag.init_visitor)) as (Hc & Hm & Hf & Hp).
  { apply fold_left_preserves; [|by subst I counted].
    apply Forall_forall. intros node _. apply BooleanFlag_visit_preserves.
    - intros c v Hv. exact Hv.
    - apply BooleanFlag_check_function_preserves.
      intros p fname param_name usages v (Hc & Hm & Hf & Hp) _ _.
      subst I counted. cbv beta.
      cbn [BooleanFlag._add_violation BooleanFlag.violations
           BooleanFlag.constructor_flag_count BooleanFlag.method_flag_count
           BooleanFlag.function_flag_count BooleanFlag.flag_patterns].
      rewrite !List.filter_app, !length_app, Hc, Hm, Hf, Hp.
      match goal with |- context [List.filter _ [?x]] => set (viol := x) end.
      assert (PyDict.get "is_constructor" (RuleViolation.metadata viol)
              = Some (PBool (bool_decide (fname = "__init__")))) as Hk1
        by reflexivity.
      assert (PyDict.get "class" (RuleViolation.metadata viol)
              = Some (Ast.opt_str_val (BooleanFlag._current_class v))) as Hk2
        by reflexivity.
      clearbody viol. subst is_constructor in_class.
      cbn [List.filter]. rewrite Hk1, Hk2.
      destruct (bool_decide (fname = "__init__"));
        destruct (BooleanFlag._current_class v);
        cbn [Ast.opt_str_val negb andb length]; split_and!; lia. }
  subst result. unfold BooleanFlag.analyze.
  cbn [RuleResult.summary RuleResult.metadata RuleResult.violations].
  unfold RuleResult.violation_count. cbn [RuleResult.violations].
  subst count. cbv beta. cbn [RuleResult.violations].
  fold (counted is_constructor). rewrite Hc, Hm, Hf. subst counted. cbv beta.
  split_and!; [reflexivity | | eexists; split; [reflexivity|]].
  - apply count_partition.
  - by rewrite length_map.
Qed.


Section PolymorphismFacts.

Variables (file_path source : string) (cfg : Polymorphism.settings).

(** A property of the visitor's fields that the context setters and the
    checks of [visit_If] and [visit_Match] keep is kept by the whole
    traversal. *)
Lemma Polymorphism_visit_preserves (I : Polymorphism.visitor -> Prop) :
  (forall c v, I v -> I (Polymorphism.set_current_class c v)) ->
  (forall f v, I v -> I (Polymorphism.set_current_function f v)) ->
  (forall node p test v,
      I v -> I (Polymorphism.check_If file_path source cfg v node p test)) ->
  (forall p num_cases v,
      I v -> I (Polymorphism.check_Match file_path source cfg v p num_cases)) ->
  forall node v, I v -> I (Polymorphism.visit file_path source cfg v node).
Proof.
  intros Hclass Hfunction HIf HMatch node.
  induction node using Ast.stmt_ind; intros v Hv; cbn [Polymorphism.visit]; try done.
  - apply Hfunction. apply fold_left_preserves; [done|]. by apply Hfunction.
  - apply Hfunction. apply fold_left_preserves; [done|]. by apply Hfunction.
  - apply Hclass. apply fold_left_preserves; [done|]. by apply Hclass.
  - apply fold_left_preserves; [done|]. by apply fold_left_preserves.
  - apply fold_left_preserves; [done|]. by apply fold_left_preserves.
  - apply fold_left_preserves; [done|]. apply fold_left_preserves; [done|].
    by apply HIf.
  - apply (fold_left_cases_preserves
             (Polymorphism.visit file_path source cfg) I); [done|].
    by apply HMatch.
Qed.

(** The checks add violations through [report] only. *)
Lemma Polymorphism_checks_preserve (I : Polymorphism.visitor -> Prop) :
  (forall violation pattern d_isinstance d_type_attr d_long_chain v,
      I v ->
      RuleViolation.rule_name violation = "polymorphism" ->
      RuleViolation.file_path violation = file_path ->
      (PyDict.get "pattern" (RuleViolation.metadata violation),
       RuleViolation.severity violation, d_isinstance, d_type_attr, d_long_chain)
      ∈ [(Some (PStr "long_if_chain"), "warning", 0, 0, 1);
         (Some (PStr "isinstance_check"), "warning", 1, 0, 0);
         (Some (PStr "type_attribute"), "warning", 0, 1, 0);
         (Some (PStr "match_statement"), "info", 0, 0, 0)] ->
      I (Polymorphism.report violation pattern d_isinstance d_type_attr
           d_long_chain v)) ->
  (forall node p test v,
      I v -> I (Polymorphism.check_If file_path source cfg v node p test))
  /\ (forall p num_cases v,
        I v -> I (Polymorphism.check_Match file_path source cfg v p num_cases)).
Proof.
  intros Hreport. split.
  - intros node p test v Hv. unfold Polymorphism.check_If.
    assert (I (Polymorphism.check_long_chain file_path source cfg p node v)) as H1.
    { unfold Polymorphism.check_long_chain.
      destruct (_ <=? _); [|done].
      destruct (Polymorphism._analyze_if_pattern node); [|done].
      apply Hreport; [done | done | done |]. left. }
    assert (I (if Polymorphism.check_isinstance cfg
               then Polymorphism._check_isinstance_pattern file_path source p test
                      (Polymorphism.check_long_chain file_path source cfg p node v)
               else Polymorphism.check_long_chain file_path source cfg p node v))
      as H2.
    { destruct (Polymorphism.check_isinstance cfg); [|done].
      unfold Polymorphism._check_isinstance_pattern.
      destruct (Polymorphism._contains_isinstance test); [|done].
      apply Hreport; [done | done | done |]. right. left. }
    destruct (Polymorphism.check_type_attributes cfg); [|done].
    unfold Polymorphism._check_type_attribute_pattern.
    destruct (Polymorphism._get_type_attribute_check test); [|done].
    case_bool_decide; [done|].
    apply Hreport; [done | done | done |]. do 2 right. left.
  - intros p num_cases v Hv. unfold Polymorphism.check_Match.
    destruct (_ <=? _); [|done].
    apply Hreport; [done | done | done |]. do 3 right. left.
Qed.

End PolymorphismFacts.

Lemma count_snoc {A : Type} (P : A -> bool) (l : list A) (x : A) :
  Z.of_nat (length (List.filter P (l ++ [x])))
  = Z.of_nat (length (List.filter P l)) + Z.b2z (P x).
Proof.
  rewrite List.filter_app, length_app. cbn [List.filter].
  destruct (P x); cbn [length Z.b2z]; lia.
Qed.

(** X16. The counters in the summary of the polymorphism rule count its
    violations by pattern: [isinstance_checks], [type_attribute_checks] and
    [long_if_chains] are the numbers of violations of those three
    patterns; violations for [match] statements are counted by none of
    them, so [total_opportunities] is the sum of the three counters and the
    number of [match] violations.  The [match] violations have severity
    ["info"], all others ["warning"]; each violation carries the rule name
    and the path of the analysed file; the metadata lists one pattern
    record per violation. *)
Theorem polymorphism_counters_by_pattern
    (file_path source : string) (cfg : Polymorphism.settings) (tree : Ast.Module) :
  let result := Polymorphism.analyze file_path source cfg tree in
  let has_pattern (pattern : string) (x : RuleViolation.t) :=
    match PyDict.get "pattern" (RuleViolation.metadata x) with
    | Some (PStr s) => bool_decide (s = pattern)
    | _ => false
    end in
  let count (pattern : string) :=
    Z.of_nat (length (List.filter (has_pattern pattern)
                        (RuleResult.violations result))) in
  RuleResult.summary result
  = [("total_opportunities", PInt (RuleResult.violation_count result));
     ("isinstance_checks", PInt (count "isinstance_check"));
     ("type_attribute_checks", PInt (count "type_attribute"));
     ("long_if_chains", PInt (count "long_if_chain"))]
  /\ RuleResult.violation_count result
     = count "isinstance_check" + count "type_attribute" + count "long_if_chain"
       + count "match_statement"
  /\ Forall
       (fun x =>
          RuleViolation.rule_name x = "polymorphism"
          /\ RuleViolation.file_path x = file_path
          /\ RuleViolation.severity x
             = if has_pattern "match_statement" x then "info" else "warning")
       (RuleResult.violations result)
  /\ exists patterns,
       RuleResult.metadata result = [("patterns", PList patterns)]
       /\ length patterns = length (RuleResult.violations result).
Proof.
  intros result has_pattern count.
  set (counted (pattern : string) (l : list RuleViolation.t) :=
         Z.of_nat (length (List.filter (has_pattern pattern) l))).
  set (Q := fun x : RuleViolation.t =>
              RuleViolation.rule_name x = "polymorphism"
              /\ RuleViolation.file_path x = file_path
              /\ RuleViolation.severity x
                 = if has_pattern "match_statement" x then "info" else "warning").
  set (I := fun v : Polymorphism.visitor =>
              Polymorphism.isinstance_count v
              = counted "isinstance_check" (Polymorphism.violations v)
              /\ Polymorphism.type_attr_count v
                 = counted "type_attribute" (Polymorphism.violations v)
              /\ Polymorphism.long_chain_count v
                 = counted "long_if_chain" (Polymorphism.violations v)
              /\ Z.of_nat (length (Polymorphism.violations v))
                 = counted "isinstance_check" (Polymorphism.violations v)
                   + counted "type_attribute" (Polymorphism.violations v)
                   + counted "long_if_chain" (Polymorphism.violations v)
                   + counted "match_statement" (Polymorphism.violations v)
              /\ Forall Q (Polymorphism.violations v)
              /\ length (Polymorphism.patterns v)
                 = length (Polymorphism.violations v)).
  assert (I (fold_left (Polymorphism.visit file_path source cfg) (Ast.mod_body tree)
               Polymorphism.init_visitor)) as (Hi & Ht & Hl & Hsum & HQ & Hp).
  { apply fold_left_preserves; [|subst I counted; cbn; split_and!; done || constructor].
    apply Forall_forall. intros node _.
    destruct (Polymorphism_checks_preserve file_path source cfg I) as [HIf HMatch].
    - intros violation pattern d_i d_t d_l v (Hi & Ht & Hl & Hsum & HQ & Hp)
        Hname Hpath Hcase.
      subst I counted Q. cbv beta.
      cbn [Polymorphism.report Polymorphism.violations Polymorphism.isinstance_count
           Polymorphism.type_attr_count Polymorphism.long_chain_count
           Polymorphism.patterns].
      rewrite !count_snoc, !length_app, Forall_app, Forall_singleton, Nat2Z.inj_add,
        Hi, Ht, Hl, Hp, Hsum.
      clear Hi Ht Hl Hsum Hp. subst has_pattern. cbv beta.
      repeat (apply elem_of_cons in Hcase as [Hcase|Hcase];
              [injection Hcase as Hpat Hsev -> -> ->|]);
        [..|by apply elem_of_nil in Hcase];
        rewrite Hpat, Hsev;
        repeat match goal with
               | |- context [bool_decide (?a = ?b)] =>
                   let r := eval vm_compute in (bool_decide (a = b)) in
                   change (bool_decide (a = b)) with r
               end;
        cbn [length Z.b2z]; split_and!; first [lia | done].
    - by apply Polymorphism_visit_preserves. }
  subst result. unfold Polymorphism.analyze.
  cbn [RuleResult.summary RuleResult.metadata RuleResult.violations].
  unfold RuleResult.violation_count. cbn [RuleResult.violations].
  subst count. cbv beta. cbn [RuleResult.violations].
  fold (counted "isinstance_check") (counted "type_attribute")
    (counted "long_if_chain") (counted "match_statement").
  rewrite Hi, Ht, Hl.
  split_and!; [reflexivity | exact Hsum | exact HQ | eexists; split; [reflexivity|]].
  by rewrite length_map.
Qed.

Lemma fold_left_id {A B : Type} (f : A -> B -> A) (l : list B) (a : A) :
  Forall (fun x => f a x = a) l -> fold_left f l a = a.
Proof.
  induction 1 as [|x l Hx Hl IH]; [done|]. cbn [fold_left]. by rewrite Hx.
Qed.

Section FunctionsToObjectsFacts.

Variables (file_path source : string) (cfg : FunctionsToObjects.settings).

Lemma FunctionsToObjects_visit_preserves (I : FunctionsToObjects.visitor -> Prop) :
  (forall b v, I v -> I (FunctionsToObjects.set_in_class b v)) ->
  (forall is_async v node p fname a,
      I v ->
      I (FunctionsToObjects.check_function file_path source cfg is_async v node
           p fname a)) ->
  forall node v, I v -> I (FunctionsToObjects.visit file_path source cfg v node).
Proof.
  intros Hclass Hcheck node.
  induction node using Ast.stmt_ind; intros v Hv;
    cbn [FunctionsToObjects.visit]; try done.
  - apply fold_left_preserves; [done|]. by apply Hcheck.
  - apply fold_left_preserves; [done|]. by apply Hcheck.
  - apply Hclass. apply fold_left_preserves; [done|]. by apply Hclass.
  - apply fold_left_preserves; [done|]. by apply fold_left_preserves.
  - apply fold_left_preserves; [done|]. by apply fold_left_preserves.
  - apply fold_left_preserves; [done|]. by apply fold_left_preserves.
  - by apply (fold_left_cases_preserves
                (FunctionsToObjects.visit file_path source cfg) I).
Qed.

(** Inside a class the visitor records nothing. *)
Lemma FunctionsToObjects_visit_in_class node :
  forall v,
    FunctionsToObjects._in_class v = true ->
    FunctionsToObjects.visit file_path source cfg v node = v.
Proof.
  induction node using Ast.stmt_ind; intros v Hv;
    cbn [FunctionsToObjects.visit]; try done.
  - unfold FunctionsToObjects.check_function. rewrite Hv.
    apply fold_left_id. eapply Forall_impl; [eassumption|]. cbv beta. auto.
  - unfold FunctionsToObjects.check_function. rewrite Hv.
    apply fold_left_id. eapply Forall_impl; [eassumption|]. cbv beta. auto.
  - assert (FunctionsToObjects.set_in_class true v = v) as Hset
      by (destruct v; cbn in Hv; by subst).
    rewrite Hset, fold_left_id; [by destruct v|].
    eapply Forall_impl; [eassumption|]. cbv beta. auto.
  - rewrite (fold_left_id _ body v); [rewrite (fold_left_id _ orelse v); [done|]|];
      (eapply Forall_impl; [eassumption|]); cbv beta; auto.
  - rewrite (fold_left_id _ body v); [rewrite (fold_left_id _ orelse v); [done|]|];
      (eapply Forall_impl; [eassumption|]); cbv beta; auto.
  - rewrite (fold_left_id _ body v); [rewrite (fold_left_id _ orelse v); [done|]|];
      (eapply Forall_impl; [eassumption|]); cbv beta; auto.
  - apply fold_left_id. eapply Forall_impl; [eassumption|]. cbv beta.
    intros c Hc. apply fold_left_id. eapply Forall_impl; [exact Hc|].
    cbv beta. auto.
Qed.

Lemma FunctionsToObjects_visit_class v cname bases keywords body decorator_list :
  FunctionsToObjects.visit file_path source cfg v
    (Ast.ClassDef cname bases keywords body decorator_list) = v.
Proof.
  cbn [FunctionsToObjects.visit]. rewrite fold_left_id.
  - by destruct v.
  - apply Forall_forall. intros node _.
    by apply FunctionsToObjects_visit_in_class.
Qed.

End FunctionsToObjectsFacts.

(** X17. The functions_to_objects rule does not look at classes: a class
    definition among the statements of a module, with all the methods and
    nested functions in it, can be taken out of the module without changing
    the result of the rule; a module of classes only has no violation and
    no recorded function. *)
Theorem functions_to_objects_ignores_classes
    (file_path source : string) (cfg : FunctionsToObjects.settings)
    (before after : list Ast.stmt) (cname : string) (bases : list Ast.expr)
    (keywords : list (option string * Ast.expr)) (body : list Ast.stmt)
    (decorator_list : list Ast.expr) :
  FunctionsToObjects.analyze file_path source cfg
    (Ast.MkModule
       (before ++ Ast.ClassDef cname bases keywords body decorator_list :: after))
  = FunctionsToObjects.analyze file_path source cfg (Ast.MkModule (before ++ after))
  /\ RuleResult.violations
       (FunctionsToObjects.analyze file_path source cfg
          (Ast.MkModule [Ast.ClassDef cname bases keywords body decorator_list]))
     = []
  /\ PyDict.get "total_functions"
       (RuleResult.summary
          (FunctionsToObjects.analyze file_path source cfg
             (Ast.MkModule [Ast.ClassDef cname bases keywords body decorator_list])))
     = Some (PInt 0).
Proof.
  assert (forall l l',
    fold_left (FunctionsToObjects.visit file_path source cfg)
      (l ++ Ast.ClassDef cname bases keywords body decorator_list :: l')
      FunctionsToObjects.init_visitor
    = fold_left (FunctionsToObjects.visit file_path source cfg) (l ++ l')
        FunctionsToObjects.init_visitor) as Hfold.
  { intros l l'. rewrite !fold_left_app. cbn [fold_left].
    by rewrite FunctionsToObjects_visit_class. }
  split_and!.
  - unfold FunctionsToObjects.analyze. cbn [Ast.mod_body]. by rewrite Hfold.
  - unfold FunctionsToObjects.analyze. cbn [Ast.mod_body RuleResult.violations].
    change [Ast.ClassDef cname bases keywords body decorator_list]
      with ([] ++ [Ast.ClassDef cname bases keywords body decorator_list]).
    rewrite (Hfold [] []). cbn.
    by destruct (FunctionsToObjects.check_related_functions cfg).
  - unfold FunctionsToObjects.analyze. cbn [Ast.mod_body RuleResult.summary].
    change [Ast.ClassDef cname bases keywords body decorator_list]
      with ([] ++ [Ast.ClassDef cname bases keywords body decorator_list]).
    rewrite (Hfold [] []). reflexivity.
Qed.

Lemma length_omap_le {A B : Type} (f : A -> option B) (l : list A) :
  (length (omap f l) <= length l)%nat.
Proof.
  induction l as [|x l IH]; [done|]. cbn [omap list_omap length].
  destruct (f x); cbn [length]; lia.
Qed.

Lemma count_app {A : Type} (P : A -> bool) (l l' : list A) :
  Z.of_nat (length (List.filter P (l ++ l')))
  = Z.of_nat (length (List.filter P l)) + Z.of_nat (length (List.filter P l')).
Proof. rewrite List.filter_app, length_app. lia. Qed.

Lemma count_all {A : Type} (P : A -> bool) (l : list A) :
  Forall (fun x => P x = true) l ->
  Z.of_nat (length (List.filter P l)) = Z.of_nat (length l).
Proof.
  induction 1 as [|x l Hx Hl IH]; [done|]. cbn [List.filter]. rewrite Hx.
  cbn [length]. lia.
Qed.

Lemma count_none {A : Type} (P : A -> bool) (l : list A) :
  Forall (fun x => P x = false) l -> Z.of_nat (length (List.filter P l)) = 0.
Proof.
  induction 1 as [|x l Hx Hl IH]; [done|]. cbn [List.filter]. by rewrite Hx.
Qed.

(** X18. The violations of the functions_to_objects rule are of three
    patterns, all of severity ["info"]: [functions_with_many_params] and
    [functions_returning_dicts] in the summary count those of the first
    two, and the third, for groups of related functions, are at most
    [related_function_groups] many and none when [check_related_functions]
    is off.  A violation for many parameters reports a count above
    [max_params], and no violation names a function whose name starts with
    an underscore. *)
Theorem functions_to_objects_counters_by_pattern
    (file_path source : string) (cfg : FunctionsToObjects.settings)
    (tree : Ast.Module) :
  let result := FunctionsToObjects.analyze file_path source cfg tree in
  let has_pattern (pattern : string) (x : RuleViolation.t) :=
    match PyDict.get "pattern" (RuleViolation.metadata x) with
    | Some (PStr s) => bool_decide (s = pattern)
    | _ => false
    end in
  let count (pattern : string) :=
    Z.of_nat (length (List.filter (has_pattern pattern)
                        (RuleResult.violations result))) in
  (exists total groups,
      RuleResult.summary result
      = [("total_functions", PInt total);
         ("functions_with_many_params", PInt (count "many_parameters"));
         ("functions_returning_dicts", PInt (count "dict_return"));
         ("related_function_groups", PInt groups)]
      /\ count "related_functions" <= groups)
  /\ RuleResult.violation_count result
     = count "many_parameters" + count "dict_return" + count "related_functions"
  /\ (FunctionsToObjects.check_related_functions cfg = false ->
      count "related_functions" = 0)
  /\ Forall
       (fun x =>
          RuleViolation.rule_name x = "functions_to_objects"
          /\ RuleViolation.file_path x = file_path
          /\ RuleViolation.severity x = "info"
          /\ (has_pattern "many_parameters" x = true ->
              exists n,
                PyDict.get "param_count" (RuleViolation.metadata x) = Some (PInt n)
                /\ FunctionsToObjects.max_params cfg < n)
          /\ (forall fname,
                PyDict.get "function" (RuleViolation.metadata x) = Some (PStr fname) ->
                PyStr.startswith fname "_" = false))
       (RuleResult.violations result).
Proof.
  intros result has_pattern count.
  set (counted (pattern : string) (l : list RuleViolation.t) :=
         Z.of_nat (length (List.filter (has_pattern pattern) l))).
  match goal with |- _ /\ _ /\ _ /\ Forall ?Q' _ => set (Q := Q') end.
  assert (forall x pat p,
             PyDict.get "pattern" (RuleViolation.metadata x) = Some (PStr pat) ->
             has_pattern p x = bool_decide (pat = p)) as Hhp.
  { intros x pat p Hx. subst has_pattern. cbv beta. by rewrite Hx. }
  set (J := fun (l : list RuleViolation.t) (m d : Z) =>
              m = counted "many_parameters" l
              /\ d = counted "dict_return" l
              /\ counted "related_functions" l = 0
              /\ Z.of_nat (length l)
                 = counted "many_parameters" l + counted "dict_return" l
              /\ Forall Q l).
  assert (forall l m d x pat dm dd,
             J l m d -> Q x ->
             PyDict.get "pattern" (RuleViolation.metadata x) = Some (PStr pat) ->
             (pat, dm, dd) ∈ [("many_parameters", 1, 0); ("dict_return", 0, 1)] ->
             J (l ++ [x]) (m + dm) (d + dd)) as Hstep.
  { intros l m d x pat dm dd (Hm & Hd & Hr & Hsum & HQ) Hx Hpat Hcase.
    subst J counted. cbv beta in *.
    rewrite !count_snoc, !(Hhp x pat) by done.
    rewrite length_app, Nat2Z.inj_add, Forall_app, Forall_singleton.
    repeat (apply elem_of_cons in Hcase as [Hcase|Hcase];
            [injection Hcase as -> -> ->|]);
      [..|by apply elem_of_nil in Hcase];
      repeat match goal with
             | |- context [bool_decide (?a = ?b)] =>
                 let r := eval vm_compute in (bool_decide (a = b)) in
                 change (bool_decide (a = b)) with r
             end;
      cbn [length Z.b2z]; split_and!; first [lia | done]. }
  set (I := fun v : FunctionsToObjects.visitor =>
              J (FunctionsToObjects.violations v)
                (FunctionsToObjects.many_params_count v)
                (FunctionsToObjects.dict_return_count v)).
  set (v := fold_left (FunctionsToObjects.visit file_path source cfg)
              (Ast.mod_body tree) FunctionsToObjects.init_visitor).
  assert (I v) as (Hm & Hd & Hr & Hsum & HQ).
  { apply fold_left_preserves;
      [|subst I J counted; cbn; split_and!; done || constructor].
    apply Forall_forall. intros node _.
    apply FunctionsToObjects_visit_preserves; [intros b v0 Hv0; exact Hv0|].
    intros is_async v0 node0 p fname a Hv0.
    unfold FunctionsToObjects.check_function.
    destruct (FunctionsToObjects._in_class v0); [done|].
    cbv zeta. subst I. cbv beta in *.
    cbn [FunctionsToObjects.violations FunctionsToObjects.many_params_count
         FunctionsToObjects.dict_return_count].
    rewrite app_assoc.
    assert (J (FunctionsToObjects.violations v0
               ++ (if (FunctionsToObjects.max_params cfg
                       <? FunctionsToObjects._count_params a)
                      && negb (PyStr.startswith fname "_")
                   then [FunctionsToObjects.many_params_violation file_path source
                           p fname (FunctionsToObjects._count_params a)]
                   else []))
              (if (FunctionsToObjects.max_params cfg
                   <? FunctionsToObjects._count_params a)
                  && negb (PyStr.startswith fname "_")
               then FunctionsToObjects.many_params_count v0 + 1
               else FunctionsToObjects.many_params_count v0)
              (FunctionsToObjects.dict_return_count v0)) as Hmany.
    { destruct ((FunctionsToObjects.max_params cfg
                 <? FunctionsToObjects._count_params a)
                && negb (PyStr.startswith fname "_")) eqn:E;
        [|by rewrite app_nil_r].
      apply andb_prop in E as [Hlt Hpub]. apply Z.ltb_lt in Hlt.
      apply negb_true_iff in Hpub.
      rewrite <- (Z.add_0_r (FunctionsToObjects.dict_return_count v0)).
      eapply Hstep; [done | | reflexivity | left].
      subst Q. cbv beta. split_and!; [done..| |].
      - intros _. eexists. split; [reflexivity | done].
      - intros fname' [= <-]. done. }
    destruct ((if FunctionsToObjects.check_dict_returns cfg
               then FunctionsToObjects._returns_dict node0 else false)
              && negb (PyStr.startswith fname "_")) eqn:E;
      [|by rewrite app_nil_r].
    apply andb_prop in E as [_ Hpub]. apply negb_true_iff in Hpub.
    match goal with
    | |- J _ ?m _ => rewrite <- (Z.add_0_r m)
    end.
    eapply Hstep; [exact Hmany | | reflexivity | right; left].
    subst Q. cbv beta. split_and!; [done..| |].
    - rewrite (Hhp _ "dict_return") by reflexivity. discriminate.
    - intros fname' [= <-]. done. }
  assert (let related :=
            if FunctionsToObjects.check_related_functions cfg
            then FunctionsToObjects._check_related_functions file_path
                   (FunctionsToObjects.functions v)
            else [] in
          Forall (fun x => Q x
                           /\ PyDict.get "pattern" (RuleViolation.metadata x)
                              = Some (PStr "related_functions")) related
          /\ (length related
              <= length (FunctionsToObjects._find_function_groups
                           (FunctionsToObjects.functions v)))%nat) as [Hrel Hlen].
  { cbv zeta. destruct (FunctionsToObjects.check_related_functions cfg);
      [|split; [constructor | cbn; lia]].
    split; [|apply length_omap_le].
    unfold FunctionsToObjects._check_related_functions.
    apply Forall_forall. intros x Hx.
    apply list_elem_of_omap in Hx as ([prefix funcs] & _ & Hx).
    case_bool_decide; [|discriminate]. injection Hx as <-.
    split; [|reflexivity]. subst Q. cbv beta.
    split_and!; [done..| |].
    - rewrite (Hhp _ "related_functions") by reflexivity. discriminate.
    - intros fname'. discriminate. }
  assert (counted "related_functions"
            (if FunctionsToObjects.check_related_functions cfg
             then FunctionsToObjects._check_related_functions file_path
                    (FunctionsToObjects.functions v)
             else [])
          = Z.of_nat (length
                        (if FunctionsToObjects.check_related_functions cfg
                         then FunctionsToObjects._check_related_functions file_path
                                (FunctionsToObjects.functions v)
                         else []))) as Hrel_all.
  { apply count_all. eapply Forall_impl; [exact Hrel|]. cbv beta.
    intros x [_ Hx]. by rewrite (Hhp _ _ _ Hx). }
  assert (forall p, p <> "related_functions" ->
            counted p
              (if FunctionsToObjects.check_related_functions cfg
               then FunctionsToObjects._check_related_functions file_path
                      (FunctionsToObjects.functions v)
               else []) = 0) as Hrel_none.
  { intros p Hp. apply count_none. eapply Forall_impl; [exact Hrel|]. cbv beta.
    intros x [_ Hx]. rewrite (Hhp _ _ _ Hx). by apply bool_decide_eq_false_2. }
  assert (forall p l l', counted p (l ++ l') = counted p l + counted p l') as Happ.
  { intros p l l'. unfold counted. apply count_app. }
  subst count result. cbv beta. unfold FunctionsToObjects.analyze. fold v.
  cbn [RuleResult.summary RuleResult.violations].
  unfold RuleResult.violation_count. cbn [RuleResult.violations].
  repeat change (Z.of_nat (length (List.filter (has_pattern ?p) ?l)))
    with (counted p l).
  set (related := if FunctionsToObjects.check_related_functions cfg
                  then FunctionsToObjects._check_related_functions file_path
                         (FunctionsToObjects.functions v)
                  else []) in *.
  rewrite !Happ, !Hrel_none, Hrel_all, Hr, <- Hm, <- Hd by done.
  rewrite length_app, Nat2Z.inj_add, Hsum, <- Hm, <- Hd, !Z.add_0_r.
  split_and!.
  - eexists _, _. split; [reflexivity|]. lia.
  - lia.
  - intros Hoff. subst related. by rewrite Hoff.
  - apply Forall_app. split; [exact HQ|].
    eapply Forall_impl; [exact Hrel|]. by intros x [? _].
Qed.

Section EncapsulationInvariants.

Variables (file_path source : string) (cfg : Encapsulation.settings).

Lemma Encapsulation_visit_expr_preserves (I : Encapsulation.visitor -> Prop) :
  (forall is_call_target is_class_base v node p,
      I v ->
      I (Encapsulation.check_Attribute file_path source cfg is_call_target
           is_class_base v node p)) ->
  forall node is_call_target is_class_base v,
    I v ->
    I (Encapsulation.visit_expr file_path source cfg is_call_target is_class_base
         v node).
Proof.
  intros Hcheck node.
  induction node using Ast.expr_ind; intros is_call_target is_class_base v Hv;
    cbn [Encapsulation.visit_expr]; try done.
  - apply fold_left_preserves; [|done].
    eapply Forall_impl; [eassumption|]. cbv beta. auto.
  - auto.
  - auto.
  - auto.
  - apply fold_left_preserves.
    + eapply Forall_impl; [eassumption|]. cbv beta. auto.
    + apply fold_left_preserves; [|done].
      eapply Forall_impl; [eassumption|]. cbv beta. intros [k|]; auto.
  - apply fold_left_preserves; [|auto].
    eapply Forall_impl; [eassumption|]. cbv beta. auto.
  - apply fold_left_preserves.
    + eapply Forall_impl; [eassumption|]. cbv beta. auto.
    + apply fold_left_preserves; [|auto].
      eapply Forall_impl; [eassumption|]. cbv beta. auto.
  - auto.
  - auto.
  - apply fold_left_preserves; [|done].
    eapply Forall_impl; [eassumption|]. cbv beta. auto.
  - apply fold_left_preserves; [|done].
    eapply Forall_impl; [eassumption|]. cbv beta. auto.
Qed.

Lemma Encapsulation_visit_preserves (I : Encapsulation.visitor -> Prop) :
  (forall is_call_target is_class_base v node p,
      I v ->
      I (Encapsulation.check_Attribute file_path source cfg is_call_target
           is_class_base v node p)) ->
  (forall m v, I v -> I (Encapsulation.add_import m v)) ->
  (forall in_class c v, I v -> I (Encapsulation.set_class in_class c v)) ->
  forall node v, I v -> I (Encapsulation.visit file_path source cfg v node).
Proof.
  intros Hcheck Himport Hclass.
  assert (forall is_call_target is_class_base es v,
             I v ->
             I (fold_left
                  (Encapsulation.visit_expr file_path source cfg is_call_target
                     is_class_base) es v)) as Hexprs.
  { intros is_call_target is_class_base es. apply fold_left_preserves.
    apply Forall_forall. intros e _ v Hv.
    by apply Encapsulation_visit_expr_preserves. }
  intros node.
  induction node using Ast.stmt_ind; intros v Hv;
    cbn [Encapsulation.visit]; unfold Encapsulation.visit_exprs; try done.
  - apply Hexprs. apply Hexprs. apply fold_left_preserves; [done|]. by apply Hexprs.
  - apply Hexprs. apply Hexprs. apply fold_left_preserves; [done|]. by apply Hexprs.
  - apply Hclass. apply Hexprs. apply fold_left_preserves; [done|].
    apply Hexprs. apply Hexprs. by apply Hclass.
  - by apply Hexprs.
  - apply Hexprs. by apply Hexprs.
  - apply fold_left_preserves; [done|]. apply fold_left_preserves; [done|].
    by apply Hexprs.
  - apply fold_left_preserves; [done|]. apply fold_left_preserves; [done|].
    by apply Hexprs.
  - apply fold_left_preserves; [done|]. apply fold_left_preserves; [done|].
    by apply Hexprs.
  - apply fold_left_preserves; [|by apply Hexprs].
    eapply Forall_impl; [eassumption|]. cbv beta. intros c Hc v' Hv'.
    apply fold_left_preserves; [done|]. by apply Hexprs.
  - unfold Encapsulation.check_Import. apply fold_left_preserves; [|done].
    apply Forall_forall. intros alias _ v' Hv'. by apply Himport.
  - unfold Encapsulation.check_ImportFrom. destruct module as [m|]; [|done].
    case_bool_decide; [done|]. apply fold_left_preserves; [|done].
    apply Forall_forall. intros alias _ v' Hv'.
    destruct (Ast.asname alias); [case_bool_decide|]; by apply Himport.
  - by apply Hexprs.
Qed.

End EncapsulationInvariants.

(** X19. Every violation of the encapsulation rule is for an access
    [base.a1. ... .an] with at least one attribute whose last attribute is
    not written in capitals and underscores only and whose base is none of
    the module names [os], [sys], [math], [typing], [collections] and
    [functools]; with [allow_self_access] the base is not [self] or [cls],
    with [allow_dunder_access] no attribute is a dunder name, with
    [allow_private_access] no attribute starts with an underscore.  The
    metadata holds the base, the attributes and their number, and the
    violation carries the rule name, the path of the analysed file and the
    severity ["warning"]. *)
Theorem encapsulation_exemptions_hold
    (file_path source : string) (cfg : Encapsulation.settings) (tree : Ast.Module) :
  Forall
    (fun x =>
       (exists base attrs,
           RuleViolation.metadata x
           = [("base_object", PStr base);
              ("accessed_attributes", PList (map PStr attrs));
              ("chain_length", PInt (Z.of_nat (length attrs)))]
           /\ attrs <> []
           /\ Encapsulation.looks_constant (List.last attrs "") = false
           /\ (base ∉ Encapsulation.common_modules)
           /\ (Encapsulation.allow_self_access cfg = true ->
               base <> "self" /\ base <> "cls")
           /\ (Encapsulation.allow_dunder_access cfg = true ->
               existsb Encapsulation.is_dunder attrs = false)
           /\ (Encapsulation.allow_private_access cfg = true ->
               existsb (fun attr => PyStr.startswith attr "_") attrs = false))
       /\ RuleViolation.rule_name x = "encapsulation"
       /\ RuleViolation.file_path x = file_path
       /\ RuleViolation.severity x = "warning")
    (RuleResult.violations (Encapsulation.analyze file_path source cfg tree)).
Proof.
  unfold Encapsulation.analyze. cbn [RuleResult.violations].
  match goal with |- Forall ?Q' _ => set (Q := Q') end.
  apply (fold_left_preserves _ (fun v => Forall Q (Encapsulation.violations v)));
    [|constructor].
  apply Forall_forall. intros node _.
  apply (Encapsulation_visit_preserves file_path source cfg
           (fun v => Forall Q (Encapsulation.violations v)));
    [|by intros m v Hv|by intros in_class c v Hv].
  intros is_call_target is_class_base v e p Hv.
  unfold Encapsulation.check_Attribute.
  destruct is_call_target; [done|]. destruct is_class_base; [done|].
  destruct (Encapsulation._get_attribute_chain e) as [|base attrs]; [done|].
  destruct (Encapsulation.allow_self_access cfg && PyStr.mem base ["self"; "cls"])
    eqn:Hself; [done|].
  destruct (bool_decide (base ∈ Encapsulation._imported_modules v) && _); [done|].
  destruct (Encapsulation.allow_dunder_access cfg
            && existsb Encapsulation.is_dunder attrs) eqn:Hdunder; [done|].
  destruct (Encapsulation.allow_private_access cfg
            && existsb (fun attr => PyStr.startswith attr "_") attrs) eqn:Hprivate;
    [done|].
  destruct attrs as [|attr attrs]; [done|].
  unfold Encapsulation._create_violation.
  destruct (Encapsulation.looks_constant (List.last (attr :: attrs) "")) eqn:Hconst;
    [done|].
  destruct (PyStr.mem base Encapsulation.common_modules) eqn:Hcommon; [done|].
  cbn [Encapsulation.add_violation Encapsulation.violations].
  apply Forall_app. split; [done|]. constructor; [|constructor].
  subst Q. cbv beta.
  cbn [RuleViolation.metadata RuleViolation.rule_name RuleViolation.file_path
       RuleViolation.severity].
  split_and!; [|done..]. exists base, (attr :: attrs).
  split_and!; [done | done | done | | | |].
  - unfold PyStr.mem in Hcommon. by apply bool_decide_eq_false_1 in Hcommon.
  - intros Hallow. rewrite Hallow in Hself. cbn [andb] in Hself.
    unfold PyStr.mem in Hself. apply bool_decide_eq_false_1 in Hself.
    split; intros ->; apply Hself; [left | right; left].
  - intros Hallow. by rewrite Hallow in Hdunder.
  - intros Hallow. by rewrite Hallow in Hprivate.
Qed.

Section TypeCodeInvariants.

Variables (file_path source : string) (cfg : TypeCode.settings).

Lemma TypeCode_visit_preserves (I : TypeCode.visitor -> Prop) :
  (forall v node p, I v -> I (TypeCode.check_If file_path source cfg v node p)) ->
  (forall v p subject num_cases,
      I v -> I (TypeCode.check_Match file_path source cfg v p subject num_cases)) ->
  (forall c v, I v -> I (TypeCode.set_current_class c v)) ->
  (forall f v, I v -> I (TypeCode.set_current_function f v)) ->
  forall node v, I v -> I (TypeCode.visit file_path source cfg v node).
Proof.
  intros Hif Hmatch Hclass Hfunction node.
  induction node using Ast.stmt_ind; intros v Hv; cbn [TypeCode.visit]; try done.
  - apply Hfunction. apply fold_left_preserves; [done|]. by apply Hfunction.
  - apply Hfunction. apply fold_left_preserves; [done|]. by apply Hfunction.
  - apply Hclass. apply fold_left_preserves; [done|]. by apply Hclass.
  - apply fold_left_preserves; [done|]. by apply fold_left_preserves.
  - apply fold_left_preserves; [done|]. by apply fold_left_preserves.
  - apply fold_left_preserves; [done|]. apply fold_left_preserves; [done|].
    by apply Hif.
  - apply fold_left_preserves; [|by apply Hmatch].
    eapply Forall_impl; [eassumption|]. cbv beta. intros c Hc v' Hv'.
    by apply fold_left_preserves.
Qed.

(** [_analyze_condition] only moves the counters, and every branch it
    recognises has [is_type_code] set. *)
Lemma analyze_condition_reports test v :
  TypeCode.violations (TypeCode._analyze_condition cfg v test).1
  = TypeCode.violations v
  /\ TypeCode.patterns (TypeCode._analyze_condition cfg v test).1
     = TypeCode.patterns v
  /\ forall info,
      (TypeCode._analyze_condition cfg v test).2 = Some info ->
      TypeCode.is_type_code info = true.
Proof.
  assert (forall lhs comparators,
             TypeCode.violations (TypeCode._analyze_compare cfg v lhs comparators).1
             = TypeCode.violations v
             /\ TypeCode.patterns (TypeCode._analyze_compare cfg v lhs comparators).1
                = TypeCode.patterns v
             /\ forall info,
                 (TypeCode._analyze_compare cfg v lhs comparators).2 = Some info ->
                 TypeCode.is_type_code info = true) as Hcompare.
  { intros lhs comparators. unfold TypeCode._analyze_compare.
    repeat match goal with
           | |- context [match ?x with _ => _ end] => destruct x
           end;
      cbn [fst snd]; (split_and!; [done | done |]); intros info Hinfo;
      by simplify_eq. }
  induction test using Ast.expr_ind; cbn [TypeCode._analyze_condition];
    try (split_and!; [done | done | by intros info Hinfo]).
  - destruct values as [|first values];
      [split_and!; [done | done | by intros info Hinfo]|].
    by apply Forall_inv in H.
  - apply Hcompare.
Qed.

Lemma analyze_branches_reports tests v :
  TypeCode.violations (TypeCode.analyze_branches cfg v tests).1
  = TypeCode.violations v
  /\ TypeCode.patterns (TypeCode.analyze_branches cfg v tests).1
     = TypeCode.patterns v
  /\ Forall (fun info => TypeCode.is_type_code info = true)
       (TypeCode.analyze_branches cfg v tests).2.
Proof.
  unfold TypeCode.analyze_branches.
  assert (forall acc,
             Forall (fun info => TypeCode.is_type_code info = true) acc.2 ->
             let r :=
               fold_left
                 (fun acc test =>
                    let '(v, branches) := acc in
                    match TypeCode._analyze_condition cfg v test with
                    | (v', Some info) => (v', branches ++ [info])
                    | (v', None) => (v', branches)
                    end) tests acc in
             TypeCode.violations r.1 = TypeCode.violations acc.1
             /\ TypeCode.patterns r.1 = TypeCode.patterns acc.1
             /\ Forall (fun info => TypeCode.is_type_code info = true) r.2) as Hfold.
  { induction tests as [|test tests IH]; intros [v0 branches] Hacc; [done|].
    cbn [fold_left]. cbv zeta.
    destruct (analyze_condition_reports test v0) as (Hviol & Hpat & Hinfo).
    destruct (TypeCode._analyze_condition cfg v0 test) as [v1 [info|]] eqn:Hcond;
      cbn [fst snd] in *.
    - destruct (IH (v1, branches ++ [info])) as (IH1 & IH2 & IH3).
      { cbn [snd]. apply Forall_app. split; [done|]. constructor; [|done]. auto. }
      cbn [fst] in IH1, IH2. rewrite IH1, IH2. done.
    - destruct (IH (v1, branches)) as (IH1 & IH2 & IH3); [done|].
      cbn [fst] in IH1, IH2. rewrite IH1, IH2. done. }
  apply (Hfold (v, [])). constructor.
Qed.

Lemma filter_all {A} (f : A -> bool) (l : list A) :
  Forall (fun x => f x = true) l -> List.filter f l = l.
Proof.
  induction 1 as [|x l Hx Hl IH]; [done|]. cbn [List.filter]. by rewrite Hx, IH.
Qed.

End TypeCodeInvariants.

(** X20. Every violation of the type_code rule is one of two kinds.  For
    an if/elif chain, [branch_count] is the number of values in
    [comparison_values] (the branches whose test the rule recognised, not
    the branches of the chain), there is at least one, and there are at
    least [min_branches].  For a [match] statement, [case_count] is at
    least [min_branches].  The metadata of the result lists one pattern
    for each violation, with the line of the violation. *)
Theorem type_code_violations_meet_threshold
    (file_path source : string) (cfg : TypeCode.settings) (tree : Ast.Module) :
  let result := TypeCode.analyze file_path source cfg tree in
  Forall
    (fun x =>
       (exists attribute pattern_type values function class,
           RuleViolation.metadata x
           = [("pattern", PStr "type_code_conditional");
              ("checked_attribute", PStr attribute);
              ("branch_count", PInt (Z.of_nat (length values)));
              ("pattern_type", PStr pattern_type);
              ("comparison_values", PList (map PStr values));
              ("function", function);
              ("class", class)]
           /\ values <> []
           /\ TypeCode.min_branches cfg <= Z.of_nat (length values))
       \/ (exists subject case_count function class,
              RuleViolation.metadata x
              = [("pattern", PStr "match_type_code");
                 ("subject", PStr subject);
                 ("case_count", PInt case_count);
                 ("function", function);
                 ("class", class)]
              /\ TypeCode.min_branches cfg <= case_count))
    (RuleResult.violations result)
  /\ exists patterns,
      RuleResult.metadata result = [("patterns", PList (map PDict patterns))]
      /\ map (PyDict.get "line") patterns
         = map (fun x => Some (PInt (RuleViolation.line x)))
             (RuleResult.violations result).
Proof.
  cbv zeta. unfold TypeCode.analyze.
  cbn [RuleResult.violations RuleResult.metadata].
  match goal with |- Forall ?Q' _ /\ _ => set (Q := Q') end.
  set (I := fun v =>
              Forall Q (TypeCode.violations v)
              /\ map (PyDict.get "line") (TypeCode.patterns v)
                 = map (fun x => Some (PInt (RuleViolation.line x)))
                     (TypeCode.violations v)).
  assert (I (fold_left (TypeCode.visit file_path source cfg) (Ast.mod_body tree)
               TypeCode.init_visitor)) as [Hviolations Hpatterns].
  2: { split; [done|]. eexists. split; [reflexivity | done]. }
  apply (fold_left_preserves _ I); [|by split; [constructor|]].
  apply Forall_forall. intros node _.
  apply (TypeCode_visit_preserves file_path source cfg I);
    [| |by intros c v Hv|by intros f v Hv].
  - intros v node' p [Hv1 Hv2]. unfold TypeCode.check_If, TypeCode._analyze_if_chain.
    destruct (analyze_branches_reports cfg (Ast.chain_tests node') v)
      as (Hviol & Hpat & Hall).
    destruct (TypeCode.analyze_branches cfg v (Ast.chain_tests node'))
      as [v' branches].
    cbn [fst snd] in Hviol, Hpat, Hall.
    assert (I v') as Hv' by (by split; rewrite ?Hviol, ?Hpat).
    destruct (Z.of_nat (length branches) <? TypeCode.min_branches cfg); [done|].
    rewrite (filter_all _ _ Hall).
    destruct (TypeCode.min_branches cfg <=? Z.of_nat (length branches)) eqn:Hmin;
      [|done].
    destruct branches as [|first branches]; [done|].
    case_bool_decide; [|done].
    cbn [TypeCode.is_type_code_pattern]. unfold TypeCode._add_violation.
    cbn [TypeCode.chain_checked_attribute TypeCode.branch_count
         TypeCode.chain_pattern_type TypeCode.comparison_values].
    destruct Hv' as [Hv'1 Hv'2].
    split; cbn [TypeCode.report TypeCode.violations TypeCode.patterns].
    + apply Forall_app. split; [done|]. constructor; [|constructor].
      subst Q. cbv beta. left. cbn [RuleViolation.metadata].
      eexists _, _, (map TypeCode.compared_to (first :: branches)), _, _.
      split_and!.
      * by rewrite length_map.
      * done.
      * rewrite length_map. by apply Z.leb_le.
    + rewrite !map_app, Hv'2. reflexivity.
  - intros v p subject num_cases [Hv1 Hv2]. unfold TypeCode.check_Match.
    destruct (TypeCode._is_type_code_subject subject); [|done].
    destruct (TypeCode.min_branches cfg <=? num_cases) eqn:Hmin; [|done].
    unfold TypeCode._add_match_violation.
    split; cbn [TypeCode.report TypeCode.violations TypeCode.patterns].
    + apply Forall_app. split; [done|]. constructor; [|constructor].
      subst Q. cbv beta. right. cbn [RuleViolation.metadata].
      eexists _, _, _, _. split; [reflexivity|]. by apply Z.leb_le.
    + rewrite !map_app, Hv2. reflexivity.
Qed.

Section TypeCodeChains.

Variables (file_path source : string) (cfg : TypeCode.settings).

Lemma chain_tests_if_chain p test body rest final :
  forallb Ast.is_simple_stmt final = true ->
  Ast.chain_tests (Ast.if_chain p test body rest final)
  = test :: map (fun b => b.1.2) rest.
Proof.
  intros Hfinal. revert p test body.
  induction rest as [|[[p' test'] body'] rest IH]; intros p test body.
  - cbn [Ast.if_chain Ast.chain_tests map]. f_equal.
    destruct final as [|s [|s' final]]; [done| |done].
    by destruct s.
  - cbn [Ast.if_chain Ast.chain_tests map]. f_equal.
    transitivity (Ast.chain_tests (Ast.if_chain p' test' body' rest final));
      [by destruct rest as [|[[? ?] ?] ?] | apply IH].
Qed.

Lemma iter_incr_type_attr k v :
  TypeCode.violations (Nat.iter k TypeCode.incr_type_attr v) = TypeCode.violations v
  /\ TypeCode.patterns (Nat.iter k TypeCode.incr_type_attr v) = TypeCode.patterns v
  /\ TypeCode.type_attr_count (Nat.iter k TypeCode.incr_type_attr v)
     = TypeCode.type_attr_count v + Z.of_nat k.
Proof.
  induction k as [|k (IH1 & IH2 & IH3)]; [split_and!; [done | done | cbn; lia]|].
  rewrite Nat.iter_succ, Nat2Z.inj_succ.
  destruct (Nat.iter k TypeCode.incr_type_attr v) as [? ? ? ? ? ? ?].
  unfold TypeCode.incr_type_attr.
  cbn [TypeCode.violations TypeCode.patterns TypeCode.type_attr_count] in *.
  split_and!; [done | done | lia].
Qed.

Lemma analyze_branches_type_attr attribute tests v :
  Forall
    (fun test =>
       exists lhs ops comparators,
         test = Ast.Compare lhs ops comparators
         /\ TypeCode._is_type_code_subject lhs = true
         /\ Ast.dotted_name lhs = attribute)
    tests ->
  exists branches,
    TypeCode.analyze_branches cfg v tests
    = (Nat.iter (length tests) TypeCode.incr_type_attr v, branches)
    /\ length branches = length tests
    /\ Forall
         (fun info =>
            TypeCode.is_type_code info = true
            /\ TypeCode.checked_attribute info = attribute)
         branches.
Proof.
  intros Htests. unfold TypeCode.analyze_branches.
  assert (forall acc : list TypeCode.branch_info,
             exists branches,
               fold_left
                 (fun acc test =>
                    let '(v, branches) := acc in
                    match TypeCode._analyze_condition cfg v test with
                    | (v', Some info) => (v', branches ++ [info])
                    | (v', None) => (v', branches)
                    end) tests (v, acc)
               = (Nat.iter (length tests) TypeCode.incr_type_attr v, acc ++ branches)
               /\ length branches = length tests
               /\ Forall
                    (fun info =>
                       TypeCode.is_type_code info = true
                       /\ TypeCode.checked_attribute info = attribute)
                    branches) as Hfold.
  { revert v. induction Htests as [|test tests Htest Htests IH]; intros v acc.
    - exists []. by rewrite app_nil_r.
    - destruct Htest as (lhs & ops & comparators & -> & Hsubject & Hname).
      cbn [fold_left TypeCode._analyze_condition]. unfold TypeCode._analyze_compare.
      change (match lhs with
              | Ast.Attribute _ _ attr =>
                  PyStr.mem (PyStr.lower attr) TypeCode.TYPE_CODE_ATTRIBUTES
              | _ => false
              end) with (TypeCode._is_type_code_subject lhs).
      rewrite Hsubject.
      destruct (IH (TypeCode.incr_type_attr v)
                  (acc ++ [TypeCode.mkBranch true (TypeCode._get_full_attribute lhs)
                             (TypeCode._get_comparison_value comparators)
                             (TypeCode._classify_comparison_value comparators)]))
        as (branches & Hrun & Hlen & Hall).
      eexists (_ :: branches). split_and!.
      + rewrite Hrun. cbn [length]. rewrite Nat.iter_succ_r.
        by rewrite <- app_assoc.
      + cbn [length]. by rewrite Hlen.
      + constructor; [|done]. by split. }
  destruct (Hfold []) as (branches & Hrun & Hrest). by exists branches.
Qed.

Lemma size_list_to_set_all_equal (x : string) (l : list string) :
  l <> [] -> Forall (fun y => y = x) l ->
  size (list_to_set l : gset string) = 1%nat.
Proof.
  intros Hne Hall.
  assert ((list_to_set l : gset string) = {[x]}) as ->; [|apply size_singleton].
  apply set_eq. intros y. rewrite elem_of_list_to_set, elem_of_singleton.
  rewrite Forall_forall in Hall. split; [by apply Hall|].
  intros ->. destruct l as [|z l]; [done|].
  rewrite (Hall z) by left. left.
Qed.

(** [visit_If] at the head of a chain of [n] tests of one type
    attribute: [n] attribute checks are counted, and the chain is reported
    when [min_branches <= n]. *)
Lemma check_If_chain attribute final p test body rest v :
  forallb Ast.is_simple_stmt final = true ->
  Forall
    (fun b =>
       (exists lhs ops comparators,
           b.1.2 = Ast.Compare lhs ops comparators
           /\ TypeCode._is_type_code_subject lhs = true
           /\ Ast.dotted_name lhs = attribute)
       /\ forallb Ast.is_simple_stmt b.2 = true)
    ((p, test, body) :: rest) ->
  let n := Z.of_nat (length ((p, test, body) :: rest)) in
  let node := Ast.if_chain p test body rest final in
  exists w,
    TypeCode.violations w = TypeCode.violations v
    /\ TypeCode.type_attr_count w = TypeCode.type_attr_count v + n
    /\ ((n < TypeCode.min_branches cfg
         /\ TypeCode.check_If file_path source cfg v node p = w)
        \/ (TypeCode.min_branches cfg <= n
            /\ exists info,
                TypeCode.branch_count info = n
                /\ TypeCode.check_If file_path source cfg v node p
                   = TypeCode._add_violation file_path source p info w)).
Proof.
  intros Hfinal Hall. cbv zeta.
  assert (Forall
            (fun test =>
               exists lhs ops comparators,
                 test = Ast.Compare lhs ops comparators
                 /\ TypeCode._is_type_code_subject lhs = true
                 /\ Ast.dotted_name lhs = attribute)
            (Ast.chain_tests (Ast.if_chain p test body rest final))) as Htests.
  { rewrite chain_tests_if_chain by done.
    change (test :: map (fun b => b.1.2) rest)
      with (map (fun b : Ast.pos * Ast.expr * list Ast.stmt => b.1.2)
              ((p, test, body) :: rest)).
    apply Forall_map. eapply Forall_impl; [exact Hall|]. by intros b [Hb _]. }
  destruct (analyze_branches_type_attr attribute _ v Htests)
    as (branches & Hrun & Hlen & Hbranches).
  assert (length (Ast.chain_tests (Ast.if_chain p test body rest final))
          = length ((p, test, body) :: rest)) as Hchain
    by (rewrite chain_tests_if_chain by done; cbn [length];
        by rewrite length_map).
  rewrite Hchain in Hrun, Hlen.
  assert (List.filter TypeCode.is_type_code branches = branches) as Hfilter.
  { apply filter_all. eapply Forall_impl; [exact Hbranches|]. by intros b [Hb _]. }
  destruct (iter_incr_type_attr (length ((p, test, body) :: rest)) v)
    as (Hviol & _ & Hcount).
  assert (bool_decide
            (size (list_to_set (map TypeCode.checked_attribute branches)
                   : gset string) = 1%nat) = true) as Hsize.
  { apply bool_decide_eq_true_2, (size_list_to_set_all_equal attribute).
    - by destruct branches.
    - apply Forall_map. eapply Forall_impl; [exact Hbranches|]. by intros b [_ Hb]. }
  eexists. split; [exact Hviol|]. split; [exact Hcount|].
  unfold TypeCode.check_If, TypeCode._analyze_if_chain. rewrite Hrun, Hfilter, Hlen.
  destruct (Z.of_nat (length ((p, test, body) :: rest)) <? TypeCode.min_branches cfg)
    eqn:Hmin.
  - left. by apply Z.ltb_lt in Hmin.
  - right. apply Z.ltb_ge in Hmin. split; [done|].
    destruct (TypeCode.min_branches cfg <=? _) eqn:Hmin'; [|lia].
    destruct branches as [|first branches]; [done|].
    rewrite Hsize. cbn [TypeCode.is_type_code_pattern].
    eexists. split; [|reflexivity]. reflexivity.
Qed.

(** Visiting a chain of [n] tests of one type attribute: the chain that
    starts at each branch is analysed again. *)
Lemma visit_if_chain attribute final :
  forallb Ast.is_simple_stmt final = true ->
  forall rest p test body v,
    Forall
      (fun b =>
         (exists lhs ops comparators,
             b.1.2 = Ast.Compare lhs ops comparators
             /\ TypeCode._is_type_code_subject lhs = true
             /\ Ast.dotted_name lhs = attribute)
         /\ forallb Ast.is_simple_stmt b.2 = true)
      ((p, test, body) :: rest) ->
    let n := Z.of_nat (length ((p, test, body) :: rest)) in
    let v' :=
      TypeCode.visit file_path source cfg v (Ast.if_chain p test body rest final) in
    exists new,
      TypeCode.violations v' = TypeCode.violations v ++ new
      /\ map
           (fun x =>
              (RuleViolation.line x,
               PyDict.get "branch_count" (RuleViolation.metadata x)))
           new
         = take (Z.to_nat (n + 1 - Z.max 1 (TypeCode.min_branches cfg)))
             (imap (fun i b => (Ast.lineno b.1.1, Some (PInt (n - Z.of_nat i))))
                ((p, test, body) :: rest))
      /\ 2 * (TypeCode.type_attr_count v' - TypeCode.type_attr_count v)
         = n * (n + 1).
Proof.
  intros Hfinal rest.
  induction rest as [|[[p' test'] body'] rest IH]; intros p test body v Hall;
    cbv zeta.
  all: pose proof Hall as Hall'.
  all: apply Forall_cons in Hall' as [[_ Hbody] Hrest].
  all: cbn [snd] in Hbody.
  all: destruct (check_If_chain attribute final p test body _ v Hfinal Hall)
    as (w & Hviol & Hcount & Hcheck).
  - (* the last branch of the chain *)
    cbn [Ast.if_chain] in Hcheck. cbn [Ast.if_chain TypeCode.visit].
    rewrite (TypeCode_visit_simple_body file_path source cfg _ final) by done.
    rewrite (TypeCode_visit_simple_body file_path source cfg _ body) by done.
    cbn [length imap] in *. change (Z.of_nat 1) with 1 in *.
    destruct Hcheck as [[Hmin ->]|[Hmin (info & Hinfo & ->)]].
    + exists []. rewrite app_nil_r.
      replace (Z.to_nat (1 + 1 - Z.max 1 (TypeCode.min_branches cfg))) with 0%nat
        by lia.
      split_and!; [done | done | lia].
    + eexists [_]. split_and!.
      * unfold TypeCode._add_violation. cbn [TypeCode.report TypeCode.violations].
        by rewrite Hviol.
      * replace (Z.to_nat (1 + 1 - Z.max 1 (TypeCode.min_branches cfg)))
          with 1%nat by lia.
        cbn [map take RuleViolation.line RuleViolation.metadata]. rewrite Hinfo.
        reflexivity.
      * unfold TypeCode._add_violation.
        cbn [TypeCode.report TypeCode.type_attr_count]. lia.
  - (* a branch followed by others *)
    cbn [Ast.if_chain] in Hcheck. cbn [Ast.if_chain TypeCode.visit fold_left].
    rewrite (TypeCode_visit_simple_body file_path source cfg _ body) by done.
    set (n := Z.of_nat (length ((p, test, body) :: (p', test', body') :: rest)))
      in *.
    assert (n = Z.of_nat (length ((p', test', body') :: rest)) + 1) as Hn
      by (subst n; cbn [length]; lia).
    assert (2 <= n) as Hn2 by (subst n; cbn [length]; lia).
    destruct Hcheck as [[Hmin ->]|[Hmin (info & Hinfo & ->)]].
    + destruct (IH p' test' body' w Hrest) as (new & Hnew & Hlines & Hattr).
      exists new. rewrite Hnew, Hviol. split_and!; [done | | lia].
      rewrite Hlines.
      replace (Z.to_nat (n + 1 - Z.max 1 (TypeCode.min_branches cfg))) with 0%nat
        by lia.
      replace (Z.to_nat _) with 0%nat by lia. done.
    + assert (exists x,
                 TypeCode.violations
                   (TypeCode._add_violation file_path source p info w)
                 = TypeCode.violations w ++ [x]
                 /\ (RuleViolation.line x,
                     PyDict.get "branch_count" (RuleViolation.metadata x))
                    = (Ast.lineno p, Some (PInt n))
                 /\ TypeCode.type_attr_count
                      (TypeCode._add_violation file_path source p info w)
                    = TypeCode.type_attr_count w)
        as (x & Hx1 & Hx2 & Hx3).
      { eexists. split_and!; [reflexivity | | reflexivity].
        cbn [RuleViolation.line RuleViolation.metadata]. by rewrite Hinfo. }
      destruct (IH p' test' body'
                  (TypeCode._add_violation file_path source p info w) Hrest)
        as (new & Hnew & Hlines & Hattr).
      exists (x :: new). rewrite Hnew, Hx1, Hviol, <- app_assoc.
      split_and!; [reflexivity | | lia].
      replace (Z.to_nat (n + 1 - Z.max 1 (TypeCode.min_branches cfg)))
        with (S (Z.to_nat
                   (Z.of_nat (length ((p', test', body') :: rest)) + 1
                    - Z.max 1 (TypeCode.min_branches cfg)))) by lia.
      cbn [map]. rewrite Hlines, Hx2.
      change (imap ?f ((p, test, body) :: ?l))
        with (f 0%nat (p, test, body) :: imap (f ∘ S) l).
      cbn [take]. f_equal. f_equal. apply imap_ext. intros i b _.
      cbn [compose]. do 3 f_equal. lia.
Qed.

End TypeCodeChains.

(** X21. An if/elif chain of [n] branches whose tests all compare the
    same type attribute (such as [self.type]), with bodies of simple
    statements, is analysed once from each of its branches: the rule
    reports the chains that start at the first
    [n + 1 - max(1, min_branches)] branches, the [i]-th (from 0) at the
    line of that branch with [branch_count] [n - i], and the summary's
    [type_attribute_checks] is [n (n + 1) / 2]. *)
Theorem type_code_chain_reported_at_each_branch
    (file_path source : string) (cfg : TypeCode.settings) (attribute : string)
    (p : Ast.pos) (test : Ast.expr) (body : list Ast.stmt)
    (rest : list (Ast.pos * Ast.expr * list Ast.stmt)) (final : list Ast.stmt) :
  Forall
    (fun b =>
       (exists lhs ops comparators,
           b.1.2 = Ast.Compare lhs ops comparators
           /\ TypeCode._is_type_code_subject lhs = true
           /\ Ast.dotted_name lhs = attribute)
       /\ forallb Ast.is_simple_stmt b.2 = true)
    ((p, test, body) :: rest) ->
  forallb Ast.is_simple_stmt final = true ->
  let n := Z.of_nat (length ((p, test, body) :: rest)) in
  let result :=
    TypeCode.analyze file_path source cfg
      (Ast.MkModule [Ast.if_chain p test body rest final]) in
  map
    (fun x =>
       (RuleViolation.line x, PyDict.get "branch_count" (RuleViolation.metadata x)))
    (RuleResult.violations result)
  = take (Z.to_nat (n + 1 - Z.max 1 (TypeCode.min_branches cfg)))
      (imap (fun i b => (Ast.lineno b.1.1, Some (PInt (n - Z.of_nat i))))
         ((p, test, body) :: rest))
  /\ PyDict.get "type_attribute_checks" (RuleResult.summary result)
     = Some (PInt (n * (n + 1) / 2)).
Proof.
  intros Hall Hfinal. cbv zeta.
  destruct (visit_if_chain file_path source cfg attribute final Hfinal rest p test
              body TypeCode.init_visitor Hall) as (new & Hnew & Hlines & Hattr).
  cbv zeta in Hnew, Hlines, Hattr.
  unfold TypeCode.analyze.
  cbn [RuleResult.violations RuleResult.summary Ast.mod_body fold_left].
  rewrite Hnew. cbn [TypeCode.init_visitor TypeCode.violations app].
  split; [done|].
  cbn [TypeCode.init_visitor TypeCode.type_attr_count] in Hattr.
  rewrite Z.sub_0_r in Hattr. rewrite <- Hattr.
  rewrite Z.mul_comm, Z.div_mul by done. reflexivity.
Qed.

Lemma type_code_chain_reported_at_each_branch_witness :
  exists cfg,
    TypeCode.__init__ [] = Some cfg
    /\ map
         (fun x =>
            (RuleViolation.line x,
             PyDict.get "branch_count" (RuleViolation.metadata x)))
         (RuleResult.violations
            (TypeCode.analyze "bird.py" Samples.bird_source cfg Samples.bird_tree))
       = [(1, Some (PInt 3)); (3, Some (PInt 2))]
    /\ PyDict.get "type_attribute_checks"
         (RuleResult.summary
            (TypeCode.analyze "bird.py" Samples.bird_source cfg Samples.bird_tree))
       = Some (PInt 6).
Proof.
  eexists. split; [reflexivity|].
  apply (type_code_chain_reported_at_each_branch "bird.py" Samples.bird_source
           (TypeCode.mkSettings 2 true true) "self.type" (Ast.Pos 1 0)
           (Samples.self_type_test (Ast.Pos 1 3) [Ast.Eq] "EUROPEAN") [Ast.Pass]
           [(Ast.Pos 3 0, Samples.self_type_test (Ast.Pos 3 5) [Ast.Eq] "AFRICAN",
             [Ast.Pass]);
            (Ast.Pos 5 0,
             Samples.self_type_test (Ast.Pos 5 5) [Ast.Eq] "NORWEGIAN_BLUE",
             [Ast.Pass])]
           []).
  - repeat constructor; eexists _, _, _; split_and!; reflexivity.
  - reflexivity.
Defined.

(** ** Analysis of several files *)

Section UpdateFacts.

Context {V : Type}.

Lemma get_app k (d1 d2 : dict V) :
  PyDict.get k (d1 ++ d2)
  = match PyDict.get k d1 with Some v => Some v | None => PyDict.get k d2 end.
Proof.
  induction d1 as [|[k' v'] d1 IH]; [done|].
  cbn [app PyDict.get]. by case_bool_decide.
Qed.

Lemma get_set k k' (v : V) d :
  PyDict.get k (PyDict.set k' v d)
  = if bool_decide (k = k') then Some v else PyDict.get k d.
Proof.
  case_bool_decide as Hk.
  - subst. apply get_set_eq.
  - apply get_set_ne. congruence.
Qed.

(** After [d.update(other)], a key has its last value in [other], or
    the value it had in [d]. *)
Lemma get_update k (other d : dict V) :
  PyDict.get k (PyDict.update other d) = PyDict.get k (reverse other ++ d).
Proof.
  unfold PyDict.update. revert d.
  induction other as [|[k' v'] other IH]; intros d; [done|].
  cbn [fold_left fst snd]. rewrite IH, reverse_cons, <- app_assoc.
  rewrite !get_app. destruct (PyDict.get k (reverse other)); [done|].
  cbn [app PyDict.get]. rewrite get_set. by case_bool_decide.
Qed.

Lemma get_fold_update {A} (f : A -> dict V) k (l : list A) (d : dict V) :
  PyDict.get k (fold_left (fun d x => PyDict.update (f x) d) l d)
  = PyDict.get k (reverse (concat (map f l)) ++ d).
Proof.
  revert d. induction l as [|x l IH]; intros d; [done|].
  cbn [fold_left map concat]. rewrite IH, reverse_app, <- app_assoc.
  rewrite !get_app. destruct (PyDict.get k (reverse (concat (map f l)))); [done|].
  rewrite get_update. by rewrite get_app.
Qed.

End UpdateFacts.

Lemma analyze_files_spec (self : BaseRule.t)
    (files : list (Ast.Module * string * string))
    (all_violations : list RuleViolation.t)
    (combined_summary combined_metadata : dict pyval) :
  match BaseRule.analyze_files self files all_violations combined_summary
          combined_metadata with
  | Return combined =>
      exists results,
        Forall2
          (fun file result =>
             BaseRule.analyze self file.1.1 file.1.2 file.2 = Return result)
          files results
        /\ RuleResult.rule_name combined = BaseRule.name self
        /\ RuleResult.violations combined
           = all_violations ++ concat (map RuleResult.violations results)
        /\ RuleResult.summary combined
           = fold_left (fun d result => PyDict.update (RuleResult.summary result) d)
               results combined_summary
        /\ RuleResult.metadata combined
           = fold_left (fun d result => PyDict.update (RuleResult.metadata result) d)
               results combined_metadata
  | Raise e =>
      exists before file after,
        files = before ++ file :: after
        /\ Forall
             (fun file =>
                exists result,
                  BaseRule.analyze self file.1.1 file.1.2 file.2 = Return result)
             before
        /\ BaseRule.analyze self file.1.1 file.1.2 file.2 = Raise e
  end.
Proof.
  revert all_violations combined_summary combined_metadata.
  induction files as [|[[tree source] file_path] files IH];
    intros all_violations combined_summary combined_metadata.
  - cbn [BaseRule.analyze_files]. exists [].
    cbn [RuleResult.rule_name RuleResult.violations RuleResult.summary
         RuleResult.metadata map concat fold_left].
    rewrite app_nil_r. by split_and!; [constructor|..].
  - cbn [BaseRule.analyze_files].
    destruct (BaseRule.analyze self tree source file_path) as [result|e] eqn:Hrun.
    + specialize (IH (all_violations ++ RuleResult.violations result)
                    (PyDict.update (RuleResult.summary result) combined_summary)
                    (PyDict.update (RuleResult.metadata result) combined_metadata)).
      destruct (BaseRule.analyze_files self files _ _ _) as [combined|e].
      * destruct IH as (results & Hall & Hname & Hviol & Hsum & Hmeta).
        exists (result :: results).
        split_and!; [by constructor | done | | done | done].
        rewrite Hviol. cbn [map concat]. by rewrite <- app_assoc.
      * destruct IH as (before & file & after & -> & Hbefore & Hfile).
        exists ((tree, source, file_path) :: before), file, after.
        split_and!; [done | | done]. constructor; [|done]. by exists result.
    + exists [], (tree, source, file_path), files. by split_and!.
Qed.

(** X22. [BaseRule.analyze_multiple] analyses the files in order.  When
    [analyze] returns for every file, the combined result carries the
    rule's name and the violations of all files, in the order of the
    files, and each key of the summary and of the metadata has the value
    of the last file that has it: values of earlier files are overwritten,
    not added up.  When [analyze] raises for a file, the exception of the
    first such file leaves [analyze_multiple] and nothing is returned for
    the other files. *)
Theorem analyze_multiple_combines (self : BaseRule.t)
    (files : list (Ast.Module * string * string)) :
  match BaseRule.analyze_multiple self files with
  | Return combined =>
      exists results,
        Forall2
          (fun file result =>
             BaseRule.analyze self file.1.1 file.1.2 file.2 = Return result)
          files results
        /\ RuleResult.rule_name combined = BaseRule.name self
        /\ RuleResult.violations combined
           = concat (map RuleResult.violations results)
        /\ (forall k,
               PyDict.get k (RuleResult.summary combined)
               = PyDict.get k (reverse (concat (map RuleResult.summary results))))
        /\ (forall k,
               PyDict.get k (RuleResult.metadata combined)
               = PyDict.get k (reverse (concat (map RuleResult.metadata results))))
  | Raise e =>
      exists before file after,
        files = before ++ file :: after
        /\ Forall
             (fun file =>
                exists result,
                  BaseRule.analyze self file.1.1 file.1.2 file.2 = Return result)
             before
        /\ BaseRule.analyze self file.1.1 file.1.2 file.2 = Raise e
  end.
Proof.
  unfold BaseRule.analyze_multiple.
  pose proof (analyze_files_spec self files [] [] []) as Hspec.
  destruct (BaseRule.analyze_files self files [] [] []) as [combined|e]; [|done].
  destruct Hspec as (results & Hall & Hname & Hviol & Hsum & Hmeta).
  exists results. split_and!; [done | done | done | |].
  - intros k. by rewrite Hsum, get_fold_update, app_nil_r.
  - intros k. by rewrite Hmeta, get_fold_update, app_nil_r.
Qed.

Section DirectoryFacts.

Variable ast_parse : string -> string -> outcome Ast.Module.
Variable fs : Safety.filesystem.
Variable read_text : string -> outcome string.
Variable fnmatch : string -> string -> bool.
Variable relative_to : string -> string -> option string.
Variable analyze_multiple :
  BaseRule.t -> list (Ast.Module * string * string) -> outcome RuleResult.t.

Lemma matches_any_existsb name patterns :
  OOPAnalyzer.matches_any fnmatch name patterns = existsb (fnmatch name) patterns.
Proof.
  induction patterns as [|pattern patterns IH]; [done|].
  cbn [OOPAnalyzer.matches_any existsb]. by destruct (fnmatch name pattern).
Qed.

Lemma filter_files_filter (self : OOPAnalyzer.t) files base_path :
  OOPAnalyzer._filter_files fnmatch relative_to self files base_path
  = List.filter
      (fun file_path =>
         negb (existsb
                 (fnmatch (default file_path (relative_to file_path base_path)))
                 (AnalyzerConfig.exclude_patterns (OOPAnalyzer.config self)))
         && existsb (fnmatch (Safety.path_name file_path))
              (AnalyzerConfig.include_patterns (OOPAnalyzer.config self)))
      files.
Proof.
  unfold OOPAnalyzer._filter_files.
  match goal with
  | |- fold_left ?f files [] = ?r =>
      assert (forall filtered, fold_left f files filtered = filtered ++ r) as Hfold
  end; [|by rewrite Hfold].
  induction files as [|file_path files IH]; intros filtered.
  - by rewrite app_nil_r.
  - cbn [fold_left List.filter]. cbv zeta. rewrite IH, !matches_any_existsb.
    destruct (existsb _ (AnalyzerConfig.exclude_patterns _)); cbn [negb andb];
      [done|].
    destruct (existsb _ (AnalyzerConfig.include_patterns _)); [|done].
    by rewrite <- app_assoc.
Qed.

(** The loop of [analyze_directory] over the files keeps, in order, the
    files that pass the validation, can be read and parse, and appends one
    error record, with the path under ["file"], for each other file. *)
Lemma parse_files_fold (self : OOPAnalyzer.t) (files : list string)
    (parsed_files : list (Ast.Module * string * string))
    (all_files : list string) (errors : list (dict pyval)) :
  let parse (file_path : string) :=
    if SafetyReport.is_safe
         (Safety.validate_file_path (OOPAnalyzer.safety self) fs file_path)
    then
      match read_text file_path with
      | Return source =>
          match ast_parse source file_path with
          | Return tree => Some (tree, source, file_path)
          | Raise _ => None
          end
      | Raise _ => None
      end
    else None in
  exists file_errors,
    fold_left (OOPAnalyzer.parse_file ast_parse fs read_text self) files
      (parsed_files, all_files, errors)
    = (parsed_files ++ omap parse files,
       all_files ++ map snd (omap parse files),
       errors ++ file_errors)
    /\ map (PyDict.get "file") file_errors
       = map (fun file_path => Some (PStr file_path))
           (List.filter
              (fun file_path =>
                 match parse file_path with Some _ => false | None => true end)
              files).
Proof.
  intros parse. subst parse. revert parsed_files all_files errors.
  induction files as [|file_path files IH]; intros parsed_files all_files errors.
  - exists []. by rewrite !app_nil_r.
  - cbn [fold_left omap list_omap List.filter].
    unfold OOPAnalyzer.parse_file at 2, Safety.parse_safely. cbn [snd].
    cbv beta.
    destruct (SafetyReport.is_safe _); cbn [negb].
    2: { destruct (IH parsed_files all_files
                     (errors
                      ++ [OOPAnalyzer.validation_error file_path
                            (SafetyReport.issues
                               (Safety.validate_file_path
                                  (OOPAnalyzer.safety self) fs file_path))]))
           as (file_errors & -> & Hfiles).
         eexists (_ :: file_errors). rewrite <- app_assoc. split; [reflexivity|].
         cbn [map]. by rewrite Hfiles. }
    destruct (read_text file_path) as [source|e].
    2: { destruct (IH parsed_files all_files
                     (errors ++ [OOPAnalyzer.read_error file_path e]))
           as (file_errors & -> & Hfiles).
         eexists (_ :: file_errors). rewrite <- app_assoc. split; [reflexivity|].
         cbn [map]. by rewrite Hfiles. }
    destruct (ast_parse source file_path) as [tree|e].
    + destruct (IH (parsed_files ++ [(tree, source, file_path)])
                  (all_files ++ [file_path]) errors)
        as (file_errors & -> & Hfiles).
      exists file_errors. rewrite <- !app_assoc. by split.
    + destruct (is_SyntaxError e).
      * destruct (IH parsed_files all_files
                    (errors ++ [[("file", PStr file_path);
                                 ("error", PStr "Failed to parse file")]]))
          as (file_errors & -> & Hfiles).
        eexists (_ :: file_errors). rewrite <- app_assoc. split; [reflexivity|].
        cbn [map]. by rewrite Hfiles.
      * destruct (IH parsed_files all_files
                    (errors ++ [OOPAnalyzer.read_error file_path e]))
          as (file_errors & -> & Hfiles).
        eexists (_ :: file_errors). rewrite <- app_assoc. split; [reflexivity|].
        cbn [map]. by rewrite Hfiles.
Qed.

Lemma run_rules_multiple_partition
    (parsed_files : list (Ast.Module * string * string))
    (rules : dict BaseRule.t) (results : dict RuleResult.t)
    (errors : list (dict pyval)) :
  NoDup (PyDict.keys results ++ PyDict.keys rules) ->
  fold_left (OOPAnalyzer.run_rule_multiple analyze_multiple parsed_files) rules
    (results, errors)
  = (results
     ++ omap (fun entry : string * BaseRule.t =>
                match analyze_multiple (snd entry) parsed_files with
                | Return result => Some (fst entry, result)
                | Raise _ => None
                end) rules,
     errors
     ++ omap (fun entry : string * BaseRule.t =>
                match analyze_multiple (snd entry) parsed_files with
                | Return _ => None
                | Raise e =>
                    Some [("rule", PStr (fst entry));
                          ("error", PStr (str_of_exception e))]
                end) rules).
Proof.
  revert results errors.
  induction rules as [|[name rule] rules IH]; intros results errors Hnd.
  - cbn. by rewrite !app_nil_r.
  - cbn [fold_left OOPAnalyzer.run_rule_multiple omap list_omap fst snd].
    assert (name ∉ PyDict.keys results) as Hfresh.
    { apply NoDup_app in Hnd as (_ & Hdis & _). intros Hin. apply (Hdis _ Hin). left. }
    destruct (analyze_multiple rule parsed_files) as [result|e].
    + rewrite IH.
      * rewrite set_fresh by done. by rewrite <- app_assoc.
      * rewrite set_fresh by done. unfold PyDict.keys in *.
        rewrite map_app. cbn [map fst]. rewrite <- app_assoc. exact Hnd.
    + rewrite IH.
      * by rewrite <- app_assoc.
      * unfold PyDict.keys in *. cbn [map fst] in Hnd.
        apply NoDup_app in Hnd as (H1 & H2 & H3). apply NoDup_cons in H3 as [_ H3].
        apply NoDup_app. split_and!; [done | | done].
        intros x Hx Hin. apply (H2 x Hx). by right.
Qed.

End DirectoryFacts.

(** X23. [_filter_files] keeps, in their order, the files of which no
    exclude pattern matches the path relative to the base (the path itself
    when it is not below the base) and of which some include pattern
    matches the file name: an exclude pattern wins over every include
    pattern, and with no include pattern no file is kept. *)
Theorem filter_files_keeps_included_not_excluded
    (fnmatch : string -> string -> bool)
    (relative_to : string -> string -> option string)
    (self : OOPAnalyzer.t) (files : list string) (base_path : string) :
  let filtered := OOPAnalyzer._filter_files fnmatch relative_to self files base_path in
  sublist filtered files
  /\ forall file_path,
      file_path ∈ filtered
      <-> file_path ∈ files
          /\ (forall pattern,
                 pattern ∈ AnalyzerConfig.exclude_patterns (OOPAnalyzer.config self) ->
                 fnmatch (default file_path (relative_to file_path base_path)) pattern
                 = false)
          /\ exists pattern,
              pattern ∈ AnalyzerConfig.include_patterns (OOPAnalyzer.config self)
              /\ fnmatch (Safety.path_name file_path) pattern = true.
Proof.
  cbv zeta. rewrite filter_files_filter. split.
  - induction files as [|file_path files IH]; [done|].
    cbn [List.filter]. destruct (_ && _); by constructor.
  - intros file_path. rewrite list_elem_of_In, List.filter_In, <- list_elem_of_In.
    rewrite andb_true_iff, negb_true_iff.
    rewrite <- not_true_iff_false, !List.existsb_exists.
    split.
    + intros (Hin & Hexcl & pattern & Hpat & Hmatch). split_and!; [done | |].
      * intros pattern' Hpat'. apply not_true_iff_false. intros Hmatch'.
        apply Hexcl. exists pattern'. by rewrite <- list_elem_of_In.
      * exists pattern. by rewrite list_elem_of_In.
    + intros (Hin & Hexcl & pattern & Hpat & Hmatch). split_and!; [done | |].
      * intros (pattern' & Hpat' & Hmatch'). apply list_elem_of_In in Hpat'.
        by rewrite (Hexcl _ Hpat') in Hmatch'.
      * exists pattern. by rewrite <- list_elem_of_In.
Qed.

(** X24. [analyze_directory] of an analyzer built by [__init__], on a
    directory that passes the validation, accounts for every file that
    [_filter_files] keeps and for every rule.  The files that pass
    [validate_file_path], can be read and parse are the files analysed, in
    order, and each rule is handed all of them at once; every other file
    has one error record with its path under ["file"].  The results are
    those of the rules whose [analyze_multiple] returned, and each rule
    whose [analyze_multiple] raised has one error record, after those of
    the files.  On a path that fails the validation no rule is run and the
    report has a single error record. *)
Theorem analyze_directory_accounts_for_files_and_rules
    (ast_parse : string -> string -> outcome Ast.Module)
    (fs : Safety.filesystem) (read_text : string -> outcome string)
    (rglob_py : string -> list string) (fnmatch : string -> string -> bool)
    (relative_to : string -> string -> option string)
    (analyze_multiple :
       BaseRule.t -> list (Ast.Module * string * string) -> outcome RuleResult.t)
    (RULE_REGISTRY : dict (dict pyval -> BaseRule.t))
    (config : option AnalyzerConfig.t) (now : Z) (path : string) :
  let self := OOPAnalyzer.__init__ RULE_REGISTRY config in
  let report :=
    OOPAnalyzer.analyze_directory ast_parse fs read_text rglob_py fnmatch
      relative_to analyze_multiple self now path in
  let files :=
    OOPAnalyzer._filter_files fnmatch relative_to self
      (Safety.collect_python_files rglob_py fs path) path in
  let parse (file_path : string) :=
    if SafetyReport.is_safe
         (Safety.validate_file_path (OOPAnalyzer.safety self) fs file_path)
    then
      match read_text file_path with
      | Return source =>
          match ast_parse source file_path with
          | Return tree => Some (tree, source, file_path)
          | Raise _ => None
          end
      | Raise _ => None
      end
    else None in
  let parsed_files := omap parse files in
  if SafetyReport.is_safe (Safety.validate_directory fs path) then
    AnalysisReport.files_analyzed report = map snd parsed_files
    /\ AnalysisReport.results report
       = omap (fun entry : string * BaseRule.t =>
                 match analyze_multiple (snd entry) parsed_files with
                 | Return result => Some (fst entry, result)
                 | Raise _ => None
                 end) (OOPAnalyzer._rules self)
    /\ exists file_errors,
        AnalysisReport.errors report
        = file_errors
          ++ omap (fun entry : string * BaseRule.t =>
                     match analyze_multiple (snd entry) parsed_files with
                     | Return _ => None
                     | Raise e =>
                         Some [("rule", PStr (fst entry));
                               ("error", PStr (str_of_exception e))]
                     end) (OOPAnalyzer._rules self)
        /\ map (PyDict.get "file") file_errors
           = map (fun file_path => Some (PStr file_path))
               (List.filter
                  (fun file_path =>
                     match parse file_path with Some _ => false | None => true end)
                  files)
  else
    AnalysisReport.files_analyzed report = []
    /\ AnalysisReport.results report = []
    /\ exists record,
        AnalysisReport.errors report = [record]
        /\ PyDict.get "path" record = Some (PStr path)
        /\ PyDict.get "error" record = Some (PStr "Directory validation failed").
Proof.
  cbv zeta. unfold OOPAnalyzer.analyze_directory.
  destruct (SafetyReport.is_safe (Safety.validate_directory fs path)); cbn [negb].
  2: { unfold OOPAnalyzer.error_report.
       cbn [AnalysisReport.files_analyzed AnalysisReport.results
            AnalysisReport.errors].
       split_and!; [done | done |]. eexists. split; [reflexivity|]. by split. }
  set (self := OOPAnalyzer.__init__ RULE_REGISTRY config).
  set (files := OOPAnalyzer._filter_files fnmatch relative_to self
                  (Safety.collect_python_files rglob_py fs path) path).
  destruct (parse_files_fold ast_parse fs read_text self files [] [] [])
    as (file_errors & Hparse & Hfiles).
  cbv zeta in Hparse, Hfiles. rewrite Hparse. cbn [app].
  unfold PyDict.items. rewrite run_rules_multiple_partition.
  - cbn [AnalysisReport.files_analyzed AnalysisReport.results
         AnalysisReport.errors app].
    split_and!; [done | done |]. by exists file_errors.
  - cbn [PyDict.keys map app]. subst self.
    destruct config; cbn [OOPAnalyzer.__init__ OOPAnalyzer._rules default
                            from_option id]; apply NoDup_initialize_rules.
Qed.


(** ** Source lines *)

(** X26. For a line number within the text and a context of [c >= 0]
    lines, [get_source_context] joins with line feeds a window of
    consecutive lines of the text: the [min(c, line_number - 1)] lines
    before the line, the line itself as [get_source_line] gives it, and the
    [min(c, len(lines) - line_number)] lines after it. *)
Theorem source_context_surrounds_line (source : string) (line_number context_lines : Z) :
  let lines := PyStr.splitlines source in
  0 <= context_lines ->
  1 <= line_number <= Z.of_nat (length lines) ->
  exists prefix before after suffix,
    lines
    = prefix ++ before ++ [BaseRule.get_source_line source line_number]
      ++ after ++ suffix
    /\ BaseRule.get_source_context source line_number context_lines
       = PyStr.join PyStr.newline
           (before ++ [BaseRule.get_source_line source line_number] ++ after)
    /\ Z.of_nat (length before) = Z.min context_lines (line_number - 1)
    /\ Z.of_nat (length after)
       = Z.min context_lines (Z.of_nat (length lines) - line_number).
Proof.
  intros lines Hcontext Hline.
  unfold BaseRule.get_source_context, BaseRule.get_source_line, BaseRule.slice.
  fold lines.
  replace ((1 <=? line_number) && (line_number <=? Z.of_nat (length lines)))
    with true by (symmetry; apply andb_true_iff; lia).
  destruct (lookup_lt_is_Some_2 lines (Z.to_nat (line_number - 1))) as [x Hx];
    [lia|].
  rewrite Hx. cbn [default from_option id].
  pose proof (take_drop_middle lines _ x Hx) as Hsplit.
  set (i := Z.to_nat (line_number - 1)) in *.
  set (l1 := take i lines) in *. set (l2 := drop (S i) lines) in *.
  assert (length l1 = i) as Hl1 by (subst l1; rewrite length_take; lia).
  assert (length lines = (i + S (length l2))%nat) as Hlen
    by (rewrite <- Hsplit, length_app; cbn [length]; lia).
  set (start := Z.max 0 (line_number - context_lines - 1)).
  set (stop := Z.min (Z.of_nat (length lines)) (line_number + context_lines)).
  replace (if start <? 0 then _ else _) with start
    by (destruct (Z.ltb_spec start 0); lia).
  replace (if stop <? 0 then _ else _) with stop
    by (destruct (Z.ltb_spec stop 0); lia).
  exists (take (Z.to_nat start) l1), (drop (Z.to_nat start) l1),
    (take (Z.to_nat (stop - line_number)) l2),
    (drop (Z.to_nat (stop - line_number)) l2).
  split_and!.
  - rewrite (app_assoc (take _ l1)), take_drop. cbn [app].
    by rewrite take_drop.
  - f_equal. rewrite <- Hsplit at 1.
    rewrite drop_app_le by lia.
    rewrite take_app_ge by (rewrite length_drop; lia).
    f_equal. rewrite length_drop.
    replace (Z.to_nat (stop - start) - (length l1 - Z.to_nat start))%nat
      with (S (Z.to_nat (stop - line_number))) by lia.
    reflexivity.
  - rewrite length_drop. lia.
  - rewrite length_take. lia.
Qed.

Lemma source_context_surrounds_line_witness :
  exists prefix before after suffix,
    PyStr.splitlines Samples.process_source
    = prefix ++ before ++ [BaseRule.get_source_line Samples.process_source 2]
      ++ after ++ suffix
    /\ BaseRule.get_source_context Samples.process_source 2 1
       = PyStr.join PyStr.newline
           (before ++ [BaseRule.get_source_line Samples.process_source 2] ++ after)
    /\ Z.of_nat (length before) = Z.min 1 (2 - 1)
    /\ Z.of_nat (length after)
       = Z.min 1 (Z.of_nat (length (PyStr.splitlines Samples.process_source)) - 2).
Proof.
  apply (source_context_surrounds_line Samples.process_source 2 1).
  - lia.
  - vm_compute. split; discriminate.
Defined.

(** ** XML element names *)

Lemma chars_of_chars l : PyStr.chars (PyStr.of_chars l) = l.
Proof. apply String.list_ascii_of_string_of_list_ascii. Qed.

Lemma of_chars_chars s : PyStr.of_chars (PyStr.chars s) = s.
Proof. apply String.string_of_list_ascii_of_string. Qed.

(** X27. [_sanitize_xml_name] never returns the empty string: its result
    starts with a letter and has no space and no underscore.  A name that
    has these properties already is returned as it is, so sanitizing twice
    is sanitizing once. *)
Theorem sanitize_xml_name_result (name : string) :
  let safe := XMLFormatter._sanitize_xml_name name in
  (exists c, PyStr.head safe = Some c /\ PyStr.char_isalpha c = true)
  /\ Forall (fun c => c <> " "%char /\ c <> "_"%char) (PyStr.chars safe)
  /\ XMLFormatter._sanitize_xml_name safe = safe.
Proof.
  cbv zeta.
  assert (forall s,
             (exists c, PyStr.head s = Some c /\ PyStr.char_isalpha c = true) ->
             Forall (fun c => c <> " "%char /\ c <> "_"%char) (PyStr.chars s) ->
             XMLFormatter._sanitize_xml_name s = s) as Hfixed.
  { intros s (c & Hhead & Halpha) Hall. unfold XMLFormatter._sanitize_xml_name.
    assert (PyStr.replace_char "_" "-" (PyStr.replace_char " " "-" s) = s) as ->.
    { unfold PyStr.replace_char. rewrite chars_of_chars, map_map.
      rewrite <- (of_chars_chars s) at 2. f_equal.
      rewrite <- (map_id (PyStr.chars s)) at 2.
      apply map_ext_Forall. eapply Forall_impl; [exact Hall|].
      intros d [Hspace Hunder]. cbv beta.
      destruct (Ascii.eqb_spec " " d); [done|].
      by destruct (Ascii.eqb_spec "_" d). }
    rewrite Hhead, Halpha. destruct s; [done|]. by rewrite bool_decide_eq_false_2. }
  assert (Forall (fun c => c <> " "%char /\ c <> "_"%char)
            (PyStr.chars
               (PyStr.replace_char "_" "-" (PyStr.replace_char " " "-" name))))
    as Hreplaced.
  { unfold PyStr.replace_char. rewrite !chars_of_chars, map_map.
    apply Forall_map, Forall_forall. intros d _. cbv beta.
    destruct (Ascii.eqb_spec " " d) as [<-|Hspace]; [done|].
    destruct (Ascii.eqb_spec "_" d) as [<-|Hunder]; [done|].
    split; congruence. }
  assert ((exists c,
              PyStr.head (XMLFormatter._sanitize_xml_name name) = Some c
              /\ PyStr.char_isalpha c = true)
          /\ Forall (fun c => c <> " "%char /\ c <> "_"%char)
               (PyStr.chars (XMLFormatter._sanitize_xml_name name)))
    as [Hhead Hall].
  { unfold XMLFormatter._sanitize_xml_name.
    destruct (PyStr.replace_char "_" "-" (PyStr.replace_char " " "-" name))
      as [|c safe] eqn:Hsafe.
    - cbn [PyStr.head]. rewrite bool_decide_eq_true_2 by done.
      split; [by exists "e"%char|].
      repeat (constructor; [split; discriminate|]). constructor.
    - cbn [PyStr.head]. destruct (PyStr.char_isalpha c) eqn:Halpha.
      + rewrite bool_decide_eq_false_2 by done. split; [by exists c | done].
      + rewrite bool_decide_eq_false_2 by done. split; [by exists "x"%char|].
        change (PyStr.chars ("x-" +:+ String c safe))
          with ("x"%char :: "-"%char :: PyStr.chars (String c safe)).
        constructor; [split; discriminate|].
        constructor; [split; discriminate|]. exact Hreplaced. }
  split_and!; [done | done | by apply Hfixed].
Qed.
